(** * StaticMixing: the mixing-performance engine [calculateMixing]

    A shallow embedding of [src/calculations.ts] (with the types of
    [src/types.ts]) and the properties of its specification.

    The engine is straight-line arithmetic over JavaScript numbers.  It is
    embedded once, over an interface [Number] that lists the operators and
    [Math] functions the source uses, and read in two ways:

    - [B64]: IEEE 754 binary64 ([spec_float] with precision 53), the
      arithmetic the program really runs on: rounding, signed zeros,
      infinities and NaN.  The transcendental functions of [Math], which
      ECMAScript leaves implementation-approximated, are a parameter
      ([MathLib]); [refMath] is an executable instance.
    - [Exact]: real numbers extended with NaN and the two infinities, the
      arithmetic the correlations are written in.  It has no rounding and no
      overflow, and is used for the algebraic and ordering properties.

    The form that calls the engine ([src/App.tsx]) is embedded in [App],
    over the same interface: its state, the handlers of its controls, the
    events the rendered form can fire, and the points of its chart. *)

From Stdlib Require Import ZArith QArith Bool String List Lia.
From Stdlib Require Import SpecFloat.
From Stdlib Require Import Reals Lra.

Set Implicit Arguments.

(** ** The number interface *)

(** What [calculateMixing] needs of a JavaScript number: decimal literals,
    the arithmetic and comparison operators, truthiness (for [||]), [isNaN]
    and the members of [Math] it calls. *)
Class Number : Type := {
  num : Type;
  lit : Q -> num;
  Math_PI : num;
  add : num -> num -> num;
  sub : num -> num -> num;
  mul : num -> num -> num;
  div : num -> num -> num;
  neg : num -> num;
  lt : num -> num -> bool;
  le : num -> num -> bool;
  isNaN : num -> bool;
  truthy : num -> bool;
  Math_sqrt : num -> num;
  Math_exp : num -> num;
  Math_log : num -> num;
  Math_log10 : num -> num;
  Math_pow : num -> num -> num;
  Math_max : num -> num -> num;
  Math_min : num -> num -> num
}.

Arguments lit {_} _%_Q.

Declare Scope js_scope.
Delimit Scope js_scope with js.
Bind Scope js_scope with num.

Notation "x + y" := (add x y) : js_scope.
Notation "x - y" := (sub x y) : js_scope.
Notation "x * y" := (mul x y) : js_scope.
Notation "x / y" := (div x y) : js_scope.
Notation "- x" := (neg x) : js_scope.
Notation "x < y" := (lt x y) : js_scope.
Notation "x > y" := (lt y x) (only parsing) : js_scope.
Notation "x <= y" := (le x y) : js_scope.

(** [x || y] on numbers: [x] when it is truthy (neither a zero nor NaN),
    else [y]. *)
Definition or_else {N : Number} (x y : num) : num :=
  if truthy x then x else y.

Notation "x || y" := (or_else x y) : js_scope.

(** ** src/types.ts *)

Inductive ConduitType := PIPE | CHANNEL.
Inductive ConduitShape := CIRCULAR | RECTANGULAR.
Inductive MixerModel := NONE | KENICS_KM | HEV | SMV | STM | BAFFLES | WEIR.
Inductive InjectionType := SINGLE | TWIN.
Inductive PitchRatio := PR_1_125 | PR_1_5 | PR_2_25.
Inductive MomentumRegime := Low | Intermediate | High.

Record MixingInputs {N : Number} := {
  conduitType : ConduitType;
  conduitShape : ConduitShape;
  mixerModel : MixerModel;
  numElements : num;
  flowRate : num;
  dimension : num;
  depth : option num;
  availableLength : num;
  viscosity : num;
  density : num;
  chemicalType : string;
  chemicalDose : num;
  chemicalFlow : num;
  chemicalDensity : num;
  chemicalViscosity : num;
  dilutionWaterFlow : num;
  targetCoV : num;
  targetMixingTime : num;
  slurryConcentration : option num;
  injectionType : InjectionType;
  pitchRatio : PitchRatio;
  waterTemperature : num
}.

Record CalculationResults {N : Number} := {
  velocity : num;
  reynoldsNumber : num;
  momentumRatio : num;
  momentumRegime : MomentumRegime;
  naturalMixingCoV : num;
  mixerCoV : num;
  isCompliant : bool;
  isTimeCompliant : bool;
  mixingDistanceNeeded : num;
  mixingTimeNeeded : num;
  viscosityRatio : num;
  injectedViscosity : num;
  injectedDensity : num;
  totalInjectionFlow : num;
  headloss : num;
  headlossMeters : num;
  gValue : num;
  limeSaturationLimit : num;
  dissolvedAtTarget : num;
  timeTo95Dissolution : num;
  distanceTo95Dissolution : num;
  suggestedOrificeDiameter : num;
  manufacturerNotes : string;
  hydraulicDiameter : num;
  wettedArea : num
}.

Arguments MixingInputs : clear implicits.
Arguments CalculationResults : clear implicits.

(** ** src/calculations.ts *)

(** [String.prototype.includes]. *)
Fixpoint includes (s sub : string) : bool :=
  if String.prefix sub s then true
  else match s with
       | EmptyString => false
       | String _ s' => includes s' sub
       end.

Local Open Scope js_scope.

(** The three variables assigned by lines 30-51. *)
Module Geometry.
Record t {N : Number} := {
  area : num;
  perimeter : num;
  hydraulicDiameter : num
}.
Arguments t : clear implicits.
End Geometry.

(** Lines 30-51: cross-section area, wetted perimeter and hydraulic
    diameter.  [depth] is the destructured variable, the default already
    applied. *)
Definition geometry {N : Number} (conduitType : ConduitType)
    (conduitShape : ConduitShape) (dimension depth : num) : Geometry.t N :=
  match conduitType with
  | PIPE =>
      match conduitShape with
      | CIRCULAR =>
          {| Geometry.area := Math_PI * Math_pow (dimension / lit 2) (lit 2);
             Geometry.perimeter := Math_PI * dimension;
             Geometry.hydraulicDiameter := dimension |}
      | RECTANGULAR =>
          (* Rectangular Duct (Closed) *)
          let area := dimension * (depth || dimension) in
          let perimeter := lit 2 * (dimension + (depth || dimension)) in
          {| Geometry.area := area;
             Geometry.perimeter := perimeter;
             Geometry.hydraulicDiameter := (lit 4 * area) / perimeter |}
      end
  | CHANNEL =>
      (* CHANNEL (Open top) *)
      let area := dimension * depth in
      {| Geometry.area := area;
         Geometry.perimeter := dimension + lit 2 * depth;
         Geometry.hydraulicDiameter :=
           (lit 4 * area) / (dimension + lit 2 * depth) |}
  end.

(** Lines 69-71. *)
Definition regime {N : Number} (momentumRatio : num) : MomentumRegime :=
  if momentumRatio < lit 0.16 then Low
  else if momentumRatio > lit 0.24 then High
  else Intermediate.

Definition default_notes : string :=
  "Standard BHR quill recommendations apply.".

(** The four variables the [switch] of lines 83-151 assigns. *)
Module Switch.
Record t {N : Number} := {
  mixerCoV : num;
  FD : num;
  Lm : num;
  manufacturerNotes : string
}.
Arguments t : clear implicits.
End Switch.

(** Lines 76-151: the variables as the [switch] leaves them; a case that
    does not assign one leaves its initial value (1.0, 0.02, 0,
    [default_notes]). *)
Definition correlation {N : Number} (mixerModel : MixerModel)
    (injectionType : InjectionType) (conduitType : ConduitType)
    (pitchRatio : PitchRatio)
    (Re alpha numElements LD hydraulicDiameter availableLength momentumRatio : num)
    : Switch.t N :=
  match mixerModel with
  | KENICS_KM =>
      {| Switch.mixerCoV :=
           match injectionType with
           | SINGLE =>
               lit 0.96 * Math_pow Re (lit (-0.1)) * Math_pow alpha (lit 0.03)
               * Math_pow numElements (lit (-1.9))
           | TWIN =>
               lit 0.38 * Math_pow Re (lit 0.008) * Math_pow alpha (lit 0.08)
               * Math_pow numElements (lit (-2.1))
           end;
         Switch.FD := lit 1.9;
         Switch.Lm := numElements * lit 1.5 * hydraulicDiameter;
         Switch.manufacturerNotes :=
           "Chemineer recommends the quill terminate at 0.5Dh upstream. DH calculated for current geometry." |}
  | HEV =>
      match conduitType with
      | CHANNEL =>
          {| Switch.mixerCoV :=
               lit 60 * Math_pow LD (lit (-0.6))
               * Math_pow numElements (lit (-0.9)) * Math_pow Re (lit (-0.4));
             Switch.FD := lit 0.45;
             Switch.Lm := numElements * hydraulicDiameter;
             Switch.manufacturerNotes :=
               "HEV tabs work best when injection is centered relative to the DH axis." |}
      | PIPE =>
          {| Switch.mixerCoV :=
               if LD <= lit 3
               then lit 31.5 * Math_pow Re (lit (-0.2))
                    * Math_pow alpha (lit (-0.15))
                    * Math_pow numElements (lit (-1.7))
               else lit 1.1 * Math_pow Re (lit (-0.04))
                    * Math_pow alpha (lit 0.02)
                    * Math_pow numElements (lit (-1.9));
             Switch.FD := lit 0.6;
             Switch.Lm := numElements * hydraulicDiameter;
             Switch.manufacturerNotes :=
               "HEV tabs work best when injection is centered relative to the DH axis." |}
      end
  | SMV =>
      {| Switch.mixerCoV :=
           lit 0.3 * Math_pow Re (lit (-0.02)) * Math_pow alpha (lit (-0.01))
           * Math_pow numElements (lit (-1.6));
         Switch.FD := lit 10.1;
         Switch.Lm := numElements * hydraulicDiameter;
         Switch.manufacturerNotes :=
           "Sulzer SMV is high-performance; initial distribution is critical for short conduits." |}
  | STM =>
      match conduitType with
      | CHANNEL =>
          {| Switch.mixerCoV :=
               match pitchRatio with
               | PR_1_125 =>
                   lit 2.10e-4 * Math_pow LD (lit (-0.2))
                   * Math_pow numElements (lit (-0.3))
                   * Math_pow alpha (lit (-0.02)) * Math_pow Re (lit 0.7)
               | PR_1_5 =>
                   lit 0.29 * Math_pow LD (lit (-0.07))
                   * Math_pow numElements (lit (-0.25))
                   * Math_pow alpha (lit 0.1) * Math_pow Re (lit (-0.2))
               | PR_2_25 =>
                   lit 48 * Math_pow LD (lit (-0.2))
                   * Math_pow numElements (lit (-0.2))
                   * Math_pow alpha (lit 0.7) * Math_pow Re (lit (-1.1))
               end;
             Switch.FD :=
               match pitchRatio with
               | PR_1_125 => lit 3.0
               | PR_1_5 => lit 7.6
               | PR_2_25 => lit 1.9
               end;
             Switch.Lm := numElements * lit 0.5 * hydraulicDiameter;
             Switch.manufacturerNotes := default_notes |}
      | PIPE =>
          {| Switch.mixerCoV :=
               match pitchRatio with
               | PR_1_5 =>
                   lit 0.29 * Math_pow Re (lit (-0.2)) * Math_pow alpha (lit 0.09)
                   * Math_pow numElements (lit (-0.6))
               | _ =>
                   lit 0.28 * Math_pow Re (lit (-0.04)) * Math_pow alpha (lit 0.10)
                   * Math_pow numElements (lit (-2.1))
               end;
             Switch.FD := match pitchRatio with PR_1_5 => lit 4.15 | _ => lit 2.3 end;
             Switch.Lm := numElements * lit 0.8 * hydraulicDiameter;
             Switch.manufacturerNotes := default_notes |}
      end
  | NONE | BAFFLES | WEIR =>
      let FD :=
        lit 0.25
        / Math_pow
            (Math_log10
               (lit 0.0001 / (lit 3.7 * hydraulicDiameter)
                + lit 5.74 / Math_pow Re (lit 0.9)))
            (lit 2) in
      {| Switch.mixerCoV :=
           match conduitType with
           | CHANNEL =>
               let mrSafe := Math_max (lit 0.01) momentumRatio in
               lit 0.0183 * Math_pow LD (lit (-1) / lit 1.3)
               * Math_pow mrSafe (lit (-2.21) / lit 1.3)
           | PIPE =>
               let CoVi := Math_sqrt alpha in
               lit 2 * CoVi * Math_exp (lit (-0.75) * Math_sqrt FD * LD)
           end;
         Switch.FD := FD;
         Switch.Lm := availableLength;
         Switch.manufacturerNotes := default_notes |}
  end.

(** Line 153. *)
Definition clampCoV {N : Number} (mixerCoV : num) : num :=
  if isNaN mixerCoV then lit 1.0
  else Math_min (lit 1.0) (Math_max (lit 0.0001) mixerCoV).

(** The variables bound in the body of [calculateMixing], under the names
    the source gives them; [mixerCoV_raw] is [mixerCoV] as the [switch]
    leaves it, [mixerCoV] its value after line 153. *)
Module Body.
Record t {N : Number} := {
  depth : num;
  totalInjectionFlowLh : num;
  totalInjectionFlowM3s : num;
  x_chem : num;
  x_water : num;
  injectedDensity : num;
  injectedViscosity : num;
  area : num;
  perimeter : num;
  hydraulicDiameter : num;
  Q_m3s : num;
  velocity : num;
  Re : num;
  flowPerPointM3s : num;
  suggestedOrificeDiameter : num;
  u_inj_actual : num;
  momentumRatio : num;
  momentumRegime : MomentumRegime;
  alpha : num;
  LD : num;
  mixerCoV_raw : num;
  FD : num;
  Lm : num;
  manufacturerNotes : string;
  mixerCoV : num;
  headlossMeters : num;
  headlossKpa : num;
  powerDissipated : num;
  volForG : num;
  gValue : num;
  limeSaturationLimit : num;
  rateK : num;
  timeTo95 : num;
  distanceTo95 : num;
  decayRate : num;
  mixingDistanceNeeded : num;
  finalDistanceNeeded : num;
  mixingTimeNeeded : num;
  dissolvedAtTarget : num
}.
Arguments t : clear implicits.
End Body.

(** Lines 5-174 of [calculateMixing]: everything before the [return]. *)
Definition body {N : Number} (inputs : MixingInputs N) : Body.t N :=
  let depth := match depth inputs with Some d => d | None => lit 0.5 end in
  let g := lit 9.81 in
  let waterDensity := lit 1000 in
  let waterViscosity := lit 0.001 in
  (* 1. Dilution & Injection Properties *)
  let totalInjectionFlowLh := chemicalFlow inputs + dilutionWaterFlow inputs in
  let totalInjectionFlowM3s := totalInjectionFlowLh / lit 3600000 in
  let x_chem := chemicalFlow inputs / (totalInjectionFlowLh || lit 1) in
  let x_water := dilutionWaterFlow inputs / (totalInjectionFlowLh || lit 1) in
  let injectedDensity :=
    (x_chem * chemicalDensity inputs) + (x_water * waterDensity) in
  let injectedViscosity :=
    Math_exp (x_chem * Math_log (chemicalViscosity inputs || lit 1e-6)
              + x_water * Math_log (waterViscosity || lit 1e-6)) in
  (* 2. Comprehensive Geometry & Hydraulics *)
  let geo :=
    geometry (conduitType inputs) (conduitShape inputs) (dimension inputs)
      depth in
  let area := Geometry.area geo in
  let perimeter := Geometry.perimeter geo in
  let hydraulicDiameter := Geometry.hydraulicDiameter geo in
  let Q_m3s := flowRate inputs / lit 3600 in
  let velocity := Q_m3s / (area || lit 1e-6) in
  let Re :=
    (density inputs * velocity * hydraulicDiameter)
    / (viscosity inputs || lit 1e-6) in
  (* 3. Momentum Ratio *)
  let targetMR := lit 0.22 in
  let numPoints :=
    match injectionType inputs with TWIN => lit 2 | SINGLE => lit 1 end in
  let flowPerPointM3s := totalInjectionFlowM3s / numPoints in
  let suggestedOrificeDiameter :=
    (lit 4 * flowPerPointM3s
     * Math_sqrt (injectedDensity / (density inputs || lit 1)))
    / ((Math_PI * targetMR * velocity * hydraulicDiameter) || lit 1e-6) in
  let d_inj_default := lit 0.025 in
  let u_inj_actual :=
    flowPerPointM3s
    / ((Math_PI * Math_pow (d_inj_default / lit 2) (lit 2)) || lit 1e-9) in
  let momentumRatio :=
    Math_sqrt (injectedDensity / (density inputs || lit 1))
    * (u_inj_actual * d_inj_default
       / ((velocity * hydraulicDiameter) || lit 1e-6)) in
  let momentumRegime := regime momentumRatio in
  let alpha := (Q_m3s * lit 3600000) / (totalInjectionFlowLh || lit 1) in
  (* 4. CoV Correlations *)
  let LD := availableLength inputs / hydraulicDiameter in
  let sw :=
    correlation (mixerModel inputs) (injectionType inputs) (conduitType inputs)
      (pitchRatio inputs) Re alpha (numElements inputs) LD hydraulicDiameter
      (availableLength inputs) momentumRatio in
  let mixerCoV_raw := Switch.mixerCoV sw in
  let FD := Switch.FD sw in
  let Lm := Switch.Lm sw in
  let manufacturerNotes := Switch.manufacturerNotes sw in
  let mixerCoV := clampCoV mixerCoV_raw in
  (* 5. Headloss & G-Value *)
  let headlossMeters :=
    match mixerModel inputs with
    | WEIR => lit 0.15
    | _ => (FD * Lm * Math_pow velocity (lit 2)) / (lit 2 * g * hydraulicDiameter)
    end in
  let headlossKpa := (headlossMeters * density inputs * g) / lit 1000 in
  let powerDissipated := headlossKpa * lit 1000 * Q_m3s in
  let volForG := area * Math_max Lm hydraulicDiameter in
  let gValue :=
    Math_sqrt (powerDissipated / ((viscosity inputs * volForG) || lit 1e-9)) in
  (* 6. Dissolution (Lime) *)
  let limeSaturationLimit :=
    (lit (-0.00004) * Math_pow (waterTemperature inputs) (lit 2)
     - lit 0.0125 * waterTemperature inputs + lit 1.83) * lit 1000 in
  let rateK :=
    lit 0.3 * Math_sqrt (Math_max (lit 1) gValue / lit 100)
    * Math_max (lit 0.1)
        ((limeSaturationLimit - chemicalDose inputs) / limeSaturationLimit) in
  let timeTo95 := Math_log (lit 1 / lit 0.05) / (rateK || lit 1e-3) in
  let distanceTo95 := timeTo95 * velocity in
  (* 7. Overall Required Distance *)
  let decayRate :=
    match conduitType inputs with
    | PIPE => lit 0.75 * Math_sqrt (lit 0.02)
    | CHANNEL => lit 0.6
    end in
  let mixingDistanceNeeded :=
    if mixerCoV <= targetCoV inputs then Lm
    else Lm + (Math_log (mixerCoV / targetCoV inputs) / (decayRate || lit 0.1))
              * hydraulicDiameter in
  let finalDistanceNeeded :=
    if includes (chemicalType inputs) "Lime"
    then Math_max mixingDistanceNeeded distanceTo95
    else mixingDistanceNeeded in
  let mixingTimeNeeded := finalDistanceNeeded / (velocity || lit 1e-6) in
  let dissolvedAtTarget :=
    (lit 1 - Math_exp (- rateK * mixingTimeNeeded)) * lit 100 in
  {| Body.depth := depth;
     Body.totalInjectionFlowLh := totalInjectionFlowLh;
     Body.totalInjectionFlowM3s := totalInjectionFlowM3s;
     Body.x_chem := x_chem;
     Body.x_water := x_water;
     Body.injectedDensity := injectedDensity;
     Body.injectedViscosity := injectedViscosity;
     Body.area := area;
     Body.perimeter := perimeter;
     Body.hydraulicDiameter := hydraulicDiameter;
     Body.Q_m3s := Q_m3s;
     Body.velocity := velocity;
     Body.Re := Re;
     Body.flowPerPointM3s := flowPerPointM3s;
     Body.suggestedOrificeDiameter := suggestedOrificeDiameter;
     Body.u_inj_actual := u_inj_actual;
     Body.momentumRatio := momentumRatio;
     Body.momentumRegime := momentumRegime;
     Body.alpha := alpha;
     Body.LD := LD;
     Body.mixerCoV_raw := mixerCoV_raw;
     Body.FD := FD;
     Body.Lm := Lm;
     Body.manufacturerNotes := manufacturerNotes;
     Body.mixerCoV := mixerCoV;
     Body.headlossMeters := headlossMeters;
     Body.headlossKpa := headlossKpa;
     Body.powerDissipated := powerDissipated;
     Body.volForG := volForG;
     Body.gValue := gValue;
     Body.limeSaturationLimit := limeSaturationLimit;
     Body.rateK := rateK;
     Body.timeTo95 := timeTo95;
     Body.distanceTo95 := distanceTo95;
     Body.decayRate := decayRate;
     Body.mixingDistanceNeeded := mixingDistanceNeeded;
     Body.finalDistanceNeeded := finalDistanceNeeded;
     Body.mixingTimeNeeded := mixingTimeNeeded;
     Body.dissolvedAtTarget := dissolvedAtTarget |}.

(** Lines 176-202: the returned object. *)
Definition calculateMixing {N : Number} (inputs : MixingInputs N)
    : CalculationResults N :=
  let b := body inputs in
  {| velocity := Body.velocity b;
     reynoldsNumber := Body.Re b;
     momentumRatio := Body.momentumRatio b;
     momentumRegime := Body.momentumRegime b;
     naturalMixingCoV := lit 1.0;
     mixerCoV := Body.mixerCoV b;
     viscosityRatio := Body.injectedViscosity b / (viscosity inputs || lit 1e-6);
     injectedViscosity := Body.injectedViscosity b;
     injectedDensity := Body.injectedDensity b;
     totalInjectionFlow := Body.totalInjectionFlowLh b;
     isCompliant :=
       (Body.mixerCoV b <= targetCoV inputs)
       && (negb (includes (chemicalType inputs) "Lime")
           || (Body.dissolvedAtTarget b > lit 90))%bool;
     isTimeCompliant := Body.mixingTimeNeeded b <= targetMixingTime inputs;
     mixingDistanceNeeded := Body.finalDistanceNeeded b;
     mixingTimeNeeded := Body.mixingTimeNeeded b;
     headloss := Body.headlossKpa b;
     headlossMeters := Body.headlossMeters b;
     gValue := Body.gValue b;
     limeSaturationLimit := Body.limeSaturationLimit b;
     dissolvedAtTarget := Math_min (lit 100) (Body.dissolvedAtTarget b);
     timeTo95Dissolution := Body.timeTo95 b;
     distanceTo95Dissolution := Body.distanceTo95 b;
     suggestedOrificeDiameter := Body.suggestedOrificeDiameter b * lit 1000;
     manufacturerNotes := Body.manufacturerNotes b;
     hydraulicDiameter := Body.hydraulicDiameter b;
     wettedArea := Body.area b |}.

Local Close Scope js_scope.

(** ** Reading 1: IEEE 754 binary64 *)

Module B64.

Definition prec : Z := 53.
Definition emax : Z := 1024.

Definition NaN : spec_float := S754_nan.
Definition Infinity : spec_float := S754_infinity false.

(** An integer, rounded to nearest-even. *)
Definition of_Z (z : Z) : spec_float := binary_normalize prec emax z 0 false.

(** A decimal literal, given as the fraction [n / 10^k] of its digits: the
    correctly rounded quotient, which is the number the literal denotes
    when binary64 holds [n] and [10^k] exactly.  It does for every literal
    of the source ([n] below 2^53, [k] at most 15). *)
Definition of_Q (q : Q) : spec_float :=
  SFdiv prec emax (of_Z (Qnum q)) (of_Z (Zpos (Qden q))).

Definition is_nan (x : spec_float) : bool :=
  match x with S754_nan => true | _ => false end.

Definition is_infinite (x : spec_float) : bool :=
  match x with S754_infinity _ => true | _ => false end.

(** ToBoolean: false exactly on +0, -0 and NaN. *)
Definition to_boolean (x : spec_float) : bool :=
  match x with
  | S754_zero _ | S754_nan => false
  | _ => true
  end.

(** [Math.max]: NaN if either argument is NaN; +0 is larger than -0. *)
Definition max (x y : spec_float) : spec_float :=
  if is_nan x || is_nan y then NaN
  else if SFltb x y then y
  else if SFltb y x then x
  else match x, y with
       | S754_zero sx, S754_zero sy => S754_zero (sx && sy)
       | _, _ => x
       end.

(** [Math.min]: NaN if either argument is NaN; -0 is smaller than +0. *)
Definition min (x y : spec_float) : spec_float :=
  if is_nan x || is_nan y then NaN
  else if SFltb x y then x
  else if SFltb y x then y
  else match x, y with
       | S754_zero sx, S754_zero sy => S754_zero (sx || sy)
       | _, _ => x
       end.

Definition is_finite (x : spec_float) : bool :=
  match x with S754_zero _ | S754_finite _ _ _ => true | _ => false end.

(** The members of [Math] whose values ECMAScript calls
    implementation-approximated. *)
Record MathLib : Type := {
  m_sqrt : spec_float -> spec_float;
  m_exp : spec_float -> spec_float;
  m_log : spec_float -> spec_float;
  m_log10 : spec_float -> spec_float;
  m_pow : spec_float -> spec_float -> spec_float
}.

Definition number (M : MathLib) : Number := {|
  num := spec_float;
  lit := of_Q;
  Math_PI := of_Q 3.141592653589793;
  add := SFadd prec emax;
  sub := SFsub prec emax;
  mul := SFmul prec emax;
  div := SFdiv prec emax;
  neg := SFopp;
  lt := SFltb;
  le := SFleb;
  isNaN := is_nan;
  truthy := to_boolean;
  Math_sqrt := m_sqrt M;
  Math_exp := m_exp M;
  Math_log := m_log M;
  Math_log10 := m_log10 M;
  Math_pow := m_pow M;
  Math_max := max;
  Math_min := min
|}.

(** No numeric field of the result is NaN or an infinity. *)
Definition all_finite (M : MathLib) (r : CalculationResults (number M))
    : bool :=
  forallb is_finite
    (velocity r :: reynoldsNumber r :: momentumRatio r
     :: naturalMixingCoV r :: mixerCoV r :: mixingDistanceNeeded r
     :: mixingTimeNeeded r :: viscosityRatio r :: injectedViscosity r
     :: injectedDensity r :: totalInjectionFlow r :: headloss r
     :: headlossMeters r :: gValue r :: limeSaturationLimit r
     :: dissolvedAtTarget r :: timeTo95Dissolution r
     :: distanceTo95Dissolution r :: suggestedOrificeDiameter r
     :: hydraulicDiameter r :: wettedArea r :: nil).

(** NaN, a zero of either sign, or a positive number: what a value that
    approximates a non-negative real can be. *)
Definition nonneg (x : spec_float) : bool :=
  match x with
  | S754_nan | S754_zero _ => true
  | S754_infinity s | S754_finite s _ _ => negb s
  end.

(** A finite number with no fractional part. *)
Definition is_integer (x : spec_float) : bool :=
  match x with
  | S754_zero _ => true
  | S754_finite _ m (Zneg p) => (Zpos m mod 2 ^ Zpos p =? 0)%Z
  | S754_finite _ _ _ => true
  | _ => false
  end.

(** A finite odd integer. *)
Definition is_odd_integer (x : spec_float) : bool :=
  match x with
  | S754_finite _ m 0 => Z.odd (Zpos m)
  | S754_finite _ m (Zneg p) =>
      (Zpos m mod 2 ^ Zpos p =? 0)%Z && Z.odd (Zpos m / 2 ^ Zpos p)
  | _ => false
  end.

(** What the proofs below use of a [Math] library.  Each law follows from
    ECMAScript's special cases and from the value being an approximation of
    a non-negative real otherwise: [Math.exp] and [Math.sqrt] never return a
    negative number, and [Math.pow] with an exponent that is not an integer
    does not either (a negative base gives NaN there). *)
Record MathLaws (M : MathLib) : Prop := {
  sqrt_nonneg : forall x, nonneg (m_sqrt M x) = true;
  exp_nonneg : forall x, nonneg (m_exp M x) = true;
  pow_nonneg : forall x y, is_integer y = false -> nonneg (m_pow M x y) = true
}.

(** *** An executable [Math] *)

Declare Scope b64_scope.
Delimit Scope b64_scope with fl.
Local Notation "x + y" := (SFadd prec emax x y) : b64_scope.
Local Notation "x - y" := (SFsub prec emax x y) : b64_scope.
Local Notation "x * y" := (SFmul prec emax x y) : b64_scope.
Local Notation "x / y" := (SFdiv prec emax x y) : b64_scope.

(** The integer part, towards zero. *)
Definition trunc (x : spec_float) : Z :=
  match x with
  | S754_finite s m e =>
      let v := match e with
               | Zneg p => Z.shiftr (Zpos m) (Zpos p)
               | _ => Z.shiftl (Zpos m) e
               end in
      if s then (- v)%Z else v
  | _ => 0%Z
  end.

Definition ln2_hi : spec_float := S754_finite false 6243314766446592 (-53).
Definition ln2_lo : spec_float := S754_finite false 7382048951581814 (-85).
Definition inv_ln2 : spec_float := S754_finite false 6497320848556798 (-52).
Definition sqrt_half : spec_float := S754_finite false 6369051672525773 (-53).
Definition ln10 : spec_float := S754_finite false 5184960683398422 (-51).

(** [1 + r (1 + r/2 (1 + r/3 (... (1 + r/n))))], the Taylor polynomial of
    [exp] in Horner form, from the inside out. *)
Fixpoint exp_poly (r acc : spec_float) (n : nat) : spec_float :=
  match n with
  | O => acc
  | S n' =>
      exp_poly r (of_Z 1 + (r / of_Z (Z.of_nat n)) * acc)%fl n'
  end.

(** [exp x] for finite [x]: [x = k ln 2 + r] with [|r| <= ln 2 / 2], then
    [2^k] times the polynomial in [r]. *)
Definition exp_finite (x : spec_float) : spec_float :=
  if SFltb (of_Z 710) x then Infinity
  else if SFltb x (of_Z (-746)) then S754_zero false
  else
    let t := (x * inv_ln2)%fl in
    let k :=
      trunc (if SFltb t (of_Z 0) then t - of_Q 0.5 else t + of_Q 0.5)%fl in
    let r := (x - of_Z k * ln2_hi - of_Z k * ln2_lo)%fl in
    SFabs (SFldexp prec emax (exp_poly r (of_Z 1) 14) k).

Definition ref_exp (x : spec_float) : spec_float :=
  match x with
  | S754_nan => NaN
  | S754_infinity false => Infinity
  | S754_infinity true => S754_zero false
  | S754_zero _ => of_Z 1
  | S754_finite _ _ _ => exp_finite x
  end.

(** [1/(2n+1) + z (1/(2n+3) + ...)], the series of [atanh s / s] in
    [z = s^2], from the inside out: [k] counts down from the last term. *)
Fixpoint atanh_poly (z acc : spec_float) (k : nat) : spec_float :=
  match k with
  | O => acc
  | S k' =>
      atanh_poly z (of_Z 1 / of_Z (2 * Z.of_nat k - 1) + z * acc)%fl k'
  end.

(** [log x] for finite positive [x]: [x = m 2^e] with [m] between
    [sqrt 1/2] and [sqrt 2], [log m = 2 atanh ((m - 1) / (m + 1))]. *)
Definition log_positive (x : spec_float) : spec_float :=
  let '(m0, e0) := SFfrexp prec emax x in
  let '(m, e) :=
    if SFltb m0 sqrt_half then (SFldexp prec emax m0 1, (e0 - 1)%Z)
    else (m0, e0) in
  let s := ((m - of_Z 1) / (m + of_Z 1))%fl in
  let z := (s * s)%fl in
  (of_Z e * ln2_hi + (of_Z 2 * s * atanh_poly z (of_Z 0) 13 + of_Z e * ln2_lo))%fl.

Definition ref_log (x : spec_float) : spec_float :=
  match x with
  | S754_nan => NaN
  | S754_zero _ => S754_infinity true
  | S754_infinity false => Infinity
  | S754_infinity true => NaN
  | S754_finite true _ _ => NaN
  | S754_finite false _ _ => log_positive x
  end.

Definition ref_log10 (x : spec_float) : spec_float := (ref_log x / ln10)%fl.

(** [Number::exponentiate] of ECMAScript, its special cases in the order of
    the standard; the last case is [exp (y log |x|)], negated for a negative
    base with an odd exponent. *)
Definition ref_pow (x y : spec_float) : spec_float :=
  match y, x with
  | S754_nan, _ => NaN
  | S754_zero _, _ => of_Z 1
  | _, S754_nan => NaN
  | S754_infinity sy, S754_infinity _ =>
      if sy then S754_zero false else Infinity
  | S754_finite sy _ _, S754_infinity sx =>
      if sy then S754_zero (sx && is_odd_integer y)
      else S754_infinity (sx && is_odd_integer y)
  | S754_infinity sy, S754_zero _ =>
      if sy then Infinity else S754_zero false
  | S754_finite sy _ _, S754_zero sx =>
      if sy then S754_infinity (sx && is_odd_integer y)
      else S754_zero (sx && is_odd_integer y)
  | S754_infinity sy, S754_finite _ _ _ =>
      match SFcompare (SFabs x) (of_Z 1) with
      | Some Gt => if sy then S754_zero false else Infinity
      | Some Lt => if sy then Infinity else S754_zero false
      | _ => NaN
      end
  | S754_finite _ _ _, S754_finite sx _ _ =>
      if sx && negb (is_integer y) then NaN
      else if SFeqb y (of_Z 2) then (x * x)%fl
      else
        let r := ref_exp (y * ref_log (SFabs x))%fl in
        if sx && is_odd_integer y then SFopp r else r
  end.

Definition refMath : MathLib := {|
  m_sqrt := SFsqrt prec emax;
  m_exp := ref_exp;
  m_log := ref_log;
  m_log10 := ref_log10;
  m_pow := ref_pow
|}.

End B64.

(** ** Reading 2: exact arithmetic *)

Module Exact.

Local Open Scope R_scope.

(** A real number, NaN, or an infinity ([XInf true] is the negative one).
    There is one zero: a zero divisor is read as +0. *)
Inductive xreal := XNaN | XInf (s : bool) | XFin (r : R).

Definition Rltb (a b : R) : bool := if Rlt_dec a b then true else false.
Definition Rleb (a b : R) : bool := if Rle_dec a b then true else false.
Definition Reqb (a b : R) : bool := if Req_dec_T a b then true else false.

Definition xneg (x : xreal) : xreal :=
  match x with
  | XNaN => XNaN
  | XInf s => XInf (negb s)
  | XFin r => XFin (- r)
  end.

Definition xadd (x y : xreal) : xreal :=
  match x, y with
  | XNaN, _ | _, XNaN => XNaN
  | XInf s, XInf s' => if Bool.eqb s s' then XInf s else XNaN
  | XInf s, XFin _ | XFin _, XInf s => XInf s
  | XFin a, XFin b => XFin (a + b)
  end.

Definition xsub (x y : xreal) : xreal := xadd x (xneg y).

(** An infinity of sign [s] times or divided by the finite [r]. *)
Definition inf_scaled (s : bool) (r : R) : xreal :=
  if Reqb r 0 then XNaN else XInf (xorb s (Rltb r 0)).

Definition xmul (x y : xreal) : xreal :=
  match x, y with
  | XNaN, _ | _, XNaN => XNaN
  | XInf s, XInf s' => XInf (xorb s s')
  | XInf s, XFin r | XFin r, XInf s => inf_scaled s r
  | XFin a, XFin b => XFin (a * b)
  end.

Definition xdiv (x y : xreal) : xreal :=
  match x, y with
  | XNaN, _ | _, XNaN => XNaN
  | XInf _, XInf _ => XNaN
  | XInf s, XFin r => XInf (xorb s (Rltb r 0))
  | XFin _, XInf _ => XFin 0
  | XFin a, XFin b =>
      if Reqb b 0 then inf_scaled false a else XFin (a / b)
  end.

Definition xlt (x y : xreal) : bool :=
  match x, y with
  | XNaN, _ | _, XNaN => false
  | XInf s, XInf s' => s && negb s'
  | XInf s, XFin _ => s
  | XFin _, XInf s => negb s
  | XFin a, XFin b => Rltb a b
  end.

Definition xle (x y : xreal) : bool :=
  match x, y with
  | XNaN, _ | _, XNaN => false
  | XInf s, XInf s' => s || negb s'
  | XInf s, XFin _ => s
  | XFin _, XInf s => negb s
  | XFin a, XFin b => Rleb a b
  end.

Definition is_nan (x : xreal) : bool :=
  match x with XNaN => true | _ => false end.

Definition to_boolean (x : xreal) : bool :=
  match x with
  | XNaN => false
  | XInf _ => true
  | XFin r => negb (Reqb r 0)
  end.

Definition xmax (x y : xreal) : xreal :=
  if is_nan x || is_nan y then XNaN else if xlt x y then y else x.

Definition xmin (x y : xreal) : xreal :=
  if is_nan x || is_nan y then XNaN else if xlt y x then y else x.

Definition xsqrt (x : xreal) : xreal :=
  match x with
  | XNaN => XNaN
  | XInf s => if s then XNaN else XInf false
  | XFin r => if Rltb r 0 then XNaN else XFin (sqrt r)
  end.

Definition xexp (x : xreal) : xreal :=
  match x with
  | XNaN => XNaN
  | XInf s => if s then XFin 0 else XInf false
  | XFin r => XFin (exp r)
  end.

(** A logarithm, [scale] times the natural one. *)
Definition xlog_scaled (scale : R) (x : xreal) : xreal :=
  match x with
  | XNaN => XNaN
  | XInf s => if s then XNaN else XInf false
  | XFin r =>
      if Rltb r 0 then XNaN
      else if Reqb r 0 then XInf true
      else XFin (scale * ln r)
  end.

Definition xlog : xreal -> xreal := xlog_scaled 1.
Definition xlog10 : xreal -> xreal := xlog_scaled (/ ln 10).

Definition is_integer (r : R) : bool := Reqb (IZR (Int_part r)) r.
Definition is_odd_integer (r : R) : bool :=
  is_integer r && Z.odd (Int_part r).

(** [Number::exponentiate] of ECMAScript over the reals. *)
Definition xpow (x y : xreal) : xreal :=
  match y, x with
  | XNaN, _ => XNaN
  | XFin b, XNaN => if Reqb b 0 then XFin 1 else XNaN
  | XInf _, XNaN => XNaN
  | XInf sy, XInf _ => if sy then XFin 0 else XInf false
  | XFin b, XInf sx =>
      if Reqb b 0 then XFin 1
      else if Rltb b 0 then XFin 0
      else XInf (sx && is_odd_integer b)
  | XInf sy, XFin a =>
      if Reqb (Rabs a) 1 then XNaN
      else if xorb sy (Rltb (Rabs a) 1) then XInf false else XFin 0
  | XFin b, XFin a =>
      if Reqb b 0 then XFin 1
      else if Reqb a 0 then (if Rltb b 0 then XInf false else XFin 0)
      else if Rltb 0 a then XFin (Rpower a b)
      else if is_integer b
           then XFin (if Z.odd (Int_part b) then - Rpower (- a) b
                      else Rpower (- a) b)
           else XNaN
  end.

Definition number : Number := {|
  num := xreal;
  lit := fun q => XFin (Q2R q);
  Math_PI := XFin PI;
  add := xadd;
  sub := xsub;
  mul := xmul;
  div := xdiv;
  neg := xneg;
  lt := xlt;
  le := xle;
  isNaN := is_nan;
  truthy := to_boolean;
  Math_sqrt := xsqrt;
  Math_exp := xexp;
  Math_log := xlog;
  Math_log10 := xlog10;
  Math_pow := xpow;
  Math_max := xmax;
  Math_min := xmin
|}.

(** A real number; a real number above zero; one not below zero. *)
Definition finite (x : xreal) : Prop :=
  match x with XFin _ => True | _ => False end.

Definition positive (x : xreal) : Prop :=
  match x with XFin r => 0 < r | _ => False end.

Definition nonnegative (x : xreal) : Prop :=
  match x with XFin r => 0 <= r | _ => False end.

(** NaN, or a number (an infinity too) not below zero. *)
Definition nan_or_nonnegative (x : xreal) : Prop :=
  match x with
  | XNaN => True
  | XInf s => s = false
  | XFin r => 0 <= r
  end.

(** NaN, or a number (an infinity too) above zero. *)
Definition nan_or_positive (x : xreal) : Prop :=
  match x with
  | XNaN => True
  | XInf s => s = false
  | XFin r => 0 < r
  end.

(** No numeric field of the result is NaN or an infinity. *)
Definition all_finite (r : CalculationResults number) : Prop :=
  finite (velocity r) /\ finite (reynoldsNumber r)
  /\ finite (momentumRatio r) /\ finite (naturalMixingCoV r)
  /\ finite (mixerCoV r) /\ finite (mixingDistanceNeeded r)
  /\ finite (mixingTimeNeeded r) /\ finite (viscosityRatio r)
  /\ finite (injectedViscosity r) /\ finite (injectedDensity r)
  /\ finite (totalInjectionFlow r) /\ finite (headloss r)
  /\ finite (headlossMeters r) /\ finite (gValue r)
  /\ finite (limeSaturationLimit r) /\ finite (dissolvedAtTarget r)
  /\ finite (timeTo95Dissolution r) /\ finite (distanceTo95Dissolution r)
  /\ finite (suggestedOrificeDiameter r) /\ finite (hydraulicDiameter r)
  /\ finite (wettedArea r).

(** A condition on the input fields alone: the sides of the cross-section
    are at least 1 mm, and the flow [Q] (in m3/h), the density [rho] and the
    viscosity [mu] of the water satisfy [32400 mu P <= rho Q] for the wetted
    perimeter [P] of the cross-section ([PI w] for a circular pipe of
    diameter [w], [2 (w + h)] for a closed duct, [w + 2 h] for an open
    channel).  In real numbers this is a Reynolds number
    [4 rho (Q / 3600) / (mu P)] of at least 36.  [h] is the depth the
    engine reads: the one given, or the default 0.5. *)
Definition turbulent (i : MixingInputs number) : Prop :=
  exists Q w h mu rho : R,
    flowRate i = XFin Q /\ dimension i = XFin w
    /\ match depth i with Some d => d | None => XFin (Q2R 0.5) end = XFin h
    /\ viscosity i = XFin mu /\ density i = XFin rho
    /\ 1 / 1000 <= w
    /\ match conduitType i, conduitShape i with
       | PIPE, CIRCULAR => 32400 * mu * (PI * w) <= rho * Q
       | PIPE, RECTANGULAR =>
           1 / 1000 <= h /\ 32400 * mu * (2 * (w + h)) <= rho * Q
       | CHANNEL, _ => 1 / 1000 <= h /\ 32400 * mu * (w + 2 * h) <= rho * Q
       end.

(** The fields other than the two injected flows are finite and
    well-formed: the physical quantities are positive, the dose is finite,
    the water is liquid (0 to 100 degrees C), and, where the friction factor
    of the default branch reaches the headloss (NONE and BAFFLES), the flow
    is [turbulent], away from the point where the logarithm of line 141
    vanishes (near a Reynolds number of 7).  Every component reads input
    fields only. *)
Definition well_formed (i : MixingInputs number) : Prop :=
  positive (numElements i) /\ positive (flowRate i)
  /\ positive (dimension i)
  /\ match depth i with Some d => positive d | None => True end
  /\ positive (availableLength i) /\ positive (viscosity i)
  /\ positive (density i) /\ finite (chemicalDose i)
  /\ positive (chemicalDensity i) /\ positive (chemicalViscosity i)
  /\ positive (targetCoV i) /\ positive (targetMixingTime i)
  /\ (exists T, waterTemperature i = XFin T /\ 0 <= T <= 100)
  /\ match mixerModel i with
     | NONE | BAFFLES => turbulent i
     | _ => True
     end.

End Exact.

(** ** Inputs that differ in one field *)

Definition set_mixerModel {N : Number} (m : MixerModel) (i : MixingInputs N)
    : MixingInputs N :=
  {| conduitType := conduitType i;
     conduitShape := conduitShape i;
     mixerModel := m;
     numElements := numElements i;
     flowRate := flowRate i;
     dimension := dimension i;
     depth := depth i;
     availableLength := availableLength i;
     viscosity := viscosity i;
     density := density i;
     chemicalType := chemicalType i;
     chemicalDose := chemicalDose i;
     chemicalFlow := chemicalFlow i;
     chemicalDensity := chemicalDensity i;
     chemicalViscosity := chemicalViscosity i;
     dilutionWaterFlow := dilutionWaterFlow i;
     targetCoV := targetCoV i;
     targetMixingTime := targetMixingTime i;
     slurryConcentration := slurryConcentration i;
     injectionType := injectionType i;
     pitchRatio := pitchRatio i;
     waterTemperature := waterTemperature i |}.

Definition set_numElements {N : Number} (n : num) (i : MixingInputs N)
    : MixingInputs N :=
  {| conduitType := conduitType i;
     conduitShape := conduitShape i;
     mixerModel := mixerModel i;
     numElements := n;
     flowRate := flowRate i;
     dimension := dimension i;
     depth := depth i;
     availableLength := availableLength i;
     viscosity := viscosity i;
     density := density i;
     chemicalType := chemicalType i;
     chemicalDose := chemicalDose i;
     chemicalFlow := chemicalFlow i;
     chemicalDensity := chemicalDensity i;
     chemicalViscosity := chemicalViscosity i;
     dilutionWaterFlow := dilutionWaterFlow i;
     targetCoV := targetCoV i;
     targetMixingTime := targetMixingTime i;
     slurryConcentration := slurryConcentration i;
     injectionType := injectionType i;
     pitchRatio := pitchRatio i;
     waterTemperature := waterTemperature i |}.

(** The cross-section: shape, principal dimension and optional depth. *)
Definition set_cross_section {N : Number} (cs : ConduitShape) (dim : num)
    (dp : option num) (i : MixingInputs N) : MixingInputs N :=
  {| conduitType := conduitType i;
     conduitShape := cs;
     mixerModel := mixerModel i;
     numElements := numElements i;
     flowRate := flowRate i;
     dimension := dim;
     depth := dp;
     availableLength := availableLength i;
     viscosity := viscosity i;
     density := density i;
     chemicalType := chemicalType i;
     chemicalDose := chemicalDose i;
     chemicalFlow := chemicalFlow i;
     chemicalDensity := chemicalDensity i;
     chemicalViscosity := chemicalViscosity i;
     dilutionWaterFlow := dilutionWaterFlow i;
     targetCoV := targetCoV i;
     targetMixingTime := targetMixingTime i;
     slurryConcentration := slurryConcentration i;
     injectionType := injectionType i;
     pitchRatio := pitchRatio i;
     waterTemperature := waterTemperature i |}.

(** The two injected streams. *)
Definition set_flows {N : Number} (chem water : num) (i : MixingInputs N)
    : MixingInputs N :=
  {| conduitType := conduitType i;
     conduitShape := conduitShape i;
     mixerModel := mixerModel i;
     numElements := numElements i;
     flowRate := flowRate i;
     dimension := dimension i;
     depth := depth i;
     availableLength := availableLength i;
     viscosity := viscosity i;
     density := density i;
     chemicalType := chemicalType i;
     chemicalDose := chemicalDose i;
     chemicalFlow := chem;
     chemicalDensity := chemicalDensity i;
     chemicalViscosity := chemicalViscosity i;
     dilutionWaterFlow := water;
     targetCoV := targetCoV i;
     targetMixingTime := targetMixingTime i;
     slurryConcentration := slurryConcentration i;
     injectionType := injectionType i;
     pitchRatio := pitchRatio i;
     waterTemperature := waterTemperature i |}.

(** The available length and the target CoV. *)
Definition set_length_target {N : Number} (len target : num)
    (i : MixingInputs N) : MixingInputs N :=
  {| conduitType := conduitType i;
     conduitShape := conduitShape i;
     mixerModel := mixerModel i;
     numElements := numElements i;
     flowRate := flowRate i;
     dimension := dimension i;
     depth := depth i;
     availableLength := len;
     viscosity := viscosity i;
     density := density i;
     chemicalType := chemicalType i;
     chemicalDose := chemicalDose i;
     chemicalFlow := chemicalFlow i;
     chemicalDensity := chemicalDensity i;
     chemicalViscosity := chemicalViscosity i;
     dilutionWaterFlow := dilutionWaterFlow i;
     targetCoV := target;
     targetMixingTime := targetMixingTime i;
     slurryConcentration := slurryConcentration i;
     injectionType := injectionType i;
     pitchRatio := pitchRatio i;
     waterTemperature := waterTemperature i |}.

(** The initial state of the form in [src/App.tsx] (lines 49-72), over
    any number type. *)
Definition app_defaults {N : Number} : MixingInputs N :=
  {| conduitType := PIPE;
     conduitShape := CIRCULAR;
     mixerModel := NONE;
     numElements := lit 4;
     flowRate := lit 1500;
     dimension := lit 0.8;
     depth := Some (lit 0.6);
     availableLength := lit 10;
     viscosity := lit 0.001;
     density := lit 1000;
     chemicalType := "Ferric Chloride (40%)";
     chemicalDose := lit 1.0;
     chemicalFlow := lit 10;
     chemicalDensity := lit 1450;
     chemicalViscosity := lit 0.015;
     dilutionWaterFlow := lit 200;
     targetCoV := lit 0.05;
     targetMixingTime := lit 10.0;
     slurryConcentration := Some (lit 10);
     injectionType := SINGLE;
     pitchRatio := PR_1_5;
     waterTemperature := lit 15 |}.

(** The form's initial state with the diameter field cleared (the form
    turns an empty field into 0). *)
Definition zero_width {N : Number} : MixingInputs N :=
  set_cross_section CIRCULAR (lit 0) (Some (lit 0.6)) app_defaults.

(** The form's initial state with a weir, a length of -10 m and a target
    CoV of 1. *)
Definition weir_negative_length {N : Number} : MixingInputs N :=
  set_length_target (lit (-10)) (lit 1.0) (set_mixerModel WEIR app_defaults).

(** A closed rectangular duct 2 m wide, no height given. *)
Definition duct_without_height {N : Number} : MixingInputs N :=
  set_cross_section RECTANGULAR (lit 2) None app_defaults.

(** The form's initial state with a Kenics KM mixer of [n] elements. *)
Definition kenics {N : Number} (n : Q) : MixingInputs N :=
  set_mixerModel KENICS_KM (set_numElements (lit n) app_defaults).

(** The form's initial state with nothing injected. *)
Definition defaults_no_injection {N : Number} : MixingInputs N :=
  set_flows (lit 0) (lit 0) app_defaults.

(** The form's initial state with 0.1 L/h of chemical in 0.02 L/h of
    dilution water. *)
Definition small_flows {N : Number} : MixingInputs N :=
  set_flows (lit 0.1) (lit 0.02) app_defaults.

(** The available length. *)
Definition set_availableLength {N : Number} (len : num)
    (i : MixingInputs N) : MixingInputs N :=
  {| conduitType := conduitType i;
     conduitShape := conduitShape i;
     mixerModel := mixerModel i;
     numElements := numElements i;
     flowRate := flowRate i;
     dimension := dimension i;
     depth := depth i;
     availableLength := len;
     viscosity := viscosity i;
     density := density i;
     chemicalType := chemicalType i;
     chemicalDose := chemicalDose i;
     chemicalFlow := chemicalFlow i;
     chemicalDensity := chemicalDensity i;
     chemicalViscosity := chemicalViscosity i;
     dilutionWaterFlow := dilutionWaterFlow i;
     targetCoV := targetCoV i;
     targetMixingTime := targetMixingTime i;
     slurryConcentration := slurryConcentration i;
     injectionType := injectionType i;
     pitchRatio := pitchRatio i;
     waterTemperature := waterTemperature i |}.

(** The number of injection points. *)
Definition set_injectionType {N : Number} (t : InjectionType)
    (i : MixingInputs N) : MixingInputs N :=
  {| conduitType := conduitType i;
     conduitShape := conduitShape i;
     mixerModel := mixerModel i;
     numElements := numElements i;
     flowRate := flowRate i;
     dimension := dimension i;
     depth := depth i;
     availableLength := availableLength i;
     viscosity := viscosity i;
     density := density i;
     chemicalType := chemicalType i;
     chemicalDose := chemicalDose i;
     chemicalFlow := chemicalFlow i;
     chemicalDensity := chemicalDensity i;
     chemicalViscosity := chemicalViscosity i;
     dilutionWaterFlow := dilutionWaterFlow i;
     targetCoV := targetCoV i;
     targetMixingTime := targetMixingTime i;
     slurryConcentration := slurryConcentration i;
     injectionType := t;
     pitchRatio := pitchRatio i;
     waterTemperature := waterTemperature i |}.

(** The pitch ratio. *)
Definition set_pitchRatio {N : Number} (p : PitchRatio)
    (i : MixingInputs N) : MixingInputs N :=
  {| conduitType := conduitType i;
     conduitShape := conduitShape i;
     mixerModel := mixerModel i;
     numElements := numElements i;
     flowRate := flowRate i;
     dimension := dimension i;
     depth := depth i;
     availableLength := availableLength i;
     viscosity := viscosity i;
     density := density i;
     chemicalType := chemicalType i;
     chemicalDose := chemicalDose i;
     chemicalFlow := chemicalFlow i;
     chemicalDensity := chemicalDensity i;
     chemicalViscosity := chemicalViscosity i;
     dilutionWaterFlow := dilutionWaterFlow i;
     targetCoV := targetCoV i;
     targetMixingTime := targetMixingTime i;
     slurryConcentration := slurryConcentration i;
     injectionType := injectionType i;
     pitchRatio := p;
     waterTemperature := waterTemperature i |}.

(** The form's initial state with an HEV mixer and the given length. *)
Definition hev_pipe {N : Number} (len : Q) : MixingInputs N :=
  set_availableLength (lit len) (set_mixerModel HEV app_defaults).

(** The form's initial state with four STM elements. *)
Definition stm_pipe {N : Number} : MixingInputs N :=
  set_mixerModel STM app_defaults.

(** ** src/App.tsx *)

Module App.

Local Open Scope string_scope.

Module Preset.
Record t {N : Number} := {
  id : string;
  name : string;
  density : num;
  viscosity : num
}.
Arguments t : clear implicits.
End Preset.

(** Lines 13-30. *)
Definition CHEMICAL_PRESETS {N : Number} : list (Preset.t N) :=
  {| Preset.id := "custom"; Preset.name := "Custom / Manual Entry";
     Preset.density := lit 1000; Preset.viscosity := lit 0.001 |}
  :: {| Preset.id := "ferric"; Preset.name := "Ferric Chloride (40%)";
        Preset.density := lit 1450; Preset.viscosity := lit 0.015 |}
  :: {| Preset.id := "alum"; Preset.name := "Alum (Aluminium Sulphate)";
        Preset.density := lit 1320; Preset.viscosity := lit 0.025 |}
  :: {| Preset.id := "hypo"; Preset.name := "Sodium Hypochlorite (15%)";
        Preset.density := lit 1210; Preset.viscosity := lit 0.003 |}
  :: {| Preset.id := "permanganate"; Preset.name := "Potassium Permanganate (5%)";
        Preset.density := lit 1030; Preset.viscosity := lit 0.001 |}
  :: {| Preset.id := "amm_sulphate"; Preset.name := "Ammonium Sulphate (40%)";
        Preset.density := lit 1230; Preset.viscosity := lit 0.002 |}
  :: {| Preset.id := "chlorine"; Preset.name := "Liquid Chlorine";
        Preset.density := lit 1460; Preset.viscosity := lit 0.0003 |}
  :: {| Preset.id := "fluorosilicic"; Preset.name := "Fluorosilicic Acid (25%)";
        Preset.density := lit 1220; Preset.viscosity := lit 0.002 |}
  :: {| Preset.id := "soda_ash"; Preset.name := "Sodium Carbonate (Soda Ash 10%)";
        Preset.density := lit 1100; Preset.viscosity := lit 0.002 |}
  :: {| Preset.id := "lime"; Preset.name := "Lime Slurry (Variable %)";
        Preset.density := lit 1070; Preset.viscosity := lit 0.005 |}
  :: {| Preset.id := "polydadmac"; Preset.name := "polyDADMAC";
        Preset.density := lit 1040; Preset.viscosity := lit 0.1 |}
  :: {| Preset.id := "poly_conc"; Preset.name := "Polymer (Concentrate)";
        Preset.density := lit 1050; Preset.viscosity := lit 0.8 |}
  :: {| Preset.id := "poly_dilute"; Preset.name := "Dilute Polymer (0.1%)";
        Preset.density := lit 1000; Preset.viscosity := lit 0.01 |}
  :: {| Preset.id := "peroxide"; Preset.name := "Hydrogen Peroxide (50%)";
        Preset.density := lit 1190; Preset.viscosity := lit 0.0012 |}
  :: {| Preset.id := "caustic"; Preset.name := "Caustic Soda (50%)";
        Preset.density := lit 1530; Preset.viscosity := lit 0.08 |}
  :: {| Preset.id := "acid"; Preset.name := "Sulphuric Acid (98%)";
        Preset.density := lit 1840; Preset.viscosity := lit 0.027 |}
  :: nil.

(** Lines 32-38 and 40-46: the mixers the hardware selector offers. *)
Definition PIPE_MIXERS : list (MixerModel * string) :=
  (NONE, "Natural Pipe Mixing (Section C7)")
  :: (KENICS_KM, "Chemineer Kenics KM (Section C1)")
  :: (HEV, "Chemineer HEV Pipe (Section C2)")
  :: (SMV, "Sulzer SMV (Section C3)")
  :: (STM, "Statiflo STM Pipe (Section C4)")
  :: nil.

Definition CHANNEL_MIXERS : list (MixerModel * string) :=
  (NONE, "Natural Channel Mixing (Section C19)")
  :: (HEV, "Chemineer HEV Channel (Section C14)")
  :: (STM, "Statiflo STM Channel (Section C16)")
  :: (BAFFLES, "DIY Baffles (Section C17)")
  :: (WEIR, "Overflow Weir (Section C20)")
  :: nil.

Definition ConduitType_eqb (a b : ConduitType) : bool :=
  match a, b with
  | PIPE, PIPE | CHANNEL, CHANNEL => true
  | _, _ => false
  end.

Definition ConduitShape_eqb (a b : ConduitShape) : bool :=
  match a, b with
  | CIRCULAR, CIRCULAR | RECTANGULAR, RECTANGULAR => true
  | _, _ => false
  end.

Definition MixerModel_eqb (a b : MixerModel) : bool :=
  match a, b with
  | NONE, NONE | KENICS_KM, KENICS_KM | HEV, HEV | SMV, SMV | STM, STM
  | BAFFLES, BAFFLES | WEIR, WEIR => true
  | _, _ => false
  end.

(** The state of the component [App] that the handlers below read and
    write (lines 49-79): the form, the last result of the engine ([null]
    before the first effect) and the chemical selected.  The four state
    variables of the guide upload and of the audit report are left out, with
    the handlers that call [services/gemini]. *)
Record AppState {N : Number} := {
  inputs : MixingInputs N;
  results : option (CalculationResults N);
  selectedPresetId : string
}.

Arguments AppState : clear implicits.

(** Lines 49-79. *)
Definition initialState {N : Number} : AppState N :=
  {| inputs := app_defaults;
     results := None;
     selectedPresetId := "ferric" |}.

(** Lines 82-84: the effect that follows a change of [inputs]. *)
Definition effect {N : Number} (s : AppState N) : AppState N :=
  {| inputs := inputs s;
     results := Some (calculateMixing (inputs s));
     selectedPresetId := selectedPresetId s |}.

Local Open Scope js_scope.

(** Lines 86-90; the pair is [(density, viscosity)]. *)
Definition calculateLimeProps {N : Number} (conc : num) : num * num :=
  let density := lit 1000 + (lit 7 * conc) in
  let viscosity := lit 0.001 * Math_exp (lit 0.18 * conc) in
  (density, viscosity).

Local Close Scope js_scope.

(** A key of [MixingInputs] with a value of its type: the two arguments of
    [handleInputChange]. *)
Inductive FieldValue {N : Number} : Type :=
| F_conduitType (value : ConduitType)
| F_conduitShape (value : ConduitShape)
| F_mixerModel (value : MixerModel)
| F_numElements (value : num)
| F_flowRate (value : num)
| F_dimension (value : num)
| F_depth (value : num)
| F_availableLength (value : num)
| F_viscosity (value : num)
| F_density (value : num)
| F_chemicalType (value : string)
| F_chemicalDose (value : num)
| F_chemicalFlow (value : num)
| F_chemicalDensity (value : num)
| F_chemicalViscosity (value : num)
| F_dilutionWaterFlow (value : num)
| F_targetCoV (value : num)
| F_targetMixingTime (value : num)
| F_slurryConcentration (value : num)
| F_injectionType (value : InjectionType)
| F_pitchRatio (value : PitchRatio)
| F_waterTemperature (value : num).

Arguments FieldValue : clear implicits.

(** The object [{ ...prev, [field]: value }]. *)
Definition assign {N : Number} (fv : FieldValue N) (prev : MixingInputs N)
    : MixingInputs N :=
  {| conduitType :=
       match fv with F_conduitType v => v | _ => conduitType prev end;
     conduitShape :=
       match fv with F_conduitShape v => v | _ => conduitShape prev end;
     mixerModel :=
       match fv with F_mixerModel v => v | _ => mixerModel prev end;
     numElements :=
       match fv with F_numElements v => v | _ => numElements prev end;
     flowRate := match fv with F_flowRate v => v | _ => flowRate prev end;
     dimension := match fv with F_dimension v => v | _ => dimension prev end;
     depth := match fv with F_depth v => Some v | _ => depth prev end;
     availableLength :=
       match fv with F_availableLength v => v | _ => availableLength prev end;
     viscosity := match fv with F_viscosity v => v | _ => viscosity prev end;
     density := match fv with F_density v => v | _ => density prev end;
     chemicalType :=
       match fv with F_chemicalType v => v | _ => chemicalType prev end;
     chemicalDose :=
       match fv with F_chemicalDose v => v | _ => chemicalDose prev end;
     chemicalFlow :=
       match fv with F_chemicalFlow v => v | _ => chemicalFlow prev end;
     chemicalDensity :=
       match fv with F_chemicalDensity v => v | _ => chemicalDensity prev end;
     chemicalViscosity :=
       match fv with
       | F_chemicalViscosity v => v
       | _ => chemicalViscosity prev
       end;
     dilutionWaterFlow :=
       match fv with
       | F_dilutionWaterFlow v => v
       | _ => dilutionWaterFlow prev
       end;
     targetCoV := match fv with F_targetCoV v => v | _ => targetCoV prev end;
     targetMixingTime :=
       match fv with
       | F_targetMixingTime v => v
       | _ => targetMixingTime prev
       end;
     slurryConcentration :=
       match fv with
       | F_slurryConcentration v => Some v
       | _ => slurryConcentration prev
       end;
     injectionType :=
       match fv with F_injectionType v => v | _ => injectionType prev end;
     pitchRatio := match fv with F_pitchRatio v => v | _ => pitchRatio prev end;
     waterTemperature :=
       match fv with
       | F_waterTemperature v => v
       | _ => waterTemperature prev
       end |}.

Definition setInputs {N : Number} (f : MixingInputs N -> MixingInputs N)
    (s : AppState N) : AppState N :=
  {| inputs := f (inputs s);
     results := results s;
     selectedPresetId := selectedPresetId s |}.

Definition setSelectedPresetId {N : Number} (presetId : string)
    (s : AppState N) : AppState N :=
  {| inputs := inputs s;
     results := results s;
     selectedPresetId := presetId |}.

(** Lines 92-111.  The controls pass numbers, on which the [Number(value)]
    of line 101 is the identity. *)
Definition handleInputChange {N : Number} (s : AppState N)
    (fv : FieldValue N) : AppState N :=
  match fv with
  | F_conduitType value =>
      if negb (ConduitType_eqb value (conduitType (inputs s)))
      then
        setInputs
          (fun prev =>
             assign
               (F_conduitShape
                  (match value with
                   | PIPE => CIRCULAR
                   | CHANNEL => RECTANGULAR
                   end))
               (assign (F_mixerModel NONE) (assign fv prev)))
          s
      else setInputs (assign fv) s
  | F_slurryConcentration value =>
      if String.eqb (selectedPresetId s) "lime"
      then
        let '(density, viscosity) := calculateLimeProps value in
        setInputs
          (fun prev =>
             assign (F_chemicalViscosity viscosity)
               (assign (F_chemicalDensity density)
                  (assign (F_slurryConcentration value) prev)))
          s
      else setInputs (assign fv) s
  | _ => setInputs (assign fv) s
  end.

(** Lines 113-134; [List.find] is [Array.prototype.find]. *)
Definition handlePresetChange {N : Number} (s : AppState N)
    (presetId : string) : AppState N :=
  let s' := setSelectedPresetId presetId s in
  match
    List.find (fun p => String.eqb (Preset.id p) presetId) CHEMICAL_PRESETS
  with
  | Some preset =>
      if negb (String.eqb presetId "custom")
      then
        if String.eqb presetId "lime"
        then
          let '(density, viscosity) :=
            calculateLimeProps
              (match slurryConcentration (inputs s) with
               | Some c => or_else c (lit 10)
               | None => lit 10
               end) in
          setInputs
            (fun prev =>
               assign (F_chemicalViscosity viscosity)
                 (assign (F_chemicalDensity density)
                    (assign (F_chemicalType (Preset.name preset)) prev)))
            s'
        else
          setInputs
            (fun prev =>
               assign (F_chemicalViscosity (Preset.viscosity preset))
                 (assign (F_chemicalDensity (Preset.density preset))
                    (assign (F_chemicalType (Preset.name preset)) prev)))
            s'
      else s'
  | None => s'
  end.

(** *** The controls of the form

    What the rendered form lets its user do (lines 228-436): each control
    calls one handler with a value it determines.  A button that is
    [disabled] and a control that is not rendered fire no event; a [select]
    fires only with the value of one of its options. *)

(** The fields edited through an [InputGroup]. *)
Inductive NumberField :=
| flowRate_field | targetCoV_field | targetMixingTime_field
| waterTemperature_field | dimension_field | depth_field
| numElements_field | availableLength_field | slurryConcentration_field
| chemicalDose_field | chemicalFlow_field | dilutionWaterFlow_field.

Definition number_value {N : Number} (f : NumberField) (v : num)
    : FieldValue N :=
  match f with
  | flowRate_field => F_flowRate v
  | targetCoV_field => F_targetCoV v
  | targetMixingTime_field => F_targetMixingTime v
  | waterTemperature_field => F_waterTemperature v
  | dimension_field => F_dimension v
  | depth_field => F_depth v
  | numElements_field => F_numElements v
  | availableLength_field => F_availableLength v
  | slurryConcentration_field => F_slurryConcentration v
  | chemicalDose_field => F_chemicalDose v
  | chemicalFlow_field => F_chemicalFlow v
  | dilutionWaterFlow_field => F_dilutionWaterFlow v
  end.

Inductive Event {N : Number} : Type :=
| ClickConduit (value : ConduitType)
| ClickShape (value : ConduitShape)
| SelectMixer (value : MixerModel)
| SelectPitch (value : PitchRatio)
| SelectInjection (value : InjectionType)
| SelectPreset (presetId : string)
| TypeNumber (field : NumberField) (value : num).

Arguments Event : clear implicits.

(** Line 190. *)
Definition isLime {N : Number} (s : AppState N) : bool :=
  String.eqb (selectedPresetId s) "lime".

(** The options of the hardware selector (line 353). *)
Definition mixer_options {N : Number} (s : AppState N)
    : list (MixerModel * string) :=
  match conduitType (inputs s) with
  | PIPE => PIPE_MIXERS
  | CHANNEL => CHANNEL_MIXERS
  end.

(** Whether the form, as rendered in state [s], can fire the event. *)
Definition enabled {N : Number} (s : AppState N) (e : Event N) : bool :=
  match e with
  | ClickConduit _ => true
  | ClickShape CIRCULAR =>
      (* disabled={inputs.conduitType === ConduitType.CHANNEL}, line 313 *)
      negb (ConduitType_eqb (conduitType (inputs s)) CHANNEL)
  | ClickShape RECTANGULAR => true
  | SelectMixer m =>
      existsb (fun opt => MixerModel_eqb (fst opt) m) (mixer_options s)
  | SelectPitch _ =>
      (* line 357 *)
      MixerModel_eqb (mixerModel (inputs s)) STM
  | SelectInjection _ => true
  | SelectPreset presetId =>
      (* line 394 *)
      existsb (fun p => String.eqb (Preset.id p) presetId)
        (CHEMICAL_PRESETS (N := N))
  | TypeNumber depth_field _ =>
      (* line 330 *)
      negb (ConduitShape_eqb (conduitShape (inputs s)) CIRCULAR)
      || ConduitType_eqb (conduitType (inputs s)) CHANNEL
  | TypeNumber numElements_field _ =>
      (* line 375 *)
      negb (MixerModel_eqb (mixerModel (inputs s)) NONE
            || MixerModel_eqb (mixerModel (inputs s)) WEIR)
  | TypeNumber slurryConcentration_field _
  | TypeNumber chemicalDose_field _ =>
      (* line 412 *)
      isLime s
  | TypeNumber _ _ => true
  end.

(** The handler each control calls. *)
Definition dispatch {N : Number} (s : AppState N) (e : Event N)
    : AppState N :=
  match e with
  | ClickConduit v => handleInputChange s (F_conduitType v)
  | ClickShape v => handleInputChange s (F_conduitShape v)
  | SelectMixer v => handleInputChange s (F_mixerModel v)
  | SelectPitch v => handleInputChange s (F_pitchRatio v)
  | SelectInjection v => handleInputChange s (F_injectionType v)
  | SelectPreset presetId => handlePresetChange s presetId
  | TypeNumber f v => handleInputChange s (number_value f v)
  end.

(** The states the form can be in: the initial one, and those that follow
    from one by an event the form can fire or by the effect of lines
    82-84. *)
Inductive reachable {N : Number} : AppState N -> Prop :=
| reachable_initial : reachable initialState
| reachable_effect s : reachable s -> reachable (effect s)
| reachable_event s e :
    reachable s -> enabled s e = true -> reachable (dispatch s e).

(** *** The chart (lines 153-188) *)

Module ChartPoint.
Record t {N : Number} := {
  dist : num;
  cov : num;
  target : num;
  dissolution : num
}.
Arguments t : clear implicits.
End ChartPoint.

Local Open Scope js_scope.

(** The callback of [Array.from] at index [i].  Of the object it returns,
    [cov], [target] and [dissolution] are the fields of that name; [dist] is
    the number whose rendering [dist.toFixed(1)] is the label [distance]. *)
Definition chartPoint {N : Number} (s : AppState N) (i : Z)
    : ChartPoint.t N :=
  let maxDist :=
    Math_max
      (Math_max
         (match results s with
          | Some r => mixingDistanceNeeded r || lit 0
          | None => lit 0
          end)
         (availableLength (inputs s)))
      (lit 5)
    * lit 1.5 in
  let dist := (lit (inject_Z i) / lit 20) * maxDist in
  let decayRate :=
    match conduitType (inputs s) with
    | PIPE => lit 0.75 * Math_sqrt (lit 0.02)
    | CHANNEL => lit 0.6
    end in
  let hydraulicDiameter :=
    match results s with
    | Some r => hydraulicDiameter r || lit 1
    | None => lit 1
    end in
  let cov :=
    match mixerModel (inputs s) with
    | NONE =>
        let alpha :=
          (flowRate (inputs s) / lit 3600 * lit 3600000)
          / ((chemicalFlow (inputs s) + dilutionWaterFlow (inputs s)) || lit 1) in
        let coVi :=
          Math_sqrt alpha
          / match injectionType (inputs s) with
            | TWIN => lit 2
            | SINGLE => lit 1
            end in
        coVi * Math_exp (- decayRate * (dist / hydraulicDiameter))
    | _ =>
        let mixerLen :=
          match results s with
          | Some r =>
              if (headlossMeters r || lit 0) > lit 0
              then headlossMeters r * lit 10
              else lit 1
          | None => lit 1
          end in
        if dist < mixerLen
        then
          lit 1.0
          - (lit 1.0
             - match results s with
               | Some r => mixerCoV r || lit 1.0
               | None => lit 1.0
               end)
            * (dist / mixerLen)
        else
          match results s with
          | Some r => mixerCoV r || lit 1.0
          | None => lit 1.0
          end
          * Math_exp (- decayRate * ((dist - mixerLen) / hydraulicDiameter))
    end in
  let dissolution :=
    match results s with
    | Some r =>
        if String.eqb (selectedPresetId s) "lime"
        then
          let time := dist / (velocity r || lit 1) in
          let satLimit := limeSaturationLimit r in
          let saturationFactor :=
            Math_max (lit 0.1) ((satLimit - chemicalDose (inputs s)) / satLimit) in
          let rateK :=
            lit 0.3 * Math_sqrt (gValue r / lit 100) * saturationFactor in
          (lit 1 - Math_exp (- rateK * time)) * lit 100
        else lit 0
    | None => lit 0
    end in
  {| ChartPoint.dist := dist;
     ChartPoint.cov := Math_min (lit 1.0) (Math_max (lit 0.001) cov);
     ChartPoint.target := targetCoV (inputs s);
     ChartPoint.dissolution := Math_min (lit 100) dissolution |}.

Local Close Scope js_scope.

(** [Array.from({ length: 21 }, (_, i) => ...)]. *)
Definition chartData {N : Number} (s : AppState N) : list (ChartPoint.t N) :=
  List.map (fun i => chartPoint s (Z.of_nat i)) (List.seq 0 21).

(** *** What the form keeps *)

(** The form offers each conduit its own mixers, and an open channel no
    circular section. *)
Definition consistent {N : Number} (s : AppState N) : Prop :=
  match conduitType (inputs s) with
  | PIPE =>
      match mixerModel (inputs s) with
      | NONE | KENICS_KM | HEV | SMV | STM => True
      | BAFFLES | WEIR => False
      end
  | CHANNEL =>
      conduitShape (inputs s) = RECTANGULAR
      /\ match mixerModel (inputs s) with
         | NONE | HEV | STM | BAFFLES | WEIR => True
         | KENICS_KM | SMV => False
         end
  end.

(** The name of the chemical with the given id, when it is in the table and
    is not "custom". *)
Definition preset_name {N : Number} (presetId : string) : option string :=
  if String.eqb presetId "custom" then None
  else
    option_map Preset.name
      (List.find (fun p => String.eqb (Preset.id p) presetId)
         (CHEMICAL_PRESETS (N := N))).

(** While a chemical other than "custom" is selected, the form's
    [chemicalType] is that chemical's name. *)
Definition named {N : Number} (s : AppState N) : Prop :=
  match preset_name (N := N) (selectedPresetId s) with
  | Some n => chemicalType (inputs s) = n
  | None => True
  end.

(** The fields no control of the form clears or assigns: the two optional
    ones stay given, the bulk fluid stays water. *)
Definition untouched {N : Number} (s : AppState N) : Prop :=
  (exists d, depth (inputs s) = Some d)
  /\ (exists c, slurryConcentration (inputs s) = Some c)
  /\ density (inputs s) = lit 1000
  /\ viscosity (inputs s) = lit 0.001.

(** Lime selected, then "custom". *)
Definition lime_then_custom {N : Number} : AppState N :=
  dispatch (dispatch initialState (SelectPreset "lime")) (SelectPreset "custom").

(** The form with the SMV mixer chosen, after its effect. *)
Definition smv_state {N : Number} : AppState N :=
  effect (dispatch initialState (SelectMixer SMV)).

Local Open Scope js_scope.

(** What a point of the chart is: its CoV NaN or between 0.001 and 1, its
    dissolved fraction NaN or at most 100, and 0 unless lime is selected,
    its target the form's. *)
Definition plotted {N : Number} (s : AppState N) (p : ChartPoint.t N)
    : Prop :=
  (isNaN (ChartPoint.cov p) = true
   \/ ((lit 0.001 <= ChartPoint.cov p) = true
       /\ (ChartPoint.cov p <= lit 1) = true))
  /\ (isNaN (ChartPoint.dissolution p) = true
      \/ (ChartPoint.dissolution p <= lit 100) = true)
  /\ (isLime s = false -> ChartPoint.dissolution p = lit 0)
  /\ ChartPoint.target p = targetCoV (inputs s).

Local Close Scope js_scope.

End App.

(** The form with nothing injected and lime for its chemical. *)
Definition lime_no_injection {N : Number} : MixingInputs N :=
  App.assign (App.F_chemicalType "Lime Slurry (Variable %)")
    defaults_no_injection.

(** The form with nothing injected and a flow of 1e200 m3/h typed in. *)
Definition huge_flow_no_injection {N : Number} : MixingInputs N :=
  App.assign (App.F_flowRate (lit 1e200)) defaults_no_injection.

(** The inputs of the form after a click on the open channel and the
    choice of the HEV mixer: a channel 0.8 m wide and 0.6 m deep. *)
Definition hev_channel {N : Number} : MixingInputs N :=
  App.inputs
    (App.dispatch (App.dispatch App.initialState (App.ClickConduit CHANNEL))
       (App.SelectMixer HEV)).

(** In exact arithmetic: the Reynolds number at which the argument of the
    logarithm of line 141 is 1 in a conduit of hydraulic diameter 0.8 m
    (about 6.97), the viscosity that gives it in the form's initial pipe,
    and the form with nothing injected and that viscosity. *)
Definition singular_Re : R :=
  (Rpower (574 / 100 / (1 - 1 / 10000 / (37 / 10 * (8 / 10)))) (10 / 9))%R.

Definition singular_viscosity : R :=
  (1000 * (1500 / 3600 / (PI * (4 / 10 * (4 / 10)))) * (8 / 10)
   / singular_Re)%R.

Definition singular_no_injection : MixingInputs Exact.number :=
  App.assign
    (App.F_viscosity (N := Exact.number) (Exact.XFin singular_viscosity))
    defaults_no_injection.

(** ** Orders and curves in exact arithmetic *)

Module ExactOrder.
Import Exact.

Local Open Scope R_scope.

(** [y] is [x], or the two are positive real numbers with [y] at most
    [x]. *)
Definition falls (x y : xreal) : Prop :=
  x = y \/ exists a c, x = XFin a /\ y = XFin c /\ 0 < c <= a.

(** NaN, or a number (an infinity too) of at least [m]. *)
Definition at_least (m : R) (x : xreal) : Prop :=
  match x with
  | XNaN => True
  | XInf s => s = false
  | XFin r => m <= r
  end.

(** Half of a number. *)
Definition half (x : xreal) : xreal := xdiv x (XFin 2).

(** *** The curves of the chart (src/App.tsx, lines 159-171) *)

(** The clamp of line 184. *)
Definition chart_clamp (v : xreal) : xreal :=
  xmin (XFin (Q2R 1.0)) (xmax (XFin (Q2R 0.001)) v).

(** The curve of line 163, before the clamp. *)
Definition natural_curve (coVi decayRate hydraulicDiameter dist : xreal)
    : xreal :=
  xmul coVi (xexp (xmul (xneg decayRate) (xdiv dist hydraulicDiameter))).

(** The curve of lines 166-170, before the clamp. *)
Definition mixer_curve (c decayRate hydraulicDiameter mixerLen dist : xreal)
    : xreal :=
  if xlt dist mixerLen
  then xsub (XFin (Q2R 1.0))
         (xmul (xsub (XFin (Q2R 1.0)) c) (xdiv dist mixerLen))
  else xmul c
         (xexp (xmul (xneg decayRate)
                  (xdiv (xsub dist mixerLen) hydraulicDiameter))).

End ExactOrder.

(** * Properties *)

(** ** Facts that hold in every reading *)

Section AnyNumber.

Context {N : Number}.

Lemma set_mixerModel_same (i : MixingInputs N) :
  set_mixerModel (mixerModel i) i = i.
Proof. destruct i; reflexivity. Qed.

Lemma set_numElements_same (i : MixingInputs N) :
  set_numElements (numElements i) i = i.
Proof. destruct i; reflexivity. Qed.

(** The [switch] has no case for BAFFLES or WEIR: both run the default
    branch, the one of NONE. *)
Lemma correlation_default (m : MixerModel) it ct pr
    (Re alpha n LD Dh L mr : num) :
  m = BAFFLES \/ m = WEIR ->
  correlation m it ct pr Re alpha n LD Dh L mr
  = correlation NONE it ct pr Re alpha n LD Dh L mr.
Proof. intros [-> | ->]; reflexivity. Qed.

(** The body reads the model in two places only: the [switch] and the
    headloss line. *)
Lemma body_mixerCoV (i : MixingInputs N) :
  Body.mixerCoV (body i) = clampCoV (Body.mixerCoV_raw (body i)).
Proof. reflexivity. Qed.

(** *** The body, one variable at a time

    Each variable of the body, by the expression the source binds it to,
    over the variables bound before it. *)

Section BodyEquations.

Variable i : MixingInputs N.

Local Abbreviation b := (body i).

Local Open Scope js_scope.

Lemma eq_depth :
  Body.depth b = match depth i with Some d => d | None => lit 0.5 end.
Proof. reflexivity. Qed.

Lemma eq_totalInjectionFlowLh :
  Body.totalInjectionFlowLh b = chemicalFlow i + dilutionWaterFlow i.
Proof. reflexivity. Qed.

Lemma eq_totalInjectionFlowM3s :
  Body.totalInjectionFlowM3s b = Body.totalInjectionFlowLh b / lit 3600000.
Proof. reflexivity. Qed.

Lemma eq_x_chem :
  Body.x_chem b = chemicalFlow i / (Body.totalInjectionFlowLh b || lit 1).
Proof. reflexivity. Qed.

Lemma eq_x_water :
  Body.x_water b = dilutionWaterFlow i / (Body.totalInjectionFlowLh b || lit 1).
Proof. reflexivity. Qed.

Lemma eq_injectedDensity :
  Body.injectedDensity b
  = (Body.x_chem b * chemicalDensity i) + (Body.x_water b * lit 1000).
Proof. reflexivity. Qed.

Lemma eq_injectedViscosity :
  Body.injectedViscosity b
  = Math_exp (Body.x_chem b * Math_log (chemicalViscosity i || lit 1e-6)
              + Body.x_water b * Math_log (lit 0.001 || lit 1e-6)).
Proof. reflexivity. Qed.

Lemma eq_geometry :
  let g := geometry (conduitType i) (conduitShape i) (dimension i)
             (Body.depth b) in
  Body.area b = Geometry.area g
  /\ Body.perimeter b = Geometry.perimeter g
  /\ Body.hydraulicDiameter b = Geometry.hydraulicDiameter g.
Proof. repeat split. Qed.

Lemma eq_Q_m3s : Body.Q_m3s b = flowRate i / lit 3600.
Proof. reflexivity. Qed.

Lemma eq_velocity :
  Body.velocity b = Body.Q_m3s b / (Body.area b || lit 1e-6).
Proof. reflexivity. Qed.

Lemma eq_Re :
  Body.Re b
  = (density i * Body.velocity b * Body.hydraulicDiameter b)
    / (viscosity i || lit 1e-6).
Proof. reflexivity. Qed.

Lemma eq_flowPerPointM3s :
  Body.flowPerPointM3s b
  = Body.totalInjectionFlowM3s b
    / match injectionType i with TWIN => lit 2 | SINGLE => lit 1 end.
Proof. reflexivity. Qed.

Lemma eq_suggestedOrificeDiameter :
  Body.suggestedOrificeDiameter b
  = (lit 4 * Body.flowPerPointM3s b
     * Math_sqrt (Body.injectedDensity b / (density i || lit 1)))
    / ((Math_PI * lit 0.22 * Body.velocity b * Body.hydraulicDiameter b)
       || lit 1e-6).
Proof. reflexivity. Qed.

Lemma eq_u_inj_actual :
  Body.u_inj_actual b
  = Body.flowPerPointM3s b
    / ((Math_PI * Math_pow (lit 0.025 / lit 2) (lit 2)) || lit 1e-9).
Proof. reflexivity. Qed.

Lemma eq_momentumRatio :
  Body.momentumRatio b
  = Math_sqrt (Body.injectedDensity b / (density i || lit 1))
    * (Body.u_inj_actual b * lit 0.025
       / ((Body.velocity b * Body.hydraulicDiameter b) || lit 1e-6)).
Proof. reflexivity. Qed.

Lemma eq_momentumRegime :
  Body.momentumRegime b = regime (Body.momentumRatio b).
Proof. reflexivity. Qed.

Lemma eq_alpha :
  Body.alpha b
  = (Body.Q_m3s b * lit 3600000) / (Body.totalInjectionFlowLh b || lit 1).
Proof. reflexivity. Qed.

Lemma eq_LD : Body.LD b = availableLength i / Body.hydraulicDiameter b.
Proof. reflexivity. Qed.

Lemma eq_switch :
  let sw :=
    correlation (mixerModel i) (injectionType i) (conduitType i) (pitchRatio i)
      (Body.Re b) (Body.alpha b) (numElements i) (Body.LD b)
      (Body.hydraulicDiameter b) (availableLength i) (Body.momentumRatio b) in
  Body.mixerCoV_raw b = Switch.mixerCoV sw
  /\ Body.FD b = Switch.FD sw
  /\ Body.Lm b = Switch.Lm sw
  /\ Body.manufacturerNotes b = Switch.manufacturerNotes sw.
Proof. repeat split. Qed.

Lemma eq_mixerCoV : Body.mixerCoV b = clampCoV (Body.mixerCoV_raw b).
Proof. reflexivity. Qed.

Lemma eq_headlossMeters :
  Body.headlossMeters b
  = match mixerModel i with
    | WEIR => lit 0.15
    | _ =>
        (Body.FD b * Body.Lm b * Math_pow (Body.velocity b) (lit 2))
        / (lit 2 * lit 9.81 * Body.hydraulicDiameter b)
    end.
Proof. reflexivity. Qed.

Lemma eq_headlossKpa :
  Body.headlossKpa b
  = (Body.headlossMeters b * density i * lit 9.81) / lit 1000.
Proof. reflexivity. Qed.

Lemma eq_powerDissipated :
  Body.powerDissipated b = Body.headlossKpa b * lit 1000 * Body.Q_m3s b.
Proof. reflexivity. Qed.

Lemma eq_volForG :
  Body.volForG b
  = Body.area b * Math_max (Body.Lm b) (Body.hydraulicDiameter b).
Proof. reflexivity. Qed.

Lemma eq_gValue :
  Body.gValue b
  = Math_sqrt (Body.powerDissipated b
               / ((viscosity i * Body.volForG b) || lit 1e-9)).
Proof. reflexivity. Qed.

Lemma eq_limeSaturationLimit :
  Body.limeSaturationLimit b
  = (lit (-0.00004) * Math_pow (waterTemperature i) (lit 2)
     - lit 0.0125 * waterTemperature i + lit 1.83) * lit 1000.
Proof. reflexivity. Qed.

Lemma eq_rateK :
  Body.rateK b
  = lit 0.3 * Math_sqrt (Math_max (lit 1) (Body.gValue b) / lit 100)
    * Math_max (lit 0.1)
        ((Body.limeSaturationLimit b - chemicalDose i)
         / Body.limeSaturationLimit b).
Proof. reflexivity. Qed.

Lemma eq_timeTo95 :
  Body.timeTo95 b
  = Math_log (lit 1 / lit 0.05) / (Body.rateK b || lit 1e-3).
Proof. reflexivity. Qed.

Lemma eq_distanceTo95 :
  Body.distanceTo95 b = Body.timeTo95 b * Body.velocity b.
Proof. reflexivity. Qed.

Lemma eq_decayRate :
  Body.decayRate b
  = match conduitType i with
    | PIPE => lit 0.75 * Math_sqrt (lit 0.02)
    | CHANNEL => lit 0.6
    end.
Proof. reflexivity. Qed.

Lemma eq_mixingDistanceNeeded :
  Body.mixingDistanceNeeded b
  = if Body.mixerCoV b <= targetCoV i then Body.Lm b
    else Body.Lm b
         + (Math_log (Body.mixerCoV b / targetCoV i)
            / (Body.decayRate b || lit 0.1))
           * Body.hydraulicDiameter b.
Proof. reflexivity. Qed.

Lemma eq_finalDistanceNeeded :
  Body.finalDistanceNeeded b
  = if includes (chemicalType i) "Lime"
    then Math_max (Body.mixingDistanceNeeded b) (Body.distanceTo95 b)
    else Body.mixingDistanceNeeded b.
Proof. reflexivity. Qed.

Lemma eq_mixingTimeNeeded :
  Body.mixingTimeNeeded b
  = Body.finalDistanceNeeded b / (Body.velocity b || lit 1e-6).
Proof. reflexivity. Qed.

Lemma eq_dissolvedAtTarget :
  Body.dissolvedAtTarget b
  = (lit 1 - Math_exp (- Body.rateK b * Body.mixingTimeNeeded b)) * lit 100.
Proof. reflexivity. Qed.

End BodyEquations.

(** The three geometry variables, as the result and the body hold them. *)
Lemma result_geometry (i : MixingInputs N) :
  let g :=
    geometry (conduitType i) (conduitShape i) (dimension i)
      (match depth i with Some d => d | None => lit 0.5 end) in
  wettedArea (calculateMixing i) = Geometry.area g
  /\ Body.perimeter (body i) = Geometry.perimeter g
  /\ hydraulicDiameter (calculateMixing i) = Geometry.hydraulicDiameter g.
Proof. repeat split. Qed.

End AnyNumber.

Section ModelDispatch.

Context {N : Number}.

Local Open Scope js_scope.

(** C5. With the WEIR model [headlossMeters] is the literal 0.15, whatever
    the velocity, density and hydraulic diameter; with every other model it
    is [FD * Lm * velocity^2 / (2 * 9.81 * hydraulicDiameter)], for the [FD]
    and [Lm] the switch assigned; and [headloss], in kPa, is
    [headlossMeters * density * 9.81 / 1000] with every model. *)
Theorem headloss_by_model (inputs : MixingInputs N) :
  let b := body inputs in
  let r := calculateMixing inputs in
  headlossMeters r
  = match mixerModel inputs with
    | WEIR => lit 0.15
    | _ =>
        (Body.FD b * Body.Lm b * Math_pow (velocity r) (lit 2))
        / (lit 2 * lit 9.81 * hydraulicDiameter r)
    end
  /\ headloss r = (headlossMeters r * density inputs * lit 9.81) / lit 1000.
Proof. split; reflexivity. Qed.

(** C6. BAFFLES returns, field for field, the result of NONE on the same
    input: the switch has no BAFFLES case, so the default branch assigns
    the correlation, [FD], [Lm] and the guidance string. *)
Theorem baffles_is_none (inputs : MixingInputs N) :
  calculateMixing (set_mixerModel BAFFLES inputs)
  = calculateMixing (set_mixerModel NONE inputs).
Proof. reflexivity. Qed.

(** C10. WEIR runs the default branch of the switch as NONE does: the same
    [mixerCoV] (before and after the clamp), the same guidance string, the
    same [FD], [Lm = availableLength] and the same blending distance of
    line 170.  [headlossMeters] is 0.15, and every field that does not
    depend on the headloss is the one NONE returns.  The fields that
    remain are, by lines 157-195, functions of that headloss and of values
    NONE has too: the headloss in kPa, the G-value, the rate constant, the
    time and the distance to dissolve 95%, and the dissolved fraction.  The
    required distance and time and the two compliance flags read the
    headloss for lime only: with any other chemical they are those of
    NONE. *)
Theorem weir_blends_as_none (inputs : MixingInputs N) :
  let w := calculateMixing (set_mixerModel WEIR inputs) in
  let n := calculateMixing (set_mixerModel NONE inputs) in
  let bw := body (set_mixerModel WEIR inputs) in
  let bn := body (set_mixerModel NONE inputs) in
  let lime := includes (chemicalType inputs) "Lime" in
  mixerCoV w = mixerCoV n
  /\ manufacturerNotes w = manufacturerNotes n
  /\ manufacturerNotes w = default_notes
  /\ Body.mixerCoV_raw bw = Body.mixerCoV_raw bn
  /\ Body.FD bw = Body.FD bn
  /\ Body.Lm bw = availableLength inputs
  /\ Body.mixingDistanceNeeded bw = Body.mixingDistanceNeeded bn
  /\ headlossMeters w = lit 0.15
  /\ (velocity w, reynoldsNumber w, momentumRatio w, momentumRegime w,
      naturalMixingCoV w, viscosityRatio w, injectedViscosity w,
      injectedDensity w, totalInjectionFlow w, limeSaturationLimit w,
      suggestedOrificeDiameter w, hydraulicDiameter w, wettedArea w)
     = (velocity n, reynoldsNumber n, momentumRatio n, momentumRegime n,
        naturalMixingCoV n, viscosityRatio n, injectedViscosity n,
        injectedDensity n, totalInjectionFlow n, limeSaturationLimit n,
        suggestedOrificeDiameter n, hydraulicDiameter n, wettedArea n)
  /\ headloss w = (lit 0.15 * density inputs * lit 9.81) / lit 1000
  /\ gValue w
     = Math_sqrt
         ((headloss w * lit 1000 * Body.Q_m3s bn)
          / ((viscosity inputs * Body.volForG bn) || lit 1e-9))
  /\ Body.rateK bw
     = lit 0.3 * Math_sqrt (Math_max (lit 1) (gValue w) / lit 100)
       * Math_max (lit 0.1)
           ((limeSaturationLimit n - chemicalDose inputs)
            / limeSaturationLimit n)
  /\ timeTo95Dissolution w
     = Math_log (lit 1 / lit 0.05) / (Body.rateK bw || lit 1e-3)
  /\ distanceTo95Dissolution w = timeTo95Dissolution w * velocity n
  /\ mixingDistanceNeeded w
     = (if lime
        then Math_max (Body.mixingDistanceNeeded bn) (distanceTo95Dissolution w)
        else Body.mixingDistanceNeeded bn)
  /\ mixingTimeNeeded w = mixingDistanceNeeded w / (velocity n || lit 1e-6)
  /\ isTimeCompliant w = (mixingTimeNeeded w <= targetMixingTime inputs)
  /\ Body.dissolvedAtTarget bw
     = (lit 1 - Math_exp (- Body.rateK bw * mixingTimeNeeded w)) * lit 100
  /\ dissolvedAtTarget w = Math_min (lit 100) (Body.dissolvedAtTarget bw)
  /\ isCompliant w
     = ((mixerCoV n <= targetCoV inputs)
        && (negb lime || (Body.dissolvedAtTarget bw > lit 90)))%bool
  /\ (if lime then True
      else (mixingDistanceNeeded w, mixingTimeNeeded w, isTimeCompliant w,
            isCompliant w)
           = (mixingDistanceNeeded n, mixingTimeNeeded n, isTimeCompliant n,
              isCompliant n)).
Proof.
  intros w n bw bn lime.
  repeat match goal with |- _ /\ _ => split end; try reflexivity.
  unfold w, n, calculateMixing.
  cbn [mixingDistanceNeeded mixingTimeNeeded isTimeCompliant isCompliant].
  rewrite !eq_mixingTimeNeeded, !eq_finalDistanceNeeded.
  cbn [chemicalType set_mixerModel]. fold lime.
  destruct lime; [exact I | reflexivity].
Qed.

End ModelDispatch.

(** ** Binary64 facts *)

Module B64Facts.
Import B64.

Lemma SFltb_leb (x y : spec_float) : SFltb x y = true -> SFleb x y = true.
Proof.
  unfold SFltb, SFleb. destruct (SFcompare x y) as [[ | | ] | ]; congruence.
Qed.

(** Rounding keeps the sign it is given. *)
Lemma round_aux_nonneg (m e : Z) (l : location) :
  nonneg (binary_round_aux prec emax false m e l) = true.
Proof.
  unfold binary_round_aux.
  destruct (shr_fexp prec emax m e l) as [mrs e'].
  destruct (shr_fexp prec emax _ e' loc_Exact) as [mrs' e''].
  destruct (shr_m mrs'); [reflexivity | | reflexivity].
  destruct (e'' <=? emax - prec)%Z; reflexivity.
Qed.

Lemma mul_nonneg (x y : spec_float) :
  nonneg x = true -> nonneg y = true -> nonneg (SFmul prec emax x y) = true.
Proof.
  destruct x as [sx | sx | | sx mx ex], y as [sy | sy | | sy my ey];
    simpl; intros Hx Hy; try reflexivity; try discriminate;
    try (apply negb_true_iff in Hx; subst sx);
    try (apply negb_true_iff in Hy; subst sy); try reflexivity.
  apply round_aux_nonneg.
Qed.

Lemma abs_nonneg (x : spec_float) : nonneg (SFabs x) = true.
Proof. destruct x; reflexivity. Qed.

(** [Math.max] of a non-zero number and a number is one of the two. *)
Lemma max_cases (x y : spec_float) :
  is_nan x = false -> is_nan y = false -> to_boolean x = true ->
  (max x y = y /\ SFltb x y = true) \/ (max x y = x /\ SFltb x y = false).
Proof.
  intros Hx Hy Hz. unfold max. rewrite Hx, Hy. simpl.
  destruct (SFltb x y); [left; split; reflexivity | right; split; [| reflexivity]].
  destruct (SFltb y x); [reflexivity |].
  destruct x; try reflexivity; discriminate.
Qed.

Lemma min_cases (x y : spec_float) :
  is_nan x = false -> is_nan y = false -> to_boolean x = true ->
  min x y = x \/ (min x y = y /\ SFltb y x = true).
Proof.
  intros Hx Hy Hz. unfold min. rewrite Hx, Hy. simpl.
  destruct (SFltb x y); [left; reflexivity |].
  destruct (SFltb y x); [right; split; reflexivity | left].
  destruct x; try reflexivity; discriminate.
Qed.

(** Line 153 returns a number between 0.0001 and 1, whatever it is given. *)
Lemma clamp_bounds (M : MathLib) (v : spec_float) :
  SFleb (of_Q 0.0001) (clampCoV (N := number M) v) = true
  /\ SFleb (clampCoV (N := number M) v) (of_Q 1) = true.
Proof.
  unfold clampCoV. cbn [isNaN lit Math_min Math_max number].
  change (of_Q 1.0) with (of_Q 1).
  destruct (is_nan v) eqn:Hv; [split; vm_compute; reflexivity |].
  destruct (max_cases (of_Q 0.0001) v) as [[-> Hlt] | [-> _]];
    try reflexivity; try assumption.
  - destruct (min_cases (of_Q 1) v) as [-> | [-> Hlt']];
      try reflexivity; try assumption.
    + split; vm_compute; reflexivity.
    + split; [apply SFltb_leb, Hlt | apply SFltb_leb, Hlt'].
  - split; vm_compute; reflexivity.
Qed.

(** Line 153 tests [isNaN] only: a negative infinity would come out as the
    floor of the clamp. *)
Remark clamp_negative_infinity (M : MathLib) :
  clampCoV (N := number M) (S754_infinity true) = of_Q 0.0001.
Proof. vm_compute. reflexivity. Qed.

(** A NaN or an infinity that is not negative is clamped to 1. *)
Lemma clamp_nonfinite (M : MathLib) (v : spec_float) :
  nonneg v = true -> is_nan v || is_infinite v = true ->
  clampCoV (N := number M) v = of_Q 1.
Proof.
  destruct v as [s | s | | s m e]; simpl; try discriminate.
  - intros Hs _. apply negb_true_iff in Hs. subst s. vm_compute. reflexivity.
  - intros _ _. vm_compute. reflexivity.
Qed.

Lemma odd_integer_is_integer (y : spec_float) :
  is_odd_integer y = true -> is_integer y = true.
Proof.
  destruct y as [s | s | | s m [ | p | p]]; simpl; try discriminate;
    try reflexivity.
  intros H. apply andb_true_iff in H. apply H.
Qed.

Lemma not_integer_not_odd (y : spec_float) :
  is_integer y = false -> is_odd_integer y = false.
Proof.
  intros H. destruct (is_odd_integer y) eqn:E; [| reflexivity].
  apply odd_integer_is_integer in E. congruence.
Qed.

Lemma sqrt_is_nonneg (x : spec_float) : nonneg (SFsqrt prec emax x) = true.
Proof.
  destruct x as [s | [ | ] | | [ | ] m e]; try reflexivity.
  unfold SFsqrt.
  destruct (SFsqrt_core_binary prec emax (Z.pos m) e) as [[mz ez] lz].
  apply round_aux_nonneg.
Qed.

Lemma ref_exp_nonneg (x : spec_float) : nonneg (ref_exp x) = true.
Proof.
  destruct x as [s | [ | ] | | s m e]; try reflexivity.
  unfold ref_exp, exp_finite.
  destruct (SFltb _ _); [reflexivity |].
  destruct (SFltb _ _); [reflexivity |].
  apply abs_nonneg.
Qed.

Lemma ref_pow_nonneg (x y : spec_float) :
  is_integer y = false -> nonneg (ref_pow x y) = true.
Proof.
  intros Hy. pose proof (not_integer_not_odd y Hy) as Ho.
  destruct y as [sy | sy | | sy my ey]; try discriminate; try reflexivity.
  - destruct x as [sx | sx | | sx mx ex]; try reflexivity.
    + destruct sy; reflexivity.
    + destruct sy; reflexivity.
    + unfold ref_pow.
      destruct (SFcompare _ _) as [[ | | ] | ]; destruct sy; reflexivity.
  - destruct x as [sx | sx | | sx mx ex]; try reflexivity.
    + unfold ref_pow. rewrite Ho, andb_false_r. destruct sy; reflexivity.
    + unfold ref_pow. rewrite Ho, andb_false_r. destruct sy; reflexivity.
    + unfold ref_pow. rewrite Hy, Ho. simpl negb. rewrite andb_true_r, andb_false_r.
      destruct sx; [reflexivity |].
      destruct (SFeqb _ _); [| apply ref_exp_nonneg].
      apply mul_nonneg; reflexivity.
Qed.

(** [refMath] satisfies the laws. *)
Lemma refMath_laws : MathLaws refMath.
Proof.
  split; [exact sqrt_is_nonneg | exact ref_exp_nonneg | exact ref_pow_nonneg].
Qed.

Section Laws.

Variable M : MathLib.
Hypothesis HM : MathLaws M.

Local Ltac nonneg_step :=
  lazymatch goal with
  | |- nonneg (SFmul _ _ _ _) = true => apply mul_nonneg
  | |- nonneg (m_pow _ _ _) = true =>
      apply (pow_nonneg HM); vm_compute; reflexivity
  | |- nonneg (m_exp _ _) = true => apply (exp_nonneg HM)
  | |- nonneg (m_sqrt _ _) = true => apply (sqrt_nonneg HM)
  | |- nonneg (of_Q _) = true => vm_compute; reflexivity
  end.

(** No correlation of the switch returns a negative number: each is a
    product of a positive constant, powers with exponents that are not
    integers, a square root and an exponential. *)
Lemma correlation_nonneg (m : MixerModel) it ct pr
    (Re alpha n LD Dh L mr : spec_float) :
  nonneg (Switch.mixerCoV
            (correlation (N := number M) m it ct pr Re alpha n LD Dh L mr))
  = true.
Proof.
  destruct m, it, ct, pr; cbn [correlation Switch.mixerCoV];
    cbn [mul lit Math_pow Math_exp Math_sqrt number];
    try destruct (le _ _);
    repeat nonneg_step.
Qed.

(** C1. For every input [mixerCoV] lies between 0.0001 and 1, and when the
    correlation result is not finite (NaN or an infinity) the value
    returned is the worst case 1.0. *)
Theorem mixerCoV_clamped (inputs : MixingInputs (number M)) :
  let r := calculateMixing inputs in
  let raw := Body.mixerCoV_raw (body inputs) in
  SFleb (of_Q 0.0001) (mixerCoV r) = true
  /\ SFleb (mixerCoV r) (of_Q 1.0) = true
  /\ (is_nan raw || is_infinite raw = true -> mixerCoV r = of_Q 1.0).
Proof.
  intros r raw.
  assert (Hr : mixerCoV r = clampCoV (N := number M) raw) by reflexivity.
  rewrite Hr. change (of_Q 1.0) with (of_Q 1).
  destruct (clamp_bounds M raw) as [Hlo Hhi].
  repeat split; try assumption.
  apply clamp_nonfinite. apply correlation_nonneg.
Qed.

End Laws.

Lemma mixerCoV_clamped_witness :
  mixerCoV (calculateMixing (N := number refMath) zero_width) = of_Q 1.0.
Proof.
  destruct (mixerCoV_clamped refMath_laws zero_width) as (_ & _ & H).
  apply H. vm_compute. reflexivity.
Defined.

(** Between two positive numbers of one exponent, the larger mantissa
    first, there is no room: what is above the first is not below the
    second. *)
Lemma ltb_chain (m1 m2 : positive) (e0 : Z) (x : spec_float) :
  (m2 < m1)%positive ->
  SFltb (S754_finite false m1 e0) x = true ->
  SFltb x (S754_finite false m2 e0) = false.
Proof.
  intros Hm.
  destruct x as [s | [ | ] | | [ | ] m e]; try reflexivity; try discriminate.
  unfold SFltb, SFcompare.
  rewrite (Z.compare_antisym e e0).
  change (Pos.compare_cont Eq) with Pos.compare.
  destruct (Z.compare e e0); cbv beta iota delta [CompOpp];
    try discriminate; try reflexivity.
  destruct (Pos.compare_spec m1 m) as [ | Hlt | ]; try discriminate.
  intros _.
  destruct (Pos.compare_spec m m2) as [ | Hlt' | ]; try reflexivity.
  exfalso. apply (Pos.lt_irrefl m).
  eapply Pos.lt_trans; [exact Hlt' |].
  eapply Pos.lt_trans; [exact Hm | exact Hlt].
Qed.

(** A number above 0.24 is not below 0.16. *)
Lemma above_high_not_low (x : spec_float) :
  SFltb (of_Q 0.24) x = true -> SFltb x (of_Q 0.16) = false.
Proof.
  replace (of_Q 0.24) with (S754_finite false 8646911284551352 (-55))
    by (vm_compute; reflexivity).
  replace (of_Q 0.16) with (S754_finite false 5764607523034235 (-55))
    by (vm_compute; reflexivity).
  apply ltb_chain. reflexivity.
Qed.

(** C9. The regime thresholds: 0.15 is "Low", 0.16 is not "Low", 0.24 is
    not "High", 0.25 is "High"; in general a ratio below 0.16 is "Low", one
    above 0.24 is "High", any other is "Intermediate"; and the regime
    returned is the classification of the momentum ratio returned. *)
Theorem momentum_regime_thresholds (M : MathLib) :
  (regime (N := number M) (of_Q 0.15) = Low
   /\ regime (N := number M) (of_Q 0.16) <> Low
   /\ regime (N := number M) (of_Q 0.24) <> High
   /\ regime (N := number M) (of_Q 0.25) = High)
  /\ (forall ratio : spec_float,
        (SFltb ratio (of_Q 0.16) = true -> regime (N := number M) ratio = Low)
        /\ (SFltb (of_Q 0.24) ratio = true
            -> regime (N := number M) ratio = High)
        /\ (SFltb ratio (of_Q 0.16) = false
            -> SFltb (of_Q 0.24) ratio = false
            -> regime (N := number M) ratio = Intermediate))
  /\ (forall inputs : MixingInputs (number M),
        momentumRegime (calculateMixing inputs)
        = regime (momentumRatio (calculateMixing inputs))).
Proof.
  split; [| split].
  - repeat split; try reflexivity; vm_compute; discriminate.
  - intros ratio. unfold regime. cbn [lt lit number].
    repeat split.
    + intros ->. reflexivity.
    + intros H. rewrite (above_high_not_low _ H), H. reflexivity.
    + intros -> ->. reflexivity.
  - reflexivity.
Qed.

(** C2, as the code has it.  In a closed rectangular duct with no depth
    given, the height is the default 0.5 of the destructuring, not the
    width: area [0.5 w], perimeter [2 (w + 0.5)], hydraulic diameter
    [4 area / perimeter].  The height is the width when the depth given is
    falsy (0, as the form sends for an empty field, or NaN). *)
Theorem duct_height_default (M : MathLib) (inputs : MixingInputs (number M)) :
  conduitType inputs = PIPE ->
  conduitShape inputs = RECTANGULAR ->
  let r := calculateMixing inputs in
  let b := body inputs in
  let w := dimension inputs in
  let height := match depth inputs with
                | None => of_Q 0.5
                | Some d => if to_boolean d then d else w
                end in
  wettedArea r = SFmul prec emax w height
  /\ Body.perimeter b
     = SFmul prec emax (of_Q 2) (SFadd prec emax w height)
  /\ hydraulicDiameter r
     = SFdiv prec emax (SFmul prec emax (of_Q 4) (wettedArea r))
         (Body.perimeter b).
Proof.
  intros Hct Hcs r b w height.
  destruct (result_geometry inputs) as (Ha & Hp & Hd).
  unfold r, b. rewrite Ha, Hp, Hd, Hct, Hcs.
  cbn [geometry Geometry.area Geometry.perimeter Geometry.hydraulicDiameter].
  unfold height, w, or_else. cbn [truthy mul add div lit number].
  destruct (depth inputs) as [d | ].
  - destruct (to_boolean d); repeat split.
  - replace (to_boolean (of_Q 0.5)) with true by (vm_compute; reflexivity).
    repeat split.
Qed.

Lemma duct_height_default_witness :
  let i := duct_without_height (N := number refMath) in
  wettedArea (calculateMixing i) = SFmul prec emax (of_Q 2) (of_Q 0.5)
  /\ Body.perimeter (body i)
     = SFmul prec emax (of_Q 2) (SFadd prec emax (of_Q 2) (of_Q 0.5))
  /\ hydraulicDiameter (calculateMixing i)
     = SFdiv prec emax (SFmul prec emax (of_Q 4) (wettedArea (calculateMixing i)))
         (Body.perimeter (body i)).
Proof.
  exact (duct_height_default duct_without_height eq_refl eq_refl).
Defined.

(** C2, as stated, fails: the duct 2 m wide with no depth given has area 1,
    perimeter 5 and hydraulic diameter 0.8, not 4, 8 and 2. *)
Lemma duct_without_height_not_square :
  let i := duct_without_height (N := number refMath) in
  conduitType i = PIPE /\ conduitShape i = RECTANGULAR /\ depth i = None
  /\ dimension i = of_Q 2
  /\ wettedArea (calculateMixing i) = of_Q 1
  /\ Body.perimeter (body i) = of_Q 5
  /\ hydraulicDiameter (calculateMixing i) = of_Q 0.8
  /\ SFeqb (wettedArea (calculateMixing i))
       (SFmul prec emax (dimension i) (dimension i)) = false
  /\ SFeqb (Body.perimeter (body i)) (SFmul prec emax (of_Q 4) (dimension i))
     = false
  /\ SFeqb (hydraulicDiameter (calculateMixing i)) (dimension i) = false.
Proof.
  cbv zeta. split; [reflexivity |]. split; [reflexivity |].
  split; [reflexivity |]. vm_compute. repeat split.
Qed.

(** C3, as stated, fails: no line keeps the dissolved fraction from going
    below 0.  With a weir (the headloss is then fixed), a negative length
    and a target CoV of 1, the required distance is the length, the mixing
    time is negative, and the fraction returned is negative (about
    -3.3e7). *)
Lemma dissolved_negative_for_negative_length :
  let i := weir_negative_length (N := number refMath) in
  let r := calculateMixing i in
  availableLength i = of_Q (-10)
  /\ mixingDistanceNeeded r = of_Q (-10)
  /\ SFltb (mixingTimeNeeded r) (of_Q 0) = true
  /\ SFltb (dissolvedAtTarget r) (of_Q (-33000000)) = true
  /\ SFleb (of_Q 0) (dissolvedAtTarget r) = false.
Proof. vm_compute. repeat split. Qed.

(** Nor does line 195 stop a NaN: with the diameter field cleared the
    headloss is 0/0, the NaN reaches the dissolved fraction through the
    G-value and the rate constant, and [Math.min(100, NaN)] is NaN. *)
Lemma dissolved_nan_at_zero_width :
  let r := calculateMixing (N := number refMath) zero_width in
  headlossMeters r = NaN
  /\ dissolvedAtTarget r = NaN
  /\ SFleb (of_Q 0) (dissolvedAtTarget r) = false
  /\ SFleb (dissolvedAtTarget r) (of_Q 100) = false.
Proof. vm_compute. repeat split. Qed.

(** The upper clamp of line 195: what is returned is NaN or at most 100. *)
Lemma dissolved_upper (M : MathLib) (inputs : MixingInputs (number M)) :
  let d := dissolvedAtTarget (calculateMixing inputs) in
  is_nan d = true \/ SFleb d (of_Q 100) = true.
Proof.
  intros d. unfold d, calculateMixing. cbn [dissolvedAtTarget].
  cbn [Math_min lit number].
  generalize (Body.dissolvedAtTarget (body inputs)). intros x.
  destruct (is_nan x) eqn:Hx.
  - left. destruct x; try discriminate. reflexivity.
  - right.
    destruct (min_cases (of_Q 100) x) as [-> | [-> Hlt]];
      try reflexivity; try assumption.
    apply SFltb_leb, Hlt.
Qed.




(** *** The engine on the form's initial state *)

(** The scenario of the specification (a circular pipe of 0.8 m, 1500
    m3/h of water): hydraulic diameter 0.8, area about 0.5027 m2, velocity
    about 0.829 m/s, Reynolds number about 663000. *)
Example scenario_initial_state :
  let r := calculateMixing (N := number refMath) app_defaults in
  hydraulicDiameter r = of_Q 0.8
  /\ SFltb (of_Q 0.5026) (wettedArea r) && SFltb (wettedArea r) (of_Q 0.5027)
     = true
  /\ SFltb (of_Q 0.8289) (velocity r) && SFltb (velocity r) (of_Q 0.8290)
     = true
  /\ SFltb (of_Q 663000) (reynoldsNumber r)
     && SFltb (reynoldsNumber r) (of_Q 663200) = true.
Proof. vm_compute. repeat split. Qed.

(** With nothing injected every field of the result is finite, with no
    mixer and with each of the mixers. *)
Example no_injection_initial_state :
  forallb
    (fun m =>
       all_finite (M := refMath)
         (calculateMixing (set_mixerModel m defaults_no_injection)))
    (NONE :: KENICS_KM :: HEV :: SMV :: STM :: BAFFLES :: WEIR :: nil)
  = true.
Proof. vm_compute. reflexivity. Qed.

(** The fixed headloss of the weir is the binary64 number 0.15. *)
Example weir_headloss :
  headlossMeters
    (calculateMixing (N := number refMath) (set_mixerModel WEIR app_defaults))
  = S754_finite false 5404319552844595 (-55).
Proof. vm_compute. reflexivity. Qed.

End B64Facts.

(** ** Exact-arithmetic facts *)

Module ExactFacts.
Import Exact.

Local Open Scope R_scope.

Lemma Rltb_true (a b : R) : a < b -> Rltb a b = true.
Proof. intros H. unfold Rltb. destruct (Rlt_dec a b); [reflexivity | contradiction]. Qed.

Lemma Rltb_false (a b : R) : b <= a -> Rltb a b = false.
Proof. intros H. unfold Rltb. destruct (Rlt_dec a b); [lra | reflexivity]. Qed.

Lemma Rleb_true (a b : R) : a <= b -> Rleb a b = true.
Proof. intros H. unfold Rleb. destruct (Rle_dec a b); [reflexivity | contradiction]. Qed.

Lemma Rleb_false (a b : R) : b < a -> Rleb a b = false.
Proof. intros H. unfold Rleb. destruct (Rle_dec a b); [lra | reflexivity]. Qed.

Lemma Reqb_true (a b : R) : a = b -> Reqb a b = true.
Proof. intros H. unfold Reqb. destruct (Req_dec_T a b); [reflexivity | contradiction]. Qed.

Lemma Reqb_false (a b : R) : a <> b -> Reqb a b = false.
Proof. intros H. unfold Reqb. destruct (Req_dec_T a b); [contradiction | reflexivity]. Qed.

Lemma Rltb_iff (a b : R) : Rltb a b = true <-> a < b.
Proof. unfold Rltb. destruct (Rlt_dec a b); split; intros; auto; discriminate. Qed.

Lemma Rleb_iff (a b : R) : Rleb a b = true <-> a <= b.
Proof. unfold Rleb. destruct (Rle_dec a b); split; intros; auto; discriminate. Qed.

(** *** The fractions of the injected stream *)

(** The two fractions of finite flows with a positive sum, and their sum. *)
Lemma fractions_exact (inputs : MixingInputs number) (c w : R) :
  chemicalFlow inputs = XFin c ->
  dilutionWaterFlow inputs = XFin w ->
  0 < c + w ->
  Body.x_chem (body inputs) = XFin (c / (c + w))
  /\ Body.x_water (body inputs) = XFin (w / (c + w))
  /\ xadd (Body.x_chem (body inputs)) (Body.x_water (body inputs)) = XFin 1.
Proof.
  intros Hc Hw Hpos.
  rewrite eq_x_chem, eq_x_water, eq_totalInjectionFlowLh, Hc, Hw.
  cbn [add div lit number xadd]. unfold or_else. cbn [truthy number to_boolean].
  rewrite Reqb_false by lra. cbn [negb xdiv].
  rewrite Reqb_false by lra.
  repeat split. cbn [xadd]. f_equal. field. lra.
Qed.

(** *** The clamp *)

Lemma lo_value : Q2R 0.0001 = 1 / 10000.
Proof. unfold Q2R. simpl. lra. Qed.

Lemma hi_value : Q2R 1.0 = 1.
Proof. unfold Q2R. simpl. lra. Qed.

(** Line 153 on a real number. *)
Lemma clamp_real (v : R) :
  clampCoV (N := number) (XFin v)
  = XFin (if Rltb (1 / 10000) v then (if Rltb v 1 then v else 1)
          else 1 / 10000).
Proof.
  unfold clampCoV. cbn [isNaN lit Math_min Math_max number is_nan].
  rewrite lo_value, hi_value. unfold xmax, xmin. cbn [is_nan orb xlt].
  destruct (Rltb (1 / 10000) v) eqn:E1; cbn [is_nan orb xlt].
  - destruct (Rltb v 1); reflexivity.
  - rewrite Rltb_true by lra. reflexivity.
Qed.

Lemma clamp_nan : clampCoV (N := number) XNaN = XFin 1.
Proof. unfold clampCoV. cbn. rewrite hi_value. reflexivity. Qed.

Lemma clamp_inf : clampCoV (N := number) (XInf false) = XFin 1.
Proof.
  unfold clampCoV. cbn [isNaN lit Math_min Math_max number is_nan].
  rewrite hi_value. reflexivity.
Qed.

(** Whatever the correlation gives, line 153 gives a real number between
    0.0001 and 1. *)
Lemma clamp_range (v : xreal) :
  exists c, clampCoV (N := number) v = XFin c /\ 1 / 10000 <= c <= 1.
Proof.
  destruct v as [ | [ | ] | v].
  - exists 1. rewrite clamp_nan. split; [reflexivity | lra].
  - exists (1 / 10000). split; [| lra].
    unfold clampCoV. cbn [isNaN lit Math_min Math_max number is_nan].
    rewrite lo_value, hi_value. unfold xmax, xmin. cbn [is_nan orb xlt negb].
    rewrite Rltb_true by lra. reflexivity.
  - exists 1. rewrite clamp_inf. split; [reflexivity | lra].
  - rewrite clamp_real. eexists. split; [reflexivity |].
    destruct (Rltb (1 / 10000) v) eqn:E1; [| lra].
    apply Rltb_iff in E1.
    destruct (Rltb v 1) eqn:E2; [apply Rltb_iff in E2 |]; lra.
Qed.

(** *** Powers *)

Lemma not_integer (r : R) : (forall z, IZR z <> r) -> is_integer r = false.
Proof. intros H. unfold is_integer. apply Reqb_false. apply H. Qed.

Lemma not_odd_integer (r : R) : is_integer r = false -> is_odd_integer r = false.
Proof. intros H. unfold is_odd_integer. rewrite H. reflexivity. Qed.

(** The power of a number with an exponent that is not an integer is NaN
    or not negative. *)
Lemma xpow_not_negative (x : xreal) (e : R) :
  is_integer e = false -> nan_or_nonnegative (xpow x (XFin e)).
Proof.
  intros He. pose proof (not_odd_integer _ He) as Ho.
  destruct x as [ | s | a]; cbn [xpow].
  - destruct (Reqb e 0); simpl; lra.
  - destruct (Reqb e 0); [simpl; lra |].
    destruct (Rltb e 0); [simpl; lra |].
    rewrite Ho, andb_false_r. reflexivity.
  - destruct (Reqb e 0); [simpl; lra |].
    destruct (Reqb a 0); [destruct (Rltb e 0); simpl; [reflexivity | lra] |].
    destruct (Rltb 0 a); [simpl; left; apply exp_pos |].
    rewrite He. exact I.
Qed.

Lemma xmul_not_negative (x y : xreal) :
  nan_or_nonnegative x -> nan_or_nonnegative y ->
  nan_or_nonnegative (xmul x y).
Proof.
  destruct x as [ | sx | a], y as [ | sy | c]; simpl; try tauto.
  - intros -> ->. reflexivity.
  - intros -> Hc. unfold inf_scaled.
    destruct (Reqb c 0); [exact I |]. rewrite Rltb_false by lra. reflexivity.
  - intros Ha ->. unfold inf_scaled.
    destruct (Reqb a 0); [exact I |]. rewrite Rltb_false by lra. reflexivity.
  - intros Ha Hc. apply Rmult_le_pos; assumption.
Qed.

(** The power of a positive real number. *)
Lemma xpow_positive (a e : R) :
  0 < a -> e <> 0 -> xpow (XFin a) (XFin e) = XFin (Rpower a e).
Proof.
  intros Ha He. cbn [xpow].
  rewrite (Reqb_false He), Reqb_false by lra.
  rewrite Rltb_true by lra. reflexivity.
Qed.

(** With a negative exponent the power decreases, strictly, in its base. *)
Lemma Rpower_decreasing (a c e : R) :
  0 < a < c -> e < 0 -> Rpower c e < Rpower a e.
Proof.
  intros [Ha Hac] He. unfold Rpower. apply exp_increasing.
  pose proof (ln_increasing a c Ha Hac). nra.
Qed.

Lemma tenths_not_integer (n : Z) :
  (n mod 10 <> 0)%Z -> forall z, IZR z <> IZR n / 10.
Proof.
  intros Hn z H.
  assert (H' : IZR (z * 10) = IZR n) by (rewrite mult_IZR; lra).
  apply eq_IZR in H'. subst n. rewrite Z.mod_mul in Hn by lia. congruence.
Qed.

Lemma hundredths_not_integer (n : Z) :
  (n mod 100 <> 0)%Z -> forall z, IZR z <> IZR n / 100.
Proof.
  intros Hn z H.
  assert (H' : IZR (z * 100) = IZR n) by (rewrite mult_IZR; lra).
  apply eq_IZR in H'. subst n. rewrite Z.mod_mul in Hn by lia. congruence.
Qed.

(** *** Kenics KM, single injection, by element count *)

Section Kenics.

Variable inputs : MixingInputs number.
Hypothesis Hmodel : mixerModel inputs = KENICS_KM.
Hypothesis Hinjection : injectionType inputs = SINGLE.

(** The part of the correlation that does not read the element count. *)
Let coefficient : xreal :=
  xmul (xmul (XFin (Q2R 0.96))
          (xpow (Body.Re (body inputs)) (XFin (Q2R (-0.1)))))
    (xpow (Body.alpha (body inputs)) (XFin (Q2R 0.03))).

Lemma kenics_mixerCoV (n : xreal) :
  mixerCoV (calculateMixing (set_numElements (N := number) n inputs))
  = clampCoV (N := number)
      (xmul coefficient (xpow n (XFin (Q2R (-1.9))))).
Proof.
  change (mixerCoV (calculateMixing (set_numElements (N := number) n inputs)))
    with (Body.mixerCoV (body (set_numElements (N := number) n inputs))).
  rewrite eq_mixerCoV.
  destruct (eq_switch (set_numElements (N := number) n inputs)) as (-> & _).
  cbn [mixerModel injectionType set_numElements].
  rewrite Hmodel, Hinjection. reflexivity.
Qed.

Lemma coefficient_not_negative : nan_or_nonnegative coefficient.
Proof.
  unfold coefficient. repeat apply xmul_not_negative.
  - simpl. unfold Q2R. simpl. lra.
  - apply xpow_not_negative, not_integer. unfold Q2R. simpl.
    replace (-1 * / 10) with (IZR (-1) / 10) by lra.
    apply tenths_not_integer. discriminate.
  - apply xpow_not_negative, not_integer. unfold Q2R. simpl.
    replace (3 * / 100) with (IZR 3 / 100) by lra.
    apply hundredths_not_integer. discriminate.
Qed.

(** With no element, or a negative count, the power of line 86 is an
    infinity or NaN, and line 153 returns the ceiling 1. *)
Lemma kenics_without_elements (n : R) :
  n <= 0 ->
  mixerCoV (calculateMixing (set_numElements (N := number) (XFin n) inputs))
  = XFin 1.
Proof.
  intros Hn. rewrite kenics_mixerCoV.
  assert (He : Q2R (-1.9) < 0) by (unfold Q2R; simpl; lra).
  assert (Hi : is_integer (Q2R (-1.9)) = false).
  { apply not_integer. unfold Q2R. simpl.
    replace (-19 * / 10) with (IZR (-19) / 10) by lra.
    apply tenths_not_integer. discriminate. }
  pose proof coefficient_not_negative as Hc.
  assert (Hpow : xpow (XFin n) (XFin (Q2R (-1.9))) = XNaN
                 \/ xpow (XFin n) (XFin (Q2R (-1.9))) = XInf false).
  { cbn [xpow]. rewrite Reqb_false by lra.
    destruct (Req_dec_T n 0) as [-> | Hn0].
    - rewrite Reqb_true by reflexivity. rewrite Rltb_true by lra.
      right. reflexivity.
    - rewrite (Reqb_false Hn0). rewrite Rltb_false by lra. rewrite Hi.
      left. reflexivity. }
  destruct Hpow as [-> | ->].
  - destruct coefficient; cbn [xmul]; apply clamp_nan.
  - destruct coefficient as [ | s | c]; cbn [xmul nan_or_nonnegative] in *.
    + apply clamp_nan.
    + subst s. apply clamp_inf.
    + unfold inf_scaled. destruct (Reqb c 0); [apply clamp_nan |].
      rewrite Rltb_false by lra. apply clamp_inf.
Qed.


End Kenics.

(** *** Signs and finiteness through the operators *)

Lemma positive_finite (x : xreal) : positive x -> finite x.
Proof. destruct x; simpl; tauto. Qed.

Lemma positive_nonnegative (x : xreal) : positive x -> nonnegative x.
Proof. destruct x; simpl; try tauto. lra. Qed.

Lemma nonnegative_finite (x : xreal) : nonnegative x -> finite x.
Proof. destruct x; simpl; tauto. Qed.

Lemma positive_lit (q : Q) : (0 < Qnum q)%Z -> positive (XFin (Q2R q)).
Proof.
  intros H. simpl. unfold Q2R. apply Rmult_lt_0_compat.
  - apply IZR_lt. assumption.
  - apply Rinv_0_lt_compat, IZR_lt. reflexivity.
Qed.

Lemma finite_real (r : R) : finite (XFin r).
Proof. exact I. Qed.

Lemma positive_add (x y : xreal) :
  positive x -> positive y -> positive (xadd x y).
Proof. destruct x, y; simpl; try tauto. lra. Qed.

Lemma positive_mul (x y : xreal) :
  positive x -> positive y -> positive (xmul x y).
Proof. destruct x, y; simpl; try tauto. apply Rmult_lt_0_compat. Qed.

Lemma positive_div (x y : xreal) :
  positive x -> positive y -> positive (xdiv x y).
Proof.
  destruct x as [ | | a], y as [ | | c]; simpl; try tauto.
  intros Ha Hc. rewrite Reqb_false by lra. simpl.
  apply Rdiv_lt_0_compat; assumption.
Qed.

Lemma positive_sqrt (x : xreal) : positive x -> positive (xsqrt x).
Proof.
  destruct x as [ | | a]; simpl; try tauto.
  intros Ha. rewrite Rltb_false by lra. simpl. apply sqrt_lt_R0, Ha.
Qed.

Lemma positive_exp (x : xreal) : finite x -> positive (xexp x).
Proof. destruct x; simpl; try tauto. intros _. apply exp_pos. Qed.

Lemma positive_pow (x y : xreal) :
  positive x -> finite y -> positive (xpow x y).
Proof.
  destruct x as [ | | a], y as [ | | e]; simpl; try tauto.
  intros Ha _. destruct (Reqb e 0); [simpl; lra |].
  rewrite Reqb_false by lra. rewrite Rltb_true by lra. simpl. apply exp_pos.
Qed.

Lemma positive_max (x y : xreal) :
  positive x -> finite y -> positive (xmax x y).
Proof.
  destruct x as [ | | a], y as [ | | c]; simpl; try tauto.
  intros Ha _. unfold xmax. simpl. destruct (Rltb a c) eqn:E; simpl; [| lra].
  apply Rltb_iff in E. lra.
Qed.

Lemma positive_or_else (x y : xreal) :
  positive x -> or_else (N := number) x y = x.
Proof.
  destruct x as [ | | a]; simpl; try tauto.
  intros Ha. unfold or_else. cbn [truthy number to_boolean].
  rewrite Reqb_false by lra. reflexivity.
Qed.

Lemma zero_or_else (y : xreal) : or_else (N := number) (XFin 0) y = y.
Proof.
  unfold or_else. cbn [truthy number to_boolean].
  rewrite Reqb_true by reflexivity. reflexivity.
Qed.

Lemma finite_add (x y : xreal) : finite x -> finite y -> finite (xadd x y).
Proof. destruct x, y; simpl; tauto. Qed.

Lemma finite_neg (x : xreal) : finite x -> finite (xneg x).
Proof. destruct x; simpl; tauto. Qed.

Lemma finite_sub (x y : xreal) : finite x -> finite y -> finite (xsub x y).
Proof. destruct x, y; simpl; tauto. Qed.

Lemma finite_mul (x y : xreal) : finite x -> finite y -> finite (xmul x y).
Proof. destruct x, y; simpl; tauto. Qed.

Lemma finite_div (x y : xreal) : finite x -> positive y -> finite (xdiv x y).
Proof.
  destruct x as [ | | a], y as [ | | c]; simpl; try tauto.
  intros _ Hc. rewrite Reqb_false by lra. exact I.
Qed.

Lemma finite_log (x : xreal) : positive x -> finite (xlog x).
Proof.
  destruct x as [ | | a]; simpl; try tauto.
  intros Ha. rewrite Rltb_false by lra. rewrite Reqb_false by lra. exact I.
Qed.

Lemma finite_max (x y : xreal) : finite x -> finite y -> finite (xmax x y).
Proof.
  destruct x, y; simpl; try tauto. intros _ _. unfold xmax. simpl.
  destruct (Rltb _ _); exact I.
Qed.

Lemma finite_min (x y : xreal) : finite x -> finite y -> finite (xmin x y).
Proof.
  destruct x, y; simpl; try tauto. intros _ _. unfold xmin. simpl.
  destruct (Rltb _ _); exact I.
Qed.

Lemma nonnegative_mul (x y : xreal) :
  nonnegative x -> nonnegative y -> nonnegative (xmul x y).
Proof. destruct x, y; simpl; try tauto. apply Rmult_le_pos. Qed.

Lemma nonnegative_div (x y : xreal) :
  nonnegative x -> positive y -> nonnegative (xdiv x y).
Proof.
  destruct x as [ | | a], y as [ | | c]; simpl; try tauto.
  intros Ha Hc. rewrite Reqb_false by lra. simpl.
  apply Rmult_le_pos; [assumption |]. left. apply Rinv_0_lt_compat, Hc.
Qed.

Lemma nonnegative_sqrt (x : xreal) : nonnegative x -> nonnegative (xsqrt x).
Proof.
  destruct x as [ | | a]; simpl; try tauto.
  intros Ha. rewrite Rltb_false by lra. simpl. apply sqrt_pos.
Qed.

Lemma positive_log_above_one (x : xreal) (a : R) :
  x = XFin a -> 1 < a -> positive (xlog x).
Proof.
  intros -> Ha. simpl. rewrite Rltb_false by lra. rewrite Reqb_false by lra.
  simpl. rewrite Rmult_1_l. rewrite <- ln_1. apply ln_increasing; lra.
Qed.

Create HintDb xr.

#[local] Hint Resolve positive_add positive_mul positive_div positive_sqrt
  positive_exp positive_pow positive_max finite_add finite_neg finite_sub
  finite_mul finite_div finite_log finite_max finite_min nonnegative_mul
  nonnegative_div nonnegative_sqrt finite_real : xr.
#[local] Hint Resolve positive_finite positive_nonnegative nonnegative_finite
  | 5 : xr.
#[local] Hint Extern 1 (positive (XFin (Q2R _))) =>
  (apply positive_lit; reflexivity) : xr.
#[local] Hint Extern 1 (positive (XFin PI)) => (simpl; apply PI_RGT_0) : xr.

(** The operators of the interface, in the exact reading. *)
Ltac exact_ops :=
  cbn [num lit Math_PI add sub mul div neg lt le isNaN truthy Math_sqrt
       Math_exp Math_log Math_log10 Math_pow Math_max Math_min number].

Lemma Q2R_two : Q2R 2 = 2.
Proof. unfold Q2R. simpl. lra. Qed.

Lemma two_is_even_integer :
  is_integer (Q2R 2) = true /\ Z.odd (Int_part (Q2R 2)) = false.
Proof.
  rewrite Q2R_two.
  assert (H : Int_part 2 = 2%Z).
  { symmetry. apply Int_part_spec. lra. }
  unfold is_integer. rewrite H. split; [apply Reqb_true |]; reflexivity.
Qed.

(** The square of a real number other than zero is positive. *)
Lemma positive_square (l : R) :
  l <> 0 -> positive (xpow (XFin l) (XFin (Q2R 2))).
Proof.
  intros Hl. destruct two_is_even_integer as [Hi Ho]. cbn [xpow].
  rewrite Reqb_false by (rewrite Q2R_two; lra).
  rewrite (Reqb_false Hl).
  destruct (Rltb 0 l); [simpl; apply exp_pos |].
  rewrite Hi, Ho. simpl. apply exp_pos.
Qed.

Lemma Rpower_two (x : R) : 0 < x -> Rpower x (Q2R 2) = x * x.
Proof.
  intros Hx. rewrite Q2R_two. change 2 with (INR 2).
  rewrite Rpower_pow by assumption. simpl. ring.
Qed.

(** The square of a real number that is not negative. *)
Lemma xpow_square (x : R) :
  0 <= x -> xpow (XFin x) (XFin (Q2R 2)) = XFin (x * x).
Proof.
  intros Hx. cbn [xpow]. rewrite Reqb_false by (rewrite Q2R_two; lra).
  destruct (Req_dec_T x 0) as [-> | Hne].
  - rewrite Reqb_true by reflexivity.
    rewrite Rltb_false by (rewrite Q2R_two; lra). f_equal. ring.
  - rewrite (Reqb_false Hne). rewrite Rltb_true by lra.
    rewrite Rpower_two by lra. reflexivity.
Qed.

Lemma xdiv_real (a c : R) : c <> 0 -> xdiv (XFin a) (XFin c) = XFin (a / c).
Proof. intros Hc. cbn [xdiv]. rewrite (Reqb_false Hc). reflexivity. Qed.

Lemma Rdiv_at_least (a c d : R) : 0 < d -> a * d <= c -> a <= c / d.
Proof.
  intros Hd H. apply Rmult_le_reg_r with d; [exact Hd |].
  unfold Rdiv. rewrite Rmult_assoc, Rinv_l by lra. lra.
Qed.

Lemma Rdiv_at_most (a c d : R) : 0 < d -> c <= a * d -> c / d <= a.
Proof.
  intros Hd H. apply Rmult_le_reg_r with d; [exact Hd |].
  unfold Rdiv. rewrite Rmult_assoc, Rinv_l by lra. lra.
Qed.

(** *** Nothing injected *)

Section NoInjection.

Variable inputs : MixingInputs number.
Hypothesis Hchem : chemicalFlow inputs = XFin 0.
Hypothesis Hwater : dilutionWaterFlow inputs = XFin 0.
Hypothesis Hwf : well_formed inputs.

Local Abbreviation b := (body inputs).

(** The components of [well_formed], the last one (on the friction
    factor) set aside. *)
Local Ltac wf :=
  let H := fresh "Hwf" in
  pose proof Hwf as H;
  destruct H as
    (Hn & Hq & Hdim & Hdep & HL & Hmu & Hrho & Hdose & Hcd & Hcv & Htc & Htt
     & HT & _).

Lemma zero_totalInjectionFlowLh : Body.totalInjectionFlowLh b = XFin 0.
Proof.
  rewrite eq_totalInjectionFlowLh, Hchem, Hwater. exact_ops. cbn [xadd].
  f_equal. lra.
Qed.

Lemma zero_x_chem : Body.x_chem b = XFin 0.
Proof.
  rewrite eq_x_chem, zero_totalInjectionFlowLh, Hchem, zero_or_else.
  exact_ops. cbn [xdiv]. rewrite Reqb_false by (unfold Q2R; simpl; lra).
  f_equal. unfold Rdiv. ring.
Qed.

Lemma zero_x_water : Body.x_water b = XFin 0.
Proof.
  rewrite eq_x_water, zero_totalInjectionFlowLh, Hwater, zero_or_else.
  exact_ops. cbn [xdiv]. rewrite Reqb_false by (unfold Q2R; simpl; lra).
  f_equal. unfold Rdiv. ring.
Qed.

Lemma zero_injectedDensity : Body.injectedDensity b = XFin 0.
Proof.
  rewrite eq_injectedDensity, zero_x_chem, zero_x_water. exact_ops.
  wf. destruct (chemicalDensity inputs); try contradiction.
  cbn [xmul xadd]. f_equal. ring.
Qed.

Lemma positive_injectedViscosity : positive (Body.injectedViscosity b).
Proof.
  rewrite eq_injectedViscosity, zero_x_chem, zero_x_water. exact_ops.
  wf. rewrite positive_or_else by assumption.
  rewrite positive_or_else by auto with xr.
  auto 10 with xr.
Qed.

Lemma positive_depth : positive (Body.depth b).
Proof.
  rewrite eq_depth. wf.
  destruct (depth inputs); [assumption |]. exact_ops. auto with xr.
Qed.

Lemma positive_geometry :
  positive (Body.area b) /\ positive (Body.perimeter b)
  /\ positive (Body.hydraulicDiameter b).
Proof.
  destruct (eq_geometry inputs) as (-> & -> & ->).
  pose proof positive_depth as Hd.
  wf.
  unfold geometry.
  destruct (conduitType inputs); [destruct (conduitShape inputs) |];
    cbn [Geometry.area Geometry.perimeter Geometry.hydraulicDiameter];
    rewrite ?positive_or_else by assumption; exact_ops;
    repeat split; auto 10 with xr.
Qed.

Lemma positive_hydraulics :
  positive (Body.Q_m3s b) /\ positive (Body.velocity b)
  /\ positive (Body.Re b).
Proof.
  destruct positive_geometry as (Ha & _ & Hd). wf.
  assert (HQ : positive (Body.Q_m3s b))
    by (rewrite eq_Q_m3s; exact_ops; auto with xr).
  assert (Hv : positive (Body.velocity b)).
  { rewrite eq_velocity, positive_or_else by assumption.
    exact_ops. auto with xr. }
  repeat split; try assumption.
  rewrite eq_Re, positive_or_else by assumption. exact_ops. auto 10 with xr.
Qed.

Lemma nonnegative_zero : nonnegative (XFin 0).
Proof. simpl. lra. Qed.

#[local] Hint Resolve nonnegative_zero : xr.

Lemma nonnegative_flowPerPointM3s : nonnegative (Body.flowPerPointM3s b).
Proof.
  rewrite eq_flowPerPointM3s, eq_totalInjectionFlowM3s,
    zero_totalInjectionFlowLh.
  exact_ops. destruct (injectionType inputs); auto 10 with xr.
Qed.

Lemma nonnegative_momentum :
  nonnegative (Body.suggestedOrificeDiameter b)
  /\ nonnegative (Body.momentumRatio b).
Proof.
  destruct positive_geometry as (_ & _ & Hd).
  destruct positive_hydraulics as (_ & Hv & _).
  pose proof nonnegative_flowPerPointM3s as Hf. wf.
  assert (Hs : nonnegative
                 (xsqrt (xdiv (Body.injectedDensity b)
                           (or_else (N := number) (density inputs)
                              (XFin (Q2R 1)))))).
  { rewrite zero_injectedDensity, positive_or_else by assumption.
    auto with xr. }
  split.
  - rewrite eq_suggestedOrificeDiameter. exact_ops.
    rewrite (positive_or_else (xmul _ _)) by auto 10 with xr.
    auto 10 with xr.
  - rewrite eq_momentumRatio, eq_u_inj_actual. exact_ops.
    rewrite (positive_or_else (xmul (Body.velocity b) _)) by auto with xr.
    rewrite (positive_or_else (xmul (XFin PI) _)) by auto 10 with xr.
    auto 15 with xr.
Qed.

Lemma positive_alpha_LD :
  positive (Body.alpha b) /\ positive (Body.LD b).
Proof.
  destruct positive_geometry as (_ & _ & Hd).
  destruct positive_hydraulics as (HQ & _ & _). wf. split.
  - rewrite eq_alpha, zero_totalInjectionFlowLh, zero_or_else. exact_ops.
    auto with xr.
  - rewrite eq_LD. exact_ops. auto with xr.
Qed.

Lemma positive_Lm : positive (Body.Lm b).
Proof.
  destruct positive_geometry as (_ & _ & Hd). wf.
  destruct (eq_switch inputs) as (_ & _ & -> & _). unfold correlation.
  destruct (mixerModel inputs), (conduitType inputs);
    cbn [Switch.Lm]; exact_ops; auto 10 with xr.
Qed.

(** The friction factor of the default branch, away from its singular
    point. *)
Lemma positive_friction (re dh : R) :
  36 <= re -> 1 / 1000 <= dh ->
  positive
    (xdiv (XFin (Q2R 0.25))
       (xpow
          (xlog10
             (xadd (xdiv (XFin (Q2R 0.0001)) (xmul (XFin (Q2R 3.7)) (XFin dh)))
                (xdiv (XFin (Q2R 5.74)) (xpow (XFin re) (XFin (Q2R 0.9))))))
          (XFin (Q2R 2)))).
Proof.
  intros Hre Hdh.
  assert (Hp : 6 <= Rpower re (Q2R 0.9)).
  { apply Rle_trans with (Rpower re (/ 2)).
    - rewrite Rpower_sqrt by lra.
      replace 6 with (sqrt (6 * 6)) by (apply sqrt_square; lra).
      apply sqrt_le_1_alt. lra.
    - apply Rle_Rpower; [lra |]. unfold Q2R. simpl. lra. }
  set (p := Rpower re (Q2R 0.9)) in *.
  set (arg := Q2R 0.0001 / (Q2R 3.7 * dh) + Q2R 5.74 / p).
  assert (Hin :
    xadd (xdiv (XFin (Q2R 0.0001)) (xmul (XFin (Q2R 3.7)) (XFin dh)))
      (xdiv (XFin (Q2R 5.74)) (xpow (XFin re) (XFin (Q2R 0.9))))
    = XFin arg).
  { rewrite xpow_positive by (try (unfold Q2R; simpl); lra).
    fold p. cbn [xmul xdiv].
    rewrite !Reqb_false by (try (unfold Q2R; simpl); nra).
    reflexivity. }
  rewrite Hin.
  assert (Harg : 0 < arg < 1).
  { unfold arg, Q2R. simpl.
    assert (H1 : 0 < / (37 * / 10 * dh) <= / (37 * / 10 * (1 / 1000))).
    { split; [apply Rinv_0_lt_compat; nra |].
      apply Rinv_le_contravar; nra. }
    assert (H2 : 0 < / p <= / 6).
    { split; [apply Rinv_0_lt_compat; lra |].
      apply Rinv_le_contravar; lra. }
    unfold Rdiv.
    replace (/ (37 * / 10 * (1 / 1000))) with (10000 / 37) in H1 by field.
    split; nra. }
  cbn [xlog10 xlog_scaled].
  rewrite Rltb_false, Reqb_false by lra.
  apply positive_div; [apply positive_lit; reflexivity |].
  apply positive_square.
  assert (Hln : ln arg < 0) by (rewrite <- ln_1; apply ln_increasing; lra).
  assert (Hten : 0 < ln 10) by (rewrite <- ln_1; apply ln_increasing; lra).
  assert (Hinv : 0 < / ln 10) by (apply Rinv_0_lt_compat; assumption).
  nra.
Qed.

(** At the singular point, where the argument of the logarithm is 1, the
    friction factor is 0.25 / 0. *)
Remark friction_singular :
  xdiv (XFin (Q2R 0.25)) (xpow (xlog10 (XFin 1)) (XFin (Q2R 2)))
  = XInf false.
Proof.
  cbn [xlog10 xlog_scaled]. rewrite Rltb_false, Reqb_false by lra.
  rewrite ln_1, Rmult_0_r, xpow_square by lra.
  cbn [xdiv]. rewrite Reqb_true by ring. unfold inf_scaled.
  rewrite Reqb_false, Rltb_false by (unfold Q2R; simpl; lra).
  reflexivity.
Qed.

(** What [turbulent] says of the variables of the body: the Reynolds
    number is at least 36 and the hydraulic diameter at least 1 mm. *)
Lemma turbulent_bounds :
  turbulent inputs ->
  exists re dh,
    Body.Re b = XFin re /\ Body.hydraulicDiameter b = XFin dh
    /\ 36 <= re /\ 1 / 1000 <= dh.
Proof.
  intros (Q & w & h & mu & rho & HQ & Hw & Hh & Hm & Hr & Hw1 & Hcase).
  wf. rewrite HQ in Hq. rewrite Hw in Hdim. rewrite Hm in Hmu.
  rewrite Hr in Hrho. cbn [positive] in Hq, Hdim, Hmu, Hrho.
  assert (Hh0 : 0 < h).
  { destruct (depth inputs) as [d | ].
    - rewrite Hh in Hdep. exact Hdep.
    - injection Hh as <-. unfold Q2R. simpl. lra. }
  pose proof PI_RGT_0 as Hpi.
  assert (H3600 : Q2R 3600 = 3600) by (unfold Q2R; simpl; lra).
  assert (H2 : Q2R 2 = 2) by (unfold Q2R; simpl; lra).
  assert (H4 : Q2R 4 = 4) by (unfold Q2R; simpl; lra).
  rewrite eq_Re, eq_velocity, eq_Q_m3s.
  destruct (eq_geometry inputs) as (-> & _ & ->).
  assert (Hd : Body.depth b = XFin h) by (rewrite eq_depth; exact Hh).
  rewrite Hd. exact_ops. rewrite HQ, Hw, Hm, Hr, H3600.
  rewrite (positive_or_else (XFin mu)) by exact Hmu.
  rewrite (@xdiv_real Q 3600) by lra.
  unfold geometry.
  destruct (conduitType inputs); [destruct (conduitShape inputs) |];
    cbn [Geometry.area Geometry.hydraulicDiameter]; exact_ops;
    rewrite ?(positive_or_else (XFin h)) by exact Hh0.
  - (* a circular pipe *)
    rewrite (@xdiv_real w (Q2R 2)) by lra.
    rewrite xpow_square by (rewrite H2; lra).
    rewrite H2.
    assert (HA : 0 < PI * (w / 2 * (w / 2))).
    { apply Rmult_lt_0_compat; [exact Hpi |].
      apply Rmult_lt_0_compat; lra. }
    change (xmul (XFin PI) (XFin (w / 2 * (w / 2))))
      with (XFin (PI * (w / 2 * (w / 2)))).
    set (A := PI * (w / 2 * (w / 2))) in *.
    rewrite positive_or_else by exact HA.
    rewrite (@xdiv_real (Q / 3600) A) by lra.
    change (xmul (xmul (XFin rho) (XFin (Q / 3600 / A))) (XFin w))
      with (XFin (rho * (Q / 3600 / A) * w)).
    rewrite xdiv_real by lra.
    do 2 eexists. repeat split; [| exact Hw1].
    replace (rho * (Q / 3600 / A) * w / mu)
      with (rho * Q / (900 * (mu * (PI * w)))) by (unfold A; field; lra).
    assert (HP : 0 < mu * (PI * w)).
    { apply Rmult_lt_0_compat; [exact Hmu |].
      apply Rmult_lt_0_compat; [exact Hpi | exact Hdim]. }
    apply Rdiv_at_least; lra.
  - (* a closed duct *)
    destruct Hcase as [Hh1 Hre]. rewrite ?H2, ?H4. 
    change (xmul (XFin w) (XFin h)) with (XFin (w * h)).
    assert (HA : 0 < w * h) by nra.
    set (A := w * h) in *.
    rewrite positive_or_else by exact HA.
    rewrite (@xdiv_real (Q / 3600) A) by lra.
    change (xdiv (xmul (XFin 4) (XFin A)) (xmul (XFin 2) (xadd (XFin w) (XFin h))))
      with (xdiv (XFin (4 * A)) (XFin (2 * (w + h)))).
    rewrite (@xdiv_real (4 * A) (2 * (w + h))) by lra.
    change (xmul (xmul (XFin rho) (XFin (Q / 3600 / A))) (XFin (4 * A / (2 * (w + h)))))
      with (XFin (rho * (Q / 3600 / A) * (4 * A / (2 * (w + h))))).
    rewrite xdiv_real by lra.
    do 2 eexists. repeat split.
    + replace (rho * (Q / 3600 / A) * (4 * A / (2 * (w + h))) / mu)
        with (rho * Q / (900 * (mu * (2 * (w + h)))))
        by (field; lra).
      assert (HP : 0 < mu * (2 * (w + h)))
        by (apply Rmult_lt_0_compat; lra).
      apply Rdiv_at_least; lra.
    + apply Rdiv_at_least; [lra |]. unfold A. nra.
  - (* an open channel *)
    destruct Hcase as [Hh1 Hre]. rewrite ?H2, ?H4.
    change (xmul (XFin w) (XFin h)) with (XFin (w * h)).
    assert (HA : 0 < w * h) by nra.
    set (A := w * h) in *.
    rewrite positive_or_else by exact HA.
    rewrite (@xdiv_real (Q / 3600) A) by lra.
    change (xdiv (xmul (XFin 4) (XFin A)) (xadd (XFin w) (xmul (XFin 2) (XFin h))))
      with (xdiv (XFin (4 * A)) (XFin (w + 2 * h))).
    rewrite (@xdiv_real (4 * A) (w + 2 * h)) by lra.
    change (xmul (xmul (XFin rho) (XFin (Q / 3600 / A))) (XFin (4 * A / (w + 2 * h))))
      with (XFin (rho * (Q / 3600 / A) * (4 * A / (w + 2 * h)))).
    rewrite xdiv_real by lra.
    do 2 eexists. repeat split.
    + replace (rho * (Q / 3600 / A) * (4 * A / (w + 2 * h)) / mu)
        with (rho * Q / (900 * (mu * (w + 2 * h))))
        by (field; lra).
      assert (HP : 0 < mu * (w + 2 * h))
        by (apply Rmult_lt_0_compat; lra).
      apply Rdiv_at_least; lra.
    + apply Rdiv_at_least; [lra |]. unfold A. nra.
Qed.

Lemma positive_FD : mixerModel inputs <> WEIR -> positive (Body.FD b).
Proof.
  intros Hweir.
  destruct (eq_switch inputs) as (_ & -> & _).
  pose proof Hwf as Hturb. unfold well_formed in Hturb.
  destruct Hturb as (_ & _ & _ & _ & _ & _ & _ & _ & _ & _ & _ & _ & _ & Hturb).
  unfold correlation.
  destruct (mixerModel inputs); try congruence;
    try (destruct (conduitType inputs)); try (destruct (pitchRatio inputs));
    cbn [Switch.FD]; exact_ops; auto with xr;
    destruct (turbulent_bounds Hturb) as (re & dh & -> & -> & Hre & Hdh);
    apply positive_friction; assumption.
Qed.

Lemma positive_mixerCoV : positive (Body.mixerCoV b).
Proof.
  rewrite eq_mixerCoV.
  destruct (clamp_range (Body.mixerCoV_raw b)) as (c & -> & Hc).
  simpl. lra.
Qed.

Lemma positive_headloss :
  positive (Body.headlossMeters b) /\ positive (Body.headlossKpa b)
  /\ positive (Body.powerDissipated b) /\ positive (Body.gValue b).
Proof.
  destruct positive_geometry as (Ha & _ & Hd).
  destruct positive_hydraulics as (HQ & Hv & _).
  pose proof positive_Lm as HLm. wf.
  assert (Hm : positive (Body.headlossMeters b)).
  { rewrite eq_headlossMeters.
    destruct (mixerModel inputs) eqn:Hmodel; exact_ops;
      try (assert (HFD : positive (Body.FD b))
             by (apply positive_FD; congruence));
      auto 10 with xr. }
  assert (Hk : positive (Body.headlossKpa b))
    by (rewrite eq_headlossKpa; exact_ops; auto 10 with xr).
  assert (Hp : positive (Body.powerDissipated b))
    by (rewrite eq_powerDissipated; exact_ops; auto 10 with xr).
  repeat split; try assumption.
  rewrite eq_gValue, eq_volForG. exact_ops.
  rewrite positive_or_else by auto 10 with xr.
  auto 10 with xr.
Qed.

Lemma positive_limeSaturationLimit : positive (Body.limeSaturationLimit b).
Proof.
  rewrite eq_limeSaturationLimit. wf. destruct HT as (T & -> & HT0 & HT1).
  exact_ops. rewrite xpow_square by assumption.
  cbn [xmul xsub xadd xneg]. simpl. unfold Q2R. simpl. nra.
Qed.

Lemma positive_kinetics :
  positive (Body.rateK b) /\ positive (Body.timeTo95 b)
  /\ positive (Body.distanceTo95 b).
Proof.
  destruct positive_hydraulics as (_ & Hv & _).
  destruct positive_headloss as (_ & _ & _ & Hg).
  pose proof positive_limeSaturationLimit as Hs. wf.
  assert (Hk : positive (Body.rateK b))
    by (rewrite eq_rateK; exact_ops; auto 15 with xr).
  assert (Ht : positive (Body.timeTo95 b)).
  { rewrite eq_timeTo95, positive_or_else by assumption. exact_ops.
    apply positive_div; [| assumption].
    apply positive_log_above_one with (a := Q2R 1 / Q2R 0.05).
    - cbn [xdiv]. rewrite Reqb_false by (unfold Q2R; simpl; lra).
      reflexivity.
    - unfold Q2R. simpl. lra. }
  repeat split; try assumption.
  rewrite eq_distanceTo95. exact_ops. auto with xr.
Qed.

Lemma positive_decayRate : positive (Body.decayRate b).
Proof.
  rewrite eq_decayRate. destruct (conduitType inputs); exact_ops;
    auto with xr.
Qed.

Lemma positive_distance :
  positive (Body.mixingDistanceNeeded b)
  /\ positive (Body.finalDistanceNeeded b)
  /\ positive (Body.mixingTimeNeeded b).
Proof.
  destruct positive_geometry as (_ & _ & Hd).
  destruct positive_hydraulics as (_ & Hv & _).
  destruct positive_kinetics as (_ & _ & H95).
  pose proof positive_Lm as HLm. pose proof positive_mixerCoV as Hcov.
  pose proof positive_decayRate as Hdecay. wf.
  assert (Hm : positive (Body.mixingDistanceNeeded b)).
  { rewrite eq_mixingDistanceNeeded, positive_or_else by assumption.
    exact_ops.
    destruct (xle (Body.mixerCoV b) (targetCoV inputs)) eqn:Hle;
      [assumption |].
    destruct (Body.mixerCoV b) as [ | | c]; try contradiction.
    destruct (targetCoV inputs) as [ | | t]; try contradiction.
    cbn [xle positive] in *.
    assert (Hct : t < c).
    { destruct (Rle_dec c t) as [Hc | Hc]; [| lra].
      rewrite Rleb_true in Hle by assumption. discriminate. }
    apply positive_add; [assumption |].
    apply positive_mul; [| assumption].
    apply positive_div; [| assumption].
    apply positive_log_above_one with (a := c / t).
    - cbn [xdiv]. rewrite Reqb_false by lra. reflexivity.
    - apply Rmult_lt_reg_r with t; [assumption |].
      unfold Rdiv. rewrite Rmult_assoc, Rinv_l by lra. lra. }
  assert (Hf : positive (Body.finalDistanceNeeded b)).
  { rewrite eq_finalDistanceNeeded.
    destruct (includes _ _); exact_ops; auto with xr. }
  repeat split; try assumption.
  rewrite eq_mixingTimeNeeded, positive_or_else by assumption.
  exact_ops. auto with xr.
Qed.

Lemma finite_dissolvedAtTarget : finite (Body.dissolvedAtTarget b).
Proof.
  destruct positive_kinetics as (Hk & _ & _).
  destruct positive_distance as (_ & _ & Ht).
  rewrite eq_dissolvedAtTarget. exact_ops. auto 15 with xr.
Qed.


End NoInjection.

(** The form's initial state with nothing injected (a circular pipe, no
    mixer) is an input the hypotheses above hold of; its Reynolds number is
    above 500000. *)
Lemma defaults_no_injection_well_formed :
  let i := defaults_no_injection (N := number) in
  chemicalFlow i = XFin 0 /\ dilutionWaterFlow i = XFin 0 /\ well_formed i.
Proof.
  assert (H0 : XFin (Q2R 0) = XFin 0) by (f_equal; unfold Q2R; simpl; lra).
  split; [exact H0 |]. split; [exact H0 |].
  unfold well_formed.
  cbn [defaults_no_injection app_defaults set_flows conduitType conduitShape
       mixerModel numElements flowRate dimension depth availableLength
       viscosity density chemicalDose chemicalDensity chemicalViscosity
       targetCoV targetMixingTime waterTemperature].
  exact_ops.
  repeat split; try (simpl; unfold Q2R; simpl; lra).
  - exists (Q2R 15). repeat split; unfold Q2R; simpl; lra.
  - exists (Q2R 1500), (Q2R 0.8), (Q2R 0.6), (Q2R 0.001), (Q2R 1000).
    repeat split; try reflexivity.
    + unfold Q2R. simpl. lra.
    + cbn [conduitType conduitShape defaults_no_injection app_defaults
           set_flows].
      pose proof PI_4 as Hpi4. unfold Q2R. simpl. lra.
Qed.


Lemma singular_viscosity_positive : 0 < singular_viscosity.
Proof.
  unfold singular_viscosity. pose proof PI_RGT_0 as Hpi.
  assert (H : 0 < singular_Re) by apply exp_pos.
  apply Rdiv_lt_0_compat; [| exact H].
  apply Rmult_lt_0_compat; [| lra].
  apply Rmult_lt_0_compat; [lra |].
  apply Rdiv_lt_0_compat; [lra |].
  apply Rmult_lt_0_compat; lra.
Qed.

(** In exact arithmetic too, positive inputs are not enough.  With the
    viscosity at which the argument of the logarithm of line 141 is 1, and
    every other field as in [defaults_no_injection], the friction factor is
    0.25 / 0 and the headloss is infinite. *)
Remark singular_no_injection_not_finite :
  let i := singular_no_injection in
  positive (viscosity i)
  /\ Body.Re (body i) = XFin singular_Re
  /\ Body.FD (body i) = XInf false
  /\ headlossMeters (calculateMixing i) = XInf false
  /\ ~ all_finite (calculateMixing i).
Proof.
  cbv zeta.
  assert (H : positive (viscosity singular_no_injection)
              /\ Body.Re (body singular_no_injection) = XFin singular_Re
              /\ Body.FD (body singular_no_injection) = XInf false
              /\ headlossMeters (calculateMixing singular_no_injection)
                 = XInf false);
    [| destruct H as (H1 & H2 & H3 & H4); repeat split; try assumption;
       unfold all_finite; rewrite H4; cbn [finite]; tauto].
  pose proof singular_viscosity_positive as Hmu.
  pose proof PI_RGT_0 as Hpi.
  assert (Hre0 : 0 < singular_Re) by apply exp_pos.
  split; [exact Hmu |].
  assert (HRe : Body.Re (body singular_no_injection) = XFin singular_Re).
  { rewrite eq_Re, eq_velocity, eq_Q_m3s.
    destruct (eq_geometry singular_no_injection) as (-> & _ & ->).
    change (conduitType singular_no_injection) with PIPE.
    change (conduitShape singular_no_injection) with CIRCULAR.
    change (dimension singular_no_injection) with (XFin (Q2R 0.8)).
    change (flowRate singular_no_injection) with (XFin (Q2R 1500)).
    change (density singular_no_injection) with (XFin (Q2R 1000)).
    change (viscosity singular_no_injection) with (XFin singular_viscosity).
    cbn [geometry Geometry.area Geometry.hydraulicDiameter]. exact_ops.
    rewrite (@xdiv_real (Q2R 0.8) (Q2R 2)) by (unfold Q2R; simpl; lra).
    rewrite xpow_square by (unfold Q2R; simpl; lra).
    cbn [xmul].
    rewrite !positive_or_else by (simpl; unfold Q2R; simpl; nra).
    repeat first [ rewrite xdiv_real by (unfold Q2R; simpl; nra)
                 | progress cbn [xmul] ].
    f_equal. unfold singular_viscosity, Q2R. simpl. field. lra. }
  split; [exact HRe |].
  assert (HFD : Body.FD (body singular_no_injection) = XInf false).
  { destruct (eq_switch singular_no_injection) as (_ & -> & _).
    rewrite HRe.
    destruct (eq_geometry singular_no_injection) as (_ & _ & ->).
    change (mixerModel singular_no_injection) with NONE.
    change (conduitType singular_no_injection) with PIPE.
    change (conduitShape singular_no_injection) with CIRCULAR.
    change (dimension singular_no_injection) with (XFin (Q2R 0.8)).
    cbn [correlation Switch.FD geometry Geometry.hydraulicDiameter].
    exact_ops.
    rewrite xpow_positive by (try (unfold Q2R; simpl); lra).
    set (T := 574 / 100 / (1 - 1 / 10000 / (37 / 10 * (8 / 10)))).
    assert (HT : 0 < T) by (unfold T; lra).
    assert (Hp : Rpower singular_Re (Q2R 0.9) = T).
    { unfold singular_Re. fold T. rewrite Rpower_mult.
      replace (10 / 9 * Q2R 0.9) with 1 by (unfold Q2R; simpl; lra).
      apply Rpower_1, HT. }
    rewrite Hp. cbn [xmul].
    rewrite !xdiv_real by (try (unfold Q2R; simpl); lra).
    cbn [xadd].
    replace (Q2R 0.0001 / (Q2R 3.7 * Q2R 0.8) + Q2R 5.74 / T) with 1
      by (unfold T, Q2R; simpl; field).
    apply friction_singular. }
  split; [exact HFD |].
  change (headlossMeters (calculateMixing singular_no_injection))
    with (Body.headlossMeters (body singular_no_injection)).
  rewrite eq_headlossMeters, HFD, eq_velocity, eq_Q_m3s.
  destruct (eq_switch singular_no_injection) as (_ & _ & -> & _).
  destruct (eq_geometry singular_no_injection) as (-> & _ & ->).
  change (mixerModel singular_no_injection) with NONE.
  change (conduitType singular_no_injection) with PIPE.
  change (conduitShape singular_no_injection) with CIRCULAR.
  change (dimension singular_no_injection) with (XFin (Q2R 0.8)).
  change (flowRate singular_no_injection) with (XFin (Q2R 1500)).
  change (availableLength singular_no_injection) with (XFin (Q2R 10)).
  cbn [correlation Switch.Lm geometry Geometry.area
       Geometry.hydraulicDiameter].
  exact_ops.
  rewrite (@xdiv_real (Q2R 0.8) (Q2R 2)) by (unfold Q2R; simpl; lra).
  rewrite xpow_square by (unfold Q2R; simpl; lra).
  cbn [xmul].
  rewrite !positive_or_else by (simpl; unfold Q2R; simpl; nra).
  rewrite !xdiv_real by (unfold Q2R; simpl; nra).
  set (v := Q2R 1500 / Q2R 3600 / _).
  assert (Hv : 0 < v).
  { unfold v, Q2R. simpl. apply Rdiv_lt_0_compat; [lra |].
    apply Rmult_lt_0_compat; lra. }
  rewrite xpow_square by lra.
  unfold inf_scaled.
  rewrite !Reqb_false by (try (unfold Q2R; simpl); nra).
  rewrite !Rltb_false by (try (unfold Q2R; simpl); nra).
  cbn [xorb xmul xdiv]. unfold inf_scaled.
  rewrite ?Reqb_false by (try (unfold Q2R; simpl); nra).
  rewrite ?Rltb_false by (try (unfold Q2R; simpl); nra).
  cbn [xorb xdiv].
  rewrite ?Rltb_false by (try (unfold Q2R; simpl); nra).
  reflexivity.
Qed.

(** *** Bounds on powers *)

Lemma Rpower_at_most_one (x e : R) : 1 <= x -> e <= 0 -> Rpower x e <= 1.
Proof.
  intros Hx He. rewrite <- (Rpower_O x) by lra. apply Rle_Rpower; assumption.
Qed.

Lemma Rpower_at_least_one (x e : R) : 1 <= x -> 0 <= e -> 1 <= Rpower x e.
Proof.
  intros Hx He. rewrite <- (Rpower_O x) by lra. apply Rle_Rpower; assumption.
Qed.

Lemma Rpower_minus_one (x : R) : 0 < x -> Rpower x (- 1) = / x.
Proof.
  intros Hx. replace (- 1) with (- (1)) by lra.
  rewrite Rpower_Ropp, Rpower_1 by assumption. reflexivity.
Qed.

Lemma Rpower_minus_half (x : R) : 0 < x -> Rpower x (- / 2) = / sqrt x.
Proof. intros Hx. rewrite Rpower_Ropp, Rpower_sqrt by assumption. reflexivity. Qed.

Lemma Rpower_minus_quarter (x : R) :
  0 < x -> Rpower x (- / 4) = / sqrt (sqrt x).
Proof.
  intros Hx. rewrite Rpower_Ropp. f_equal.
  replace (/ 4) with (/ 2 * / 2) by lra.
  rewrite <- Rpower_mult, (Rpower_sqrt x Hx).
  apply Rpower_sqrt, sqrt_lt_R0, Hx.
Qed.

Lemma sqrt_at_most (x c : R) : 0 <= c -> x <= c * c -> sqrt x <= c.
Proof.
  intros Hc Hx. rewrite <- (sqrt_square c) by assumption.
  apply sqrt_le_1_alt, Hx.
Qed.

Lemma sqrt_at_least (x c : R) : 0 <= c -> c * c <= x -> c <= sqrt x.
Proof.
  intros Hc Hx. rewrite <- (sqrt_square c) at 1 by assumption.
  apply sqrt_le_1_alt, Hx.
Qed.

(** The Kenics correlation of line 86 at 2 and at 4 elements, for a
    Reynolds number up to 1021^2 and a flow ratio between 1 and it. *)
Lemma kenics_raw_bounds (re al : R) :
  1 <= al <= re -> re <= 1021 * 1021 ->
  1 / 10000
  < Q2R 0.96 * Rpower re (Q2R (-0.1)) * Rpower al (Q2R 0.03)
    * Rpower 2 (Q2R (-1.9))
  /\ Q2R 0.96 * Rpower re (Q2R (-0.1)) * Rpower al (Q2R 0.03)
     * Rpower 4 (Q2R (-1.9)) < 1.
Proof.
  intros [Hal Hre] Hmax.
  assert (E1 : Q2R (-0.1) = - (1 / 10)) by (unfold Q2R; simpl; lra).
  assert (E2 : Q2R 0.03 = 3 / 100) by (unfold Q2R; simpl; lra).
  assert (E3 : Q2R (-1.9) = - (19 / 10)) by (unfold Q2R; simpl; lra).
  assert (E4 : Q2R 0.96 = 96 / 100) by (unfold Q2R; simpl; lra).
  rewrite E1, E2, E3, E4.
  (* below: re^-0.1 is at least re^-0.5 = 1 / sqrt re; above: al^0.03 is at
     most re^0.03, and re^-0.1 re^0.03 = re^-0.07 at most 1 *)
  assert (L1 : / 1021 <= Rpower re (- (1 / 10))).
  { apply Rle_trans with (Rpower re (- / 2)).
    - rewrite Rpower_minus_half by lra.
      apply Rinv_le_contravar; [apply sqrt_lt_R0; lra |].
      apply sqrt_at_most; lra.
    - apply Rle_Rpower; lra. }
  assert (L2 : 1 <= Rpower al (3 / 100))
    by (apply Rpower_at_least_one; lra).
  assert (L3 : / 4 <= Rpower 2 (- (19 / 10))).
  { apply Rle_trans with (Rpower 2 (- (2))).
    - rewrite Rpower_Ropp. replace 2 with (INR 2) at 2 by (simpl; lra).
      rewrite Rpower_pow by lra. simpl. right. f_equal. lra.
    - apply Rle_Rpower; lra. }
  assert (U1 : Rpower re (- (1 / 10)) * Rpower al (3 / 100) <= 1).
  { apply Rle_trans with (Rpower re (- (1 / 10)) * Rpower re (3 / 100)).
    - apply Rmult_le_compat_l; [left; apply exp_pos |].
      apply Rle_Rpower_l; lra.
    - rewrite <- Rpower_plus. apply Rpower_at_most_one; lra. }
  assert (U3 : Rpower 4 (- (19 / 10)) <= 1)
    by (apply Rpower_at_most_one; lra).
  assert (P1 : 0 < Rpower re (- (1 / 10))) by apply exp_pos.
  assert (P2 : 0 < Rpower al (3 / 100)) by apply exp_pos.
  assert (P3 : 0 < Rpower 4 (- (19 / 10))) by apply exp_pos.
  assert (P4 : 0 < Rpower 2 (- (19 / 10))) by apply exp_pos.
  set (a := Rpower re (- (1 / 10))) in *.
  set (c := Rpower al (3 / 100)) in *.
  set (d := Rpower 2 (- (19 / 10))) in *.
  set (f := Rpower 4 (- (19 / 10))) in *.
  split.
  - assert (H1 : / 1021 * 1 <= a * c) by (apply Rmult_le_compat; lra).
    assert (H2 : / 1021 * 1 * / 4 <= a * c * d)
      by (apply Rmult_le_compat; lra).
    lra.
  - assert (H1 : a * c * f <= 1 * 1).
    { apply Rmult_le_compat; try lra. apply Rmult_le_pos; lra. }
    lra.
Qed.
(** The Reynolds number and the flow ratio of the form's initial pipe:
    [2083333.3 / PI] and [7142.9]. *)
Lemma initial_pipe_hydraulics :
  exists re al,
    Body.Re (body (N := number) app_defaults) = XFin re
    /\ Body.alpha (body (N := number) app_defaults) = XFin al
    /\ 1 <= al <= re /\ re <= 1021 * 1021.
Proof.
  rewrite eq_Re, eq_alpha, eq_velocity, eq_Q_m3s, eq_totalInjectionFlowLh.
  destruct (eq_geometry (app_defaults (N := number))) as (-> & _ & ->).
  cbn [app_defaults conduitType conduitShape flowRate dimension viscosity
       density chemicalFlow dilutionWaterFlow geometry Geometry.area
       Geometry.hydraulicDiameter].
  exact_ops.
  pose proof PI_RGT_0 as Hpi0. pose proof PI_4 as Hpi4.
  pose proof PI2_1 as Hpi2.
  assert (Harea :
    xmul (XFin PI) (xpow (xdiv (XFin (Q2R 0.8)) (XFin (Q2R 2))) (XFin (Q2R 2)))
    = XFin (PI * (Q2R 0.8 / Q2R 2 * (Q2R 0.8 / Q2R 2)))).
  { rewrite xdiv_real by (unfold Q2R; simpl; lra).
    rewrite xpow_square by (unfold Q2R; simpl; lra). reflexivity. }
  rewrite Harea.
  cbn [xadd].
  rewrite !positive_or_else by (simpl; unfold Q2R; simpl; nra).
  repeat first [ rewrite xdiv_real by (unfold Q2R; simpl; nra)
               | progress cbn [xmul] ].
  do 2 eexists. split; [reflexivity |]. split; [reflexivity |].
  unfold Q2R. simpl.
  match goal with
  | |- _ <= ?al <= ?re /\ _ =>
      replace re with (6250000 / 3 / PI) by (field; lra);
      replace al with (50000 / 7) by field
  end.
  repeat split; try lra.
  - apply Rdiv_at_least; lra.
  - apply Rdiv_at_most; lra.
Qed.

(** Line 153 on a real number above its floor, and on one below its
    ceiling. *)
Lemma clamp_above_floor (v : R) :
  1 / 10000 < v ->
  xlt (XFin (Q2R 0.0001)) (clampCoV (N := number) (XFin v)) = true.
Proof.
  intros Hv. rewrite clamp_real, lo_value. cbn [xlt].
  rewrite (Rltb_true Hv). apply Rltb_true.
  destruct (Rltb v 1); lra.
Qed.

Lemma clamp_below_ceiling (v : R) :
  v < 1 -> xlt (clampCoV (N := number) (XFin v)) (XFin (Q2R 1.0)) = true.
Proof.
  intros Hv. rewrite clamp_real, hi_value. cbn [xlt].
  rewrite (Rltb_true Hv). apply Rltb_true.
  destruct (Rltb (1 / 10000) v); lra.
Qed.

(** Line 153 keeps a strict order between a number above its floor and a
    smaller one below its ceiling. *)
Lemma clamp_strict (a c : R) :
  c < a -> 1 / 10000 < a -> c < 1 ->
  xlt (clampCoV (N := number) (XFin c)) (clampCoV (N := number) (XFin a))
  = true.
Proof.
  intros Hca Ha Hc. rewrite !clamp_real. cbn [xlt].
  rewrite (Rltb_true Ha), (Rltb_true Hc). apply Rltb_true.
  destruct (Rltb (1 / 10000) c) eqn:E1; destruct (Rltb a 1) eqn:E2;
    try apply Rltb_iff in E1; try apply Rltb_iff in E2; lra.
Qed.

(** Kenics KM in the form's initial pipe: with 2 elements the result is
    above the floor of the clamp, with 4 below its ceiling. *)
Lemma kenics_between_the_clamps :
  xlt (XFin (Q2R 0.0001))
    (mixerCoV (calculateMixing
                 (set_numElements (N := number) (XFin 2) (kenics 4)))) = true
  /\ xlt (mixerCoV (calculateMixing
                      (set_numElements (N := number) (XFin 4) (kenics 4))))
       (XFin (Q2R 1.0)) = true.
Proof.
  destruct initial_pipe_hydraulics as (re & al & HRe & Hal & Hb & Hmax).
  destruct (kenics_raw_bounds Hb Hmax) as [Hlo Hhi].
  rewrite !(@kenics_mixerCoV (kenics 4) eq_refl eq_refl).
  change (Body.Re (body (N := number) (kenics 4)))
    with (Body.Re (body (N := number) app_defaults)).
  change (Body.alpha (body (N := number) (kenics 4)))
    with (Body.alpha (body (N := number) app_defaults)).
  rewrite HRe, Hal.
  rewrite !xpow_positive by (try (unfold Q2R; simpl); lra).
  cbn [xmul].
  split; [apply clamp_above_floor | apply clamp_below_ceiling]; assumption.
Qed.




(** *** The dissolved fraction *)

Lemma nan_or_positive_mul (x y : xreal) :
  nan_or_positive x -> nan_or_positive y -> nan_or_positive (xmul x y).
Proof.
  destruct x as [ | sx | a], y as [ | sy | c]; simpl; try tauto.
  - intros -> ->. reflexivity.
  - intros -> Hc. unfold inf_scaled.
    rewrite Reqb_false by lra. rewrite Rltb_false by lra. reflexivity.
  - intros Ha ->. unfold inf_scaled.
    rewrite Reqb_false by lra. rewrite Rltb_false by lra. reflexivity.
  - intros Ha Hc. apply Rmult_lt_0_compat; assumption.
Qed.

Lemma nan_or_positive_max (c : R) (y : xreal) :
  0 < c -> nan_or_positive (xmax (XFin c) y).
Proof.
  intros Hc. destruct y as [ | s | v]; unfold xmax; simpl; try exact I.
  - destruct s; simpl; [assumption | reflexivity].
  - destruct (Rltb c v) eqn:E; simpl; [| assumption].
    apply Rltb_iff in E. lra.
Qed.

Lemma nan_or_positive_div (x : xreal) (c : R) :
  nan_or_positive x -> 0 < c -> nan_or_positive (xdiv x (XFin c)).
Proof.
  destruct x as [ | s | a]; simpl; try tauto.
  - intros -> Hc. rewrite Rltb_false by lra. reflexivity.
  - intros Ha Hc. rewrite Reqb_false by lra. simpl.
    apply Rdiv_lt_0_compat; assumption.
Qed.

Lemma nan_or_positive_sqrt (x : xreal) :
  nan_or_positive x -> nan_or_positive (xsqrt x).
Proof.
  destruct x as [ | s | a]; simpl; try tauto.
  - intros ->. reflexivity.
  - intros Ha. rewrite Rltb_false by lra. simpl. apply sqrt_lt_R0, Ha.
Qed.

(** The rate constant is NaN or positive, for every input: it is a product
    of 0.3, a square root of at least 0.1 and a factor of at least 0.1. *)
Lemma rateK_nan_or_positive (inputs : MixingInputs number) :
  nan_or_positive (Body.rateK (body inputs)).
Proof.
  assert (Hq : forall q, (0 < Qnum q)%Z -> 0 < Q2R q).
  { intros q H. apply (positive_lit q H). }
  rewrite eq_rateK. exact_ops.
  repeat apply nan_or_positive_mul.
  - simpl. apply Hq. reflexivity.
  - apply nan_or_positive_sqrt, nan_or_positive_div;
      [apply nan_or_positive_max |]; apply Hq; reflexivity.
  - apply nan_or_positive_max, Hq. reflexivity.
Qed.

Lemma exp_le_one (x : R) : x <= 0 -> exp x <= 1.
Proof.
  intros [Hx | ->]; [| rewrite exp_0; lra].
  rewrite <- exp_0. left. apply exp_increasing, Hx.
Qed.

(** Lines 174 and 195 on a real number between 0 and 100. *)
Lemma min_hundred (v : R) :
  0 <= v <= 100 ->
  let d := xmin (XFin (Q2R 100)) (XFin v) in
  xle (XFin 0) d = true /\ xle d (XFin 100) = true.
Proof.
  intros Hv d. unfold d, xmin. cbn [is_nan orb xlt].
  assert (H100 : Q2R 100 = 100) by (unfold Q2R; simpl; lra).
  rewrite H100.
  destruct (Rltb v 100); cbn [xle]; split; apply Rleb_true; lra.
Qed.

(** What lines 174 and 195 return for a rate constant [k] that is NaN or
    positive and a time [t] that is not negative. *)
Lemma dissolved_shape (k t : xreal) :
  nan_or_positive k -> xle (XFin 0) t = true ->
  let d :=
    xmin (XFin (Q2R 100))
      (xmul (xsub (XFin (Q2R 1)) (xexp (xmul (xneg k) t))) (XFin (Q2R 100))) in
  is_nan d = true \/ (xle (XFin 0) d = true /\ xle d (XFin 100) = true).
Proof.
  intros Hk Ht.
  assert (H1 : Q2R 1 = 1) by (unfold Q2R; simpl; lra).
  assert (H100 : Q2R 100 = 100) by (unfold Q2R; simpl; lra).
  assert (Hfull :
    let d := xmin (XFin (Q2R 100))
               (xmul (xsub (XFin (Q2R 1)) (xexp (XInf true)))
                  (XFin (Q2R 100))) in
    xle (XFin 0) d = true /\ xle d (XFin 100) = true).
  { cbn [xexp xsub xneg xadd xmul]. apply min_hundred.
    rewrite H1, H100. lra. }
  destruct k as [ | sk | k]; cbn [nan_or_positive] in Hk.
  - left. destruct t; reflexivity.
  - subst sk. destruct t as [ | st | t]; cbn [xle] in Ht; try discriminate.
    + apply negb_true_iff in Ht. subst st. right. exact Hfull.
    + apply Rleb_iff in Ht. cbn [xneg negb xmul]. unfold inf_scaled.
      destruct (Reqb t 0); [left; reflexivity |].
      rewrite Rltb_false by lra. right. exact Hfull.
  - destruct t as [ | st | t]; cbn [xle] in Ht; try discriminate.
    + apply negb_true_iff in Ht. subst st. right.
      cbn [xneg xmul]. unfold inf_scaled.
      rewrite Reqb_false by lra. rewrite Rltb_true by lra. exact Hfull.
    + apply Rleb_iff in Ht. right.
      cbn [xneg xmul xexp xsub xadd]. apply min_hundred.
      rewrite H1, H100.
      assert (He : 0 < exp (- k * t) <= 1).
      { split; [apply exp_pos | apply exp_le_one; nra]. }
      nra.
Qed.

(** With a mixing time that is not negative, the dissolved fraction
    returned is NaN or between 0 and 100. *)
Lemma dissolved_range (inputs : MixingInputs number) :
  let r := calculateMixing inputs in
  xle (XFin 0) (mixingTimeNeeded r) = true ->
  is_nan (dissolvedAtTarget r) = true
  \/ (xle (XFin 0) (dissolvedAtTarget r) = true
      /\ xle (dissolvedAtTarget r) (XFin 100) = true).
Proof.
  intros r Ht.
  change (mixingTimeNeeded r) with (Body.mixingTimeNeeded (body inputs)) in Ht.
  change (dissolvedAtTarget r)
    with (xmin (XFin (Q2R 100)) (Body.dissolvedAtTarget (body inputs))).
  rewrite eq_dissolvedAtTarget. exact_ops.
  apply dissolved_shape; [apply rateK_nan_or_positive | assumption].
Qed.

(** The mixing time of a well-formed input is positive. *)
Lemma defaults_no_injection_time :
  xle (XFin 0)
    (mixingTimeNeeded (calculateMixing (N := number) defaults_no_injection))
  = true.
Proof.
  destruct defaults_no_injection_well_formed as (Hc & Hw & Hwf).
  destruct (positive_distance Hwf) as (_ & _ & H).
  change (mixingTimeNeeded
            (calculateMixing (N := number) defaults_no_injection))
    with (Body.mixingTimeNeeded (body (N := number) defaults_no_injection)).
  destruct (Body.mixingTimeNeeded _); try contradiction.
  simpl in H. apply Rleb_true. lra.
Qed.

End ExactFacts.

(** ** The dissolved fraction, in both readings *)

(** C3, as the code has it.  In binary64, for every input, the dissolved
    fraction returned is NaN or at most 100 (the clamp of line 195 is an
    upper one, and lets NaN through).  In exact arithmetic, for every input
    whose mixing time is not negative, it is NaN or between 0 and 100: the
    code has no lower clamp, and the bound 0 comes from the exponent
    [-rateK * mixingTimeNeeded] not being positive. *)
Theorem dissolved_bounds :
  (forall (M : B64.MathLib) (inputs : MixingInputs (B64.number M)),
     let d := dissolvedAtTarget (calculateMixing inputs) in
     B64.is_nan d = true \/ SFleb d (B64.of_Q 100) = true)
  /\ (forall inputs : MixingInputs Exact.number,
       let r := calculateMixing inputs in
       Exact.xle (Exact.XFin 0) (mixingTimeNeeded r) = true ->
       Exact.is_nan (dissolvedAtTarget r) = true
       \/ (Exact.xle (Exact.XFin 0) (dissolvedAtTarget r) = true
           /\ Exact.xle (dissolvedAtTarget r) (Exact.XFin 100) = true)).
Proof.
  split.
  - exact B64Facts.dissolved_upper.
  - exact ExactFacts.dissolved_range.
Qed.

Lemma dissolved_bounds_witness :
  let r := calculateMixing (N := Exact.number) defaults_no_injection in
  Exact.is_nan (dissolvedAtTarget r) = true
  \/ (Exact.xle (Exact.XFin 0) (dissolvedAtTarget r) = true
      /\ Exact.xle (dissolvedAtTarget r) (Exact.XFin 100) = true).
Proof.
  exact (proj2 dissolved_bounds defaults_no_injection
           ExactFacts.defaults_no_injection_time).
Defined.

(** * The rest of the engine, and the form *)

(** ** The engine, in every reading *)

Section EngineCases.

Context {N : Number}.

(** What the correlation is given when only the element count differs. *)
Lemma mixerCoV_by_elements (i : MixingInputs N) (n : num) :
  let b := body i in
  mixerCoV (calculateMixing (set_numElements n i))
  = clampCoV
      (Switch.mixerCoV
         (correlation (mixerModel i) (injectionType i) (conduitType i)
            (pitchRatio i) (Body.Re b) (Body.alpha b) n (Body.LD b)
            (Body.hydraulicDiameter b) (availableLength i)
            (Body.momentumRatio b))).
Proof. reflexivity. Qed.

(** What the correlation is given when only the available length
    differs. *)
Lemma mixerCoV_by_length (i : MixingInputs N) (len : num) :
  let b := body i in
  mixerCoV (calculateMixing (set_availableLength len i))
  = clampCoV
      (Switch.mixerCoV
         (correlation (mixerModel i) (injectionType i) (conduitType i)
            (pitchRatio i) (Body.Re b) (Body.alpha b) (numElements i)
            (div len (Body.hydraulicDiameter b))
            (Body.hydraulicDiameter b) len (Body.momentumRatio b))).
Proof. reflexivity. Qed.

Local Open Scope js_scope.

(** Line 156 when only the element count differs. *)
Lemma headloss_by_elements (i : MixingInputs N) (n : num) :
  let b := body i in
  let sw :=
    correlation (mixerModel i) (injectionType i) (conduitType i) (pitchRatio i)
      (Body.Re b) (Body.alpha b) n (Body.LD b) (Body.hydraulicDiameter b)
      (availableLength i) (Body.momentumRatio b) in
  headlossMeters (calculateMixing (set_numElements n i))
  = match mixerModel i with
    | WEIR => lit 0.15
    | _ =>
        (Switch.FD sw * Switch.Lm sw * Math_pow (Body.velocity b) (lit 2))
        / (lit 2 * lit 9.81 * Body.hydraulicDiameter b)
    end.
Proof. reflexivity. Qed.

(** Lines 60-67 by the number of injection points. *)
Lemma momentum_by_injection (i : MixingInputs N) (t : InjectionType) :
  let b := body i in
  let r := calculateMixing (set_injectionType t i) in
  let numPoints := match t with TWIN => lit 2 | SINGLE => lit 1 end in
  let S := Math_sqrt (Body.injectedDensity b / (density i || lit 1)) in
  momentumRatio r
  = S * ((Body.totalInjectionFlowM3s b / numPoints)
         / ((Math_PI * Math_pow (lit 0.025 / lit 2) (lit 2)) || lit 1e-9)
         * lit 0.025
         / ((Body.velocity b * Body.hydraulicDiameter b) || lit 1e-6))
  /\ suggestedOrificeDiameter r
     = (lit 4 * (Body.totalInjectionFlowM3s b / numPoints) * S)
       / ((Math_PI * lit 0.22 * Body.velocity b * Body.hydraulicDiameter b)
          || lit 1e-6)
       * lit 1000
  /\ totalInjectionFlow r = Body.totalInjectionFlowLh b.
Proof. repeat split. Qed.

(** X1. The element count is read by the cases of the four static mixers
    only, and the pitch ratio by the case of STM only: with no mixer, with
    baffles and with a weir the result is the same for every element count
    and pitch ratio, and with Kenics KM, HEV and SMV for every pitch
    ratio. *)
Theorem inputs_the_model_ignores (inputs : MixingInputs N) (n : num)
    (p : PitchRatio) :
  match mixerModel inputs with
  | NONE | BAFFLES | WEIR =>
      calculateMixing (set_pitchRatio p (set_numElements n inputs))
      = calculateMixing inputs
  | KENICS_KM | HEV | SMV =>
      calculateMixing (set_pitchRatio p inputs) = calculateMixing inputs
  | STM => True
  end.
Proof.
  destruct inputs as [ct cs m n0 q dim dep len mu rho ty dose cf cd cv dw tc tt
                      sl it pr T].
  destruct m; reflexivity || exact I.
Qed.

End EngineCases.

(** ** The form, in every reading *)

Module FormFacts.
Import App.

Local Open Scope string_scope.

Section AnyForm.

Context {N : Number}.

(** [handlePresetChange] writes the chemical's three fields and nothing
    else. *)
Lemma handlePresetChange_keeps (s : AppState N) (presetId : string) :
  let i := inputs s in
  let i' := inputs (handlePresetChange s presetId) in
  conduitType i' = conduitType i /\ conduitShape i' = conduitShape i
  /\ mixerModel i' = mixerModel i /\ depth i' = depth i
  /\ slurryConcentration i' = slurryConcentration i
  /\ density i' = density i /\ viscosity i' = viscosity i.
Proof.
  unfold handlePresetChange.
  destruct (List.find _ _); [| repeat split].
  destruct (negb (presetId =? "custom")%string); [| repeat split].
  destruct (presetId =? "lime")%string; repeat split.
Qed.

Lemma handleInputChange_number_keeps (s : AppState N) (f : NumberField)
    (v : num) :
  let i := inputs s in
  let i' := inputs (handleInputChange s (number_value f v)) in
  conduitType i' = conduitType i /\ conduitShape i' = conduitShape i
  /\ mixerModel i' = mixerModel i /\ chemicalType i' = chemicalType i
  /\ density i' = density i /\ viscosity i' = viscosity i.
Proof.
  destruct f; cbn [number_value handleInputChange];
    try (repeat split; fail).
  destruct (selectedPresetId s =? "lime")%string; repeat split.
Qed.

(** X2. In every state the form can reach, the mixer selected is one the
    selector offers for the conduit selected (no Kenics KM or SMV in a
    channel, no baffles or weir in a pipe), and a channel is rectangular. *)
Theorem form_keeps_conduit_consistent (s : AppState N) :
  reachable s -> consistent s.
Proof.
  induction 1 as [ | s Hs IH | s e Hs IH He].
  - exact I.
  - exact IH.
  - unfold consistent in *. destruct e as [v | v | v | v | v | id | f v].
    + cbn [dispatch handleInputChange].
      destruct v, (conduitType (inputs s)) eqn:Ht; cbn; rewrite ?Ht; auto.
    + cbn [dispatch handleInputChange setInputs inputs assign conduitType
             conduitShape mixerModel].
      destruct (conduitType (inputs s)) eqn:Ht; [assumption |].
      destruct v; [cbn in He; rewrite Ht in He; discriminate |].
      tauto.
    + cbn [dispatch handleInputChange setInputs inputs assign conduitType
             conduitShape mixerModel].
      cbn [enabled] in He. unfold mixer_options in He.
      destruct (conduitType (inputs s)); destruct v; try discriminate He;
        tauto.
    + exact IH.
    + exact IH.
    + cbn [dispatch].
      destruct (handlePresetChange_keeps s id) as (-> & -> & -> & _).
      exact IH.
    + cbn [dispatch].
      destruct (handleInputChange_number_keeps s f v) as (-> & -> & -> & _).
      exact IH.
Qed.

Lemma handlePresetChange_chemicalType (s : AppState N) (presetId : string) :
  let s' := handlePresetChange s presetId in
  selectedPresetId s' = presetId
  /\ chemicalType (inputs s')
     = match preset_name presetId with
       | Some n => n
       | None => chemicalType (inputs s)
       end.
Proof.
  unfold handlePresetChange, preset_name.
  destruct (List.find _ _) as [p | ];
    destruct (presetId =? "custom")%string; cbn [negb option_map];
    try (split; reflexivity).
  destruct (presetId =? "lime")%string; split; reflexivity.
Qed.

Lemma handleInputChange_selectedPresetId (s : AppState N) (fv : FieldValue N) :
  selectedPresetId (handleInputChange s fv) = selectedPresetId s.
Proof.
  destruct fv; cbn [handleInputChange]; try reflexivity.
  - destruct (negb _); reflexivity.
  - destruct (selectedPresetId s =? "lime")%string; reflexivity.
Qed.

Lemma handleInputChange_chemicalType (s : AppState N) (fv : FieldValue N) :
  (forall v, fv <> F_chemicalType v) ->
  chemicalType (inputs (handleInputChange s fv)) = chemicalType (inputs s).
Proof.
  intros Hfv.
  destruct fv; cbn [handleInputChange]; try reflexivity.
  - destruct (negb _); reflexivity.
  - exfalso. eapply Hfv. reflexivity.
  - destruct (selectedPresetId s =? "lime")%string; reflexivity.
Qed.

Lemma form_keeps_chemical_named (s : AppState N) : reachable s -> named s.
Proof.
  induction 1 as [ | s Hs IH | s e Hs IH He].
  - reflexivity.
  - exact IH.
  - unfold named in *.
    assert (Hin : forall fv, (forall v, fv <> F_chemicalType v) ->
              match preset_name (selectedPresetId (handleInputChange s fv)) with
              | Some n => chemicalType (inputs (handleInputChange s fv)) = n
              | None => True
              end).
    { intros fv Hfv.
      rewrite handleInputChange_selectedPresetId,
        handleInputChange_chemicalType by assumption.
      exact IH. }
    destruct e as [v | v | v | v | v | id | f v]; cbn [dispatch];
      try (apply Hin; intros; discriminate).
    + destruct (handlePresetChange_chemicalType s id) as [-> ->].
      destruct (preset_name id); [reflexivity | exact I].
    + apply Hin. intros w. destruct f; discriminate.
Qed.

Lemma lime_name : preset_name "lime" = Some "Lime Slurry (Variable %)".
Proof. reflexivity. Qed.

(** X3. In every state the form can reach, when the lime panel shows
    ([isLime], line 190) the engine takes the chemical for lime (lines 172
    and 187 of the engine test [chemicalType] for "Lime"). *)
Theorem lime_panel_means_lime_chemical (s : AppState N) :
  reachable s -> isLime s = true ->
  includes (chemicalType (inputs s)) "Lime" = true.
Proof.
  intros Hs Hlime. apply form_keeps_chemical_named in Hs.
  unfold isLime in Hlime. apply String.eqb_eq in Hlime.
  unfold named in Hs. rewrite Hlime, lime_name in Hs. rewrite Hs.
  reflexivity.
Qed.

(** X4. The converse fails.  After lime, then "custom", are selected, the
    lime panel is hidden, and the engine still takes the chemical for lime:
    "custom" leaves [chemicalType] as it was. *)
Theorem lime_chemical_without_lime_panel :
  reachable lime_then_custom
  /\ isLime lime_then_custom = false
  /\ includes (chemicalType (inputs lime_then_custom)) "Lime" = true.
Proof.
  split; [| split; reflexivity].
  unfold lime_then_custom.
  apply reachable_event; [apply reachable_event |]; try reflexivity.
  apply reachable_initial.
Qed.

Lemma form_untouched (s : AppState N) : reachable s -> untouched s.
Proof.
  induction 1 as [ | s Hs IH | s e Hs IH He].
  - unfold untouched. cbn. repeat split; eauto.
  - exact IH.
  - unfold untouched in *.
    destruct IH as ((d & Hd) & (c & Hc) & Hrho & Hmu).
    destruct e as [v | v | v | v | v | id | f v]; cbn [dispatch].
    + cbn [handleInputChange]. destruct (negb _); cbn; repeat split; eauto.
    + cbn. repeat split; eauto.
    + cbn. repeat split; eauto.
    + cbn. repeat split; eauto.
    + cbn. repeat split; eauto.
    + destruct (handlePresetChange_keeps s id)
        as (_ & _ & _ & -> & -> & -> & ->). repeat split; eauto.
    + destruct f; cbn [number_value handleInputChange];
        try (cbn; repeat split; eauto; fail).
      destruct (selectedPresetId s =? "lime")%string; cbn; repeat split; eauto.
Qed.

(** X5. In every state the form can reach a depth is given, so the engine
    reads the form's depth and never its default of 0.5 (line 6); and the
    bulk fluid has the density and the viscosity of water, which no
    control assigns. *)
Theorem form_always_gives_depth (s : AppState N) :
  reachable s ->
  (exists d, depth (inputs s) = Some d /\ Body.depth (body (inputs s)) = d)
  /\ density (inputs s) = lit 1000
  /\ viscosity (inputs s) = lit 0.001.
Proof.
  intros Hs. destruct (form_untouched Hs) as ((d & Hd) & _ & Hrho & Hmu).
  repeat split; try assumption.
  exists d. split; [assumption |]. rewrite eq_depth, Hd. reflexivity.
Qed.

(** X6. Whichever chemical was selected before, selecting one other than
    "custom" leaves the form as selecting it first would. *)
Theorem last_preset_wins (s : AppState N) (a b : string) :
  preset_name (N := N) b <> None ->
  handlePresetChange (handlePresetChange s a) b = handlePresetChange s b.
Proof.
  unfold preset_name. intros Hb.
  destruct (b =? "custom") eqn:Hcustom; [congruence |].
  unfold handlePresetChange at 1 3.
  destruct (List.find (fun p => Preset.id p =? b) CHEMICAL_PRESETS)
    as [pb | ]; [| cbn in Hb; congruence].
  rewrite Hcustom. cbn [negb].
  unfold handlePresetChange.
  destruct (List.find (fun p => Preset.id p =? a) CHEMICAL_PRESETS) as [pa | ];
    destruct (negb (a =? "custom")); destruct (a =? "lime");
    destruct (b =? "lime"); reflexivity.
Qed.

(** X21. With lime selected, the two places that derive the slurry's density
    and viscosity agree on a concentration that is truthy: typing it in
    (lines 100-107) and selecting lime again (lines 117-124) leave the same
    form.  (On a cleared field they differ: the first takes the
    concentration 0, the second 10 in its place.) *)
Theorem lime_handlers_agree (s : AppState N) (c : num) :
  reachable s -> isLime s = true -> truthy c = true ->
  let typed := handleInputChange s (F_slurryConcentration c) in
  handlePresetChange typed "lime" = typed
  /\ chemicalDensity (inputs typed) = fst (calculateLimeProps c)
  /\ chemicalViscosity (inputs typed) = snd (calculateLimeProps c).
Proof.
  intros Hs Hlime Hc typed. unfold typed.
  apply form_keeps_chemical_named in Hs. unfold named in Hs.
  unfold isLime in Hlime. pose proof Hlime as Hsel.
  apply String.eqb_eq in Hsel. rewrite Hsel in Hs.
  assert (Hn : preset_name (N := N) "lime" = Some "Lime Slurry (Variable %)")
    by reflexivity.
  rewrite Hn in Hs.
  destruct s as [i r sel]. cbn [selectedPresetId inputs] in *. subst sel.
  destruct i as [ct cs m n0 q dim dep len mu rho ty dose cf cd cv dw tc tt sl
                 it pr T].
  cbn in Hs. subst ty.
  cbn [handleInputChange selectedPresetId String.eqb Ascii.eqb Bool.eqb].
  unfold handlePresetChange.
  cbn [List.find CHEMICAL_PRESETS Preset.id String.eqb Ascii.eqb Bool.eqb negb].
  cbn [calculateLimeProps setInputs setSelectedPresetId inputs assign
       slurryConcentration selectedPresetId results fst snd].
  unfold or_else. rewrite Hc. repeat split.
Qed.

End AnyForm.

(** The channel button, pressed in the initial state. *)
Lemma form_keeps_conduit_consistent_witness :
  consistent (dispatch (N := Exact.number) initialState (ClickConduit CHANNEL)).
Proof.
  apply form_keeps_conduit_consistent.
  apply reachable_event; [apply reachable_initial | reflexivity].
Defined.

(** Lime, selected in the initial state. *)
Lemma lime_panel_means_lime_chemical_witness :
  includes
    (chemicalType
       (inputs (dispatch (N := Exact.number) initialState (SelectPreset "lime"))))
    "Lime" = true.
Proof.
  apply lime_panel_means_lime_chemical; [| reflexivity].
  apply reachable_event; [apply reachable_initial | reflexivity].
Defined.

Lemma form_always_gives_depth_witness :
  let s := initialState (N := Exact.number) in
  (exists d, depth (inputs s) = Some d /\ Body.depth (body (inputs s)) = d)
  /\ density (inputs s) = lit 1000
  /\ viscosity (inputs s) = lit 0.001.
Proof. apply form_always_gives_depth, reachable_initial. Defined.

(** Alum after lime, and alum alone. *)
Lemma last_preset_wins_witness :
  handlePresetChange
    (handlePresetChange (N := Exact.number) initialState "lime") "alum"
  = handlePresetChange initialState "alum".
Proof. apply last_preset_wins. discriminate. Defined.

(** Lime selected, and a concentration of 5% typed in. *)
Lemma lime_handlers_agree_witness :
  let s :=
    dispatch (N := B64.number B64.refMath) initialState (SelectPreset "lime") in
  let c := @lit (B64.number B64.refMath) 5 in
  let typed := handleInputChange s (F_slurryConcentration c) in
  handlePresetChange typed "lime" = typed
  /\ chemicalDensity (inputs typed) = fst (calculateLimeProps c)
  /\ chemicalViscosity (inputs typed) = snd (calculateLimeProps c).
Proof.
  apply lime_handlers_agree; [| reflexivity | reflexivity].
  apply reachable_event; [apply reachable_initial | reflexivity].
Defined.

End FormFacts.

(** ** The engine, in exact arithmetic *)

Module ExactMore.
Import Exact ExactFacts ExactOrder.

Local Open Scope R_scope.

(** *** By element count and by length *)

Lemma Q2R_not_integer (q : Q) :
  (Qnum q mod Zpos (Qden q) <> 0)%Z -> is_integer (Q2R q) = false.
Proof.
  intros Hq. apply not_integer. intros z H. apply Hq.
  unfold Q2R in H.
  assert (Hd : IZR (Zpos (Qden q)) <> 0) by (apply not_0_IZR; discriminate).
  assert (H' : IZR (z * Zpos (Qden q)) = IZR (Qnum q)).
  { rewrite mult_IZR, H. field. exact Hd. }
  apply eq_IZR in H'. rewrite <- H'. apply Z.mod_mul. discriminate.
Qed.

Lemma Q2R_negative (q : Q) : (Qnum q < 0)%Z -> Q2R q < 0.
Proof.
  intros H. unfold Q2R.
  assert (Hn : IZR (Qnum q) < 0) by (apply IZR_lt; assumption).
  assert (Hd : 0 < / IZR (Zpos (Qden q)))
    by (apply Rinv_0_lt_compat, IZR_lt; reflexivity).
  nra.
Qed.

Lemma Q2R_positive (q : Q) : (0 < Qnum q)%Z -> 0 < Q2R q.
Proof. intros H. exact (positive_lit q H). Qed.

Lemma falls_refl (x : xreal) : falls x x.
Proof. left. reflexivity. Qed.

Lemma falls_mul_l (k x y : xreal) :
  nan_or_nonnegative k -> falls x y -> falls (xmul k x) (xmul k y).
Proof.
  intros Hk [-> | (a & c & -> & -> & Hc & Hac)]; [apply falls_refl |].
  destruct k as [ | s | k]; cbn [xmul nan_or_nonnegative] in *.
  - apply falls_refl.
  - left. unfold inf_scaled.
    rewrite !Reqb_false by lra. rewrite !Rltb_false by lra. reflexivity.
  - destruct Hk as [Hk | <-].
    + right. exists (k * a), (k * c). repeat split; nra.
    + left. f_equal. ring.
Qed.

Lemma falls_mul_r (k x y : xreal) :
  falls x y -> nan_or_nonnegative k -> falls (xmul x k) (xmul y k).
Proof.
  intros [-> | (a & c & -> & -> & Hc & Hac)] Hk; [apply falls_refl |].
  destruct k as [ | s | k]; cbn [xmul nan_or_nonnegative] in *.
  - apply falls_refl.
  - left. unfold inf_scaled.
    rewrite !Reqb_false by lra. rewrite !Rltb_false by lra. reflexivity.
  - destruct Hk as [Hk | <-].
    + right. exists (a * k), (c * k). repeat split; nra.
    + left. f_equal. ring.
Qed.

(** A power with a negative exponent, at two positive bases. *)
Lemma falls_pow (a c : R) (e : Q) :
  0 < a < c -> (Qnum e < 0)%Z ->
  falls (xpow (XFin a) (XFin (Q2R e))) (xpow (XFin c) (XFin (Q2R e))).
Proof.
  intros [Ha Hac] He. apply Q2R_negative in He.
  rewrite !xpow_positive by lra.
  right. do 2 eexists. repeat split.
  - apply exp_pos.
  - left. apply Rpower_decreasing; [split |]; assumption.
Qed.

(** Line 153 keeps the order. *)
Lemma falls_clamp (x y : xreal) :
  falls x y -> xle (clampCoV (N := number) y) (clampCoV (N := number) x) = true.
Proof.
  intros [-> | (a & c & -> & -> & Hc & Hac)].
  - destruct (clamp_range y) as (v & -> & Hv). cbn [xle]. apply Rleb_true. lra.
  - rewrite !clamp_real. cbn [xle]. apply Rleb_true.
    destruct (Rltb (1 / 10000) a) eqn:A1; destruct (Rltb a 1) eqn:B1;
      destruct (Rltb (1 / 10000) c) eqn:A2; destruct (Rltb c 1) eqn:B2;
      repeat match goal with
             | H : Rltb _ _ = true |- _ => apply Rltb_iff in H
             | H : Rltb ?u ?v = false |- _ =>
                 assert (v <= u)
                   by (destruct (Rle_dec v u); [assumption |];
                       rewrite Rltb_true in H by lra; discriminate);
                 clear H
             end; lra.
Qed.

Lemma literal_not_negative (q : Q) :
  (0 <= Qnum q)%Z -> nan_or_nonnegative (XFin (Q2R q)).
Proof.
  intros H. simpl. unfold Q2R. apply Rmult_le_pos.
  - apply IZR_le. assumption.
  - left. apply Rinv_0_lt_compat, IZR_lt. reflexivity.
Qed.

Lemma xsqrt_not_negative (x : xreal) : nan_or_nonnegative (xsqrt x).
Proof.
  destruct x as [ | [ | ] | r]; simpl; try exact I; try reflexivity.
  destruct (Rltb r 0); simpl; [exact I | apply sqrt_pos].
Qed.

Lemma xexp_not_negative (x : xreal) : nan_or_nonnegative (xexp x).
Proof.
  destruct x as [ | [ | ] | r]; simpl; try exact I; try reflexivity; try lra.
  left. apply exp_pos.
Qed.

Lemma xmax_not_negative (q : Q) (y : xreal) :
  (0 <= Qnum q)%Z -> nan_or_nonnegative (xmax (XFin (Q2R q)) y).
Proof.
  intros Hq. pose proof (literal_not_negative q Hq) as H0. simpl in H0.
  destruct y as [ | s | v]; unfold xmax; simpl; try exact I.
  - destruct s; simpl; [assumption | reflexivity].
  - destruct (Rltb (Q2R q) v) eqn:E; simpl; [| assumption].
    apply Rltb_iff in E. lra.
Qed.

(** A quotient of two literals is the literal of the quotient. *)
Lemma xdiv_literals (p q : Q) :
  (Qnum q <> 0)%Z ->
  xdiv (XFin (Q2R p)) (XFin (Q2R q)) = XFin (Q2R (p / q)).
Proof.
  intros Hq.
  assert (Hq' : ~ q == 0).
  { unfold Qeq. simpl. lia. }
  rewrite Qreals.Q2R_div by assumption.
  apply xdiv_real. intros H0. apply Hq'. apply Qreals.eqR_Qeq. rewrite H0.
  unfold Q2R. simpl. lra.
Qed.

Ltac not_negative :=
  lazymatch goal with
  | |- nan_or_nonnegative (xmul _ _) =>
      apply xmul_not_negative; not_negative
  | |- nan_or_nonnegative (xpow _ (XFin (Q2R _))) =>
      apply xpow_not_negative, Q2R_not_integer; vm_compute; discriminate
  | |- nan_or_nonnegative (xsqrt _) => apply xsqrt_not_negative
  | |- nan_or_nonnegative (xexp _) => apply xexp_not_negative
  | |- nan_or_nonnegative (xmax (XFin (Q2R _)) _) =>
      apply xmax_not_negative; vm_compute; discriminate
  | |- nan_or_nonnegative (XFin (Q2R _)) =>
      apply literal_not_negative; vm_compute; discriminate
  end.

Ltac falls_by base :=
  lazymatch goal with
  | |- falls ?x ?x => apply falls_refl
  | |- falls (xmul ?k _) (xmul ?k _) =>
      apply falls_mul_l; [not_negative | falls_by base]
  | |- falls (xmul _ ?k) (xmul _ ?k) =>
      apply falls_mul_r; [falls_by base | not_negative]
  | |- _ => base
  end.

(** X7. With every model, both injection types, both conduits and every
    pitch ratio, and every other input fixed, a larger element count never
    gives a larger [mixerCoV]. *)
Theorem more_elements_never_raise_mixerCoV (inputs : MixingInputs number)
    (n1 n2 : R) :
  0 < n1 < n2 ->
  xle (mixerCoV (calculateMixing (set_numElements (N := number) (XFin n2) inputs)))
      (mixerCoV (calculateMixing (set_numElements (N := number) (XFin n1) inputs)))
  = true.
Proof.
  intros Hn. rewrite !mixerCoV_by_elements. apply falls_clamp.
  unfold correlation.
  destruct (mixerModel inputs), (injectionType inputs), (conduitType inputs),
    (pitchRatio inputs);
    cbn [Switch.mixerCoV]; exact_ops;
    try match goal with |- context [xle ?a ?b] => destruct (xle a b) end;
    falls_by ltac:(apply falls_pow; [exact Hn | reflexivity]).
Qed.

(** Two and six STM elements in the form's initial pipe. *)
Lemma more_elements_never_raise_mixerCoV_witness :
  xle (mixerCoV (calculateMixing
                   (set_numElements (N := number) (XFin 6) stm_pipe)))
      (mixerCoV (calculateMixing
                   (set_numElements (N := number) (XFin 2) stm_pipe)))
  = true.
Proof. apply more_elements_never_raise_mixerCoV. lra. Defined.

(** The decay [exp (q k l)] of the default branch along the conduit, for a
    negative literal [q] and a [k] that is NaN or not negative. *)
Lemma falls_exp (q : Q) (k : xreal) (a c : R) :
  (Qnum q < 0)%Z -> nan_or_nonnegative k -> 0 < a < c ->
  falls (xexp (xmul (xmul (XFin (Q2R q)) k) (XFin a)))
        (xexp (xmul (xmul (XFin (Q2R q)) k) (XFin c))).
Proof.
  intros Hq Hk [Ha Hac]. apply Q2R_negative in Hq.
  destruct k as [ | s | k]; cbn [nan_or_nonnegative] in Hk.
  - apply falls_refl.
  - subst s. cbn [xmul]. unfold inf_scaled.
    rewrite Reqb_false by lra. rewrite Rltb_true by lra. cbn [xorb xmul].
    unfold inf_scaled. rewrite !Reqb_false by lra. rewrite !Rltb_false by lra.
    apply falls_refl.
  - cbn [xmul xexp]. right. do 2 eexists. repeat split.
    + apply exp_pos.
    + assert (Hqk : Q2R q * k <= 0) by nra.
      assert (H : Q2R q * k * c <= Q2R q * k * a) by nra.
      destruct H as [H | ->]; [left; apply exp_increasing, H | right; reflexivity].
Qed.

(** X8. With every model but HEV in a pipe, a positive hydraulic diameter
    and every other input fixed, a longer conduit never gives a larger
    [mixerCoV]. *)
Theorem longer_conduit_never_raises_mixerCoV (inputs : MixingInputs number)
    (L1 L2 : R) :
  (mixerModel inputs = HEV -> conduitType inputs = CHANNEL) ->
  positive (hydraulicDiameter (calculateMixing inputs)) ->
  0 < L1 < L2 ->
  xle (mixerCoV (calculateMixing
                   (set_availableLength (N := number) (XFin L2) inputs)))
      (mixerCoV (calculateMixing
                   (set_availableLength (N := number) (XFin L1) inputs)))
  = true.
Proof.
  intros Hhev Hd [HL1 HL12]. rewrite !mixerCoV_by_length. apply falls_clamp.
  change (hydraulicDiameter (calculateMixing inputs))
    with (Body.hydraulicDiameter (body inputs)) in Hd.
  destruct (Body.hydraulicDiameter (body inputs)) as [ | | d];
    try contradiction.
  cbn [positive] in Hd. exact_ops. rewrite !xdiv_real by lra.
  assert (HLD : 0 < L1 / d < L2 / d).
  { assert (0 < / d) by (apply Rinv_0_lt_compat; assumption).
    unfold Rdiv. split; nra. }
  unfold correlation.
  destruct (mixerModel inputs) eqn:Hm, (injectionType inputs),
    (conduitType inputs) eqn:Hc, (pitchRatio inputs);
    try (specialize (Hhev eq_refl); discriminate Hhev);
    cbn [Switch.mixerCoV]; exact_ops;
    rewrite ?xdiv_literals by (vm_compute; discriminate);
    falls_by ltac:(first [ apply falls_pow; [exact HLD | reflexivity]
                         | apply falls_exp;
                           [reflexivity | apply xsqrt_not_negative | exact HLD] ]).
Qed.

(** The open channel of [hev_channel]: a hydraulic diameter of 0.96 m and
    a Reynolds number of 833333.3. *)
Lemma hev_channel_hydraulics :
  Body.hydraulicDiameter (body (N := number) hev_channel) = XFin (96 / 100)
  /\ Body.Re (body (N := number) hev_channel) = XFin (2500000 / 3).
Proof.
  rewrite eq_Re, eq_velocity, eq_Q_m3s.
  destruct (eq_geometry (hev_channel (N := number))) as (-> & _ & ->).
  rewrite eq_depth.
  change (conduitType (hev_channel (N := number))) with CHANNEL.
  change (dimension (hev_channel (N := number))) with (XFin (Q2R 0.8)).
  change (depth (hev_channel (N := number))) with (Some (XFin (Q2R 0.6))).
  change (flowRate (hev_channel (N := number))) with (XFin (Q2R 1500)).
  change (density (hev_channel (N := number))) with (XFin (Q2R 1000)).
  change (viscosity (hev_channel (N := number))) with (XFin (Q2R 0.001)).
  cbn [geometry Geometry.area Geometry.hydraulicDiameter]. exact_ops.
  cbn [xmul xadd].
  rewrite !positive_or_else by (simpl; unfold Q2R; simpl; nra).
  repeat first [ rewrite xdiv_real by (unfold Q2R; simpl; nra)
               | progress cbn [xmul] ].
  split; f_equal; unfold Q2R; simpl; field.
Qed.

(** The HEV correlation of line 97 in that channel, with four elements, at
    5 m and at 10 m: about 0.027 and 0.018. *)
Lemma hev_channel_raw_bounds :
  let raw (L : R) :=
    Q2R 60 * Rpower (L / (96 / 100)) (Q2R (-0.6))
    * Rpower (Q2R 4) (Q2R (-0.9)) * Rpower (2500000 / 3) (Q2R (-0.4)) in
  raw 10 < raw 5 /\ 1 / 10000 < raw 5 /\ raw 10 < 1.
Proof.
  intros raw. unfold raw.
  assert (E0 : Q2R 60 = 60) by (unfold Q2R; simpl; lra).
  assert (E1 : Q2R (-0.6) = - (6 / 10)) by (unfold Q2R; simpl; lra).
  assert (E2 : Q2R (-0.9) = - (9 / 10)) by (unfold Q2R; simpl; lra).
  assert (E3 : Q2R (-0.4) = - (4 / 10)) by (unfold Q2R; simpl; lra).
  assert (E4 : Q2R 4 = 4) by (unfold Q2R; simpl; lra).
  rewrite E0, E1, E2, E3, E4.
  set (re := 2500000 / 3).
  assert (Hre : 810000 <= re <= 1000 * 1000) by (unfold re; lra).
  (* the power of the length *)
  assert (A : Rpower (10 / (96 / 100)) (- (6 / 10))
              < Rpower (5 / (96 / 100)) (- (6 / 10))).
  { apply Rpower_decreasing; lra. }
  assert (A5 : 96 / 500 <= Rpower (5 / (96 / 100)) (- (6 / 10))).
  { apply Rle_trans with (Rpower (5 / (96 / 100)) (- 1)).
    - rewrite Rpower_minus_one by lra. right. field.
    - apply Rle_Rpower; lra. }
  assert (A10 : Rpower (10 / (96 / 100)) (- (6 / 10)) < 1).
  { apply Rlt_le_trans with (Rpower (10 / (96 / 100)) 0).
    - apply Rpower_lt; lra.
    - rewrite Rpower_O by lra. lra. }
  (* the power of the element count *)
  assert (S4 : sqrt 4 = 2).
  { replace 4 with (2 * 2) by lra. apply sqrt_square. lra. }
  assert (B1 : / 4 <= Rpower 4 (- (9 / 10))).
  { apply Rle_trans with (Rpower 4 (- 1)).
    - rewrite Rpower_minus_one by lra. lra.
    - apply Rle_Rpower; lra. }
  assert (B2 : Rpower 4 (- (9 / 10)) <= / 2).
  { apply Rle_trans with (Rpower 4 (- / 2)).
    - apply Rle_Rpower; lra.
    - rewrite Rpower_minus_half, S4 by lra. lra. }
  (* the power of the Reynolds number *)
  assert (C1 : / 1000 <= Rpower re (- (4 / 10))).
  { apply Rle_trans with (Rpower re (- / 2)).
    - rewrite Rpower_minus_half by lra.
      apply Rinv_le_contravar; [apply sqrt_lt_R0; lra |].
      apply sqrt_at_most; lra.
    - apply Rle_Rpower; lra. }
  assert (C2 : Rpower re (- (4 / 10)) <= / 30).
  { apply Rle_trans with (Rpower re (- / 4)).
    - apply Rle_Rpower; lra.
    - rewrite Rpower_minus_quarter by lra.
      apply Rinv_le_contravar; [lra |].
      apply sqrt_at_least; [lra |].
      apply sqrt_at_least; lra. }
  set (a5 := Rpower (5 / (96 / 100)) (- (6 / 10))) in *.
  set (a10 := Rpower (10 / (96 / 100)) (- (6 / 10))) in *.
  set (p := Rpower 4 (- (9 / 10))) in *.
  set (q := Rpower re (- (4 / 10))) in *.
  assert (P10 : 0 < a10) by apply exp_pos.
  assert (Hpq : / 4 * / 1000 <= p * q) by (apply Rmult_le_compat; lra).
  assert (Hpq' : p * q <= / 2 * / 30) by (apply Rmult_le_compat; lra).
  assert (Hpq0 : 0 < p * q) by lra.
  repeat split.
  - replace (60 * a10 * p * q) with (60 * (p * q) * a10) by ring.
    replace (60 * a5 * p * q) with (60 * (p * q) * a5) by ring.
    apply Rmult_lt_compat_l; lra.
  - replace (60 * a5 * p * q) with (60 * (a5 * (p * q))) by ring.
    assert (96 / 500 * (/ 4 * / 1000) <= a5 * (p * q))
      by (apply Rmult_le_compat; lra).
    lra.
  - replace (60 * a10 * p * q) with (60 * (a10 * (p * q))) by ring.
    assert (a10 * (p * q) < 1 * (/ 2 * / 30)).
    { apply Rle_lt_trans with (a10 * (/ 2 * / 30)).
      - apply Rmult_le_compat_l; lra.
      - apply Rmult_lt_compat_r; lra. }
    lra.
Qed.

(** In that channel the HEV result falls, strictly, from 5 m to 10 m. *)
Lemma hev_channel_falls :
  xlt (mixerCoV (calculateMixing
                   (set_availableLength (N := number) (XFin 10) hev_channel)))
      (mixerCoV (calculateMixing
                   (set_availableLength (N := number) (XFin 5) hev_channel)))
  = true.
Proof.
  rewrite !mixerCoV_by_length.
  destruct hev_channel_hydraulics as [-> ->].
  destruct hev_channel_raw_bounds as (Hfall & Hfloor & Hceil).
  change (mixerModel (hev_channel (N := number))) with HEV.
  change (conduitType (hev_channel (N := number))) with CHANNEL.
  change (numElements (hev_channel (N := number))) with (XFin (Q2R 4)).
  cbn [correlation Switch.mixerCoV]. exact_ops.
  rewrite !xdiv_real by lra.
  rewrite !xpow_positive by (try (unfold Q2R; simpl); lra).
  cbn [xmul]. apply clamp_strict; assumption.
Qed.

(** An open channel with four HEV elements, at 5 m and at 10 m: the result
    falls, strictly. *)
Lemma longer_conduit_never_raises_mixerCoV_witness :
  let c5 := mixerCoV (calculateMixing
                        (set_availableLength (N := number) (XFin 5) hev_channel)) in
  let c10 := mixerCoV (calculateMixing
                         (set_availableLength (N := number) (XFin 10) hev_channel)) in
  xle c10 c5 = true /\ xlt c10 c5 = true.
Proof.
  split; [| exact hev_channel_falls].
  apply longer_conduit_never_raises_mixerCoV.
  - reflexivity.
  - destruct hev_channel_hydraulics as [Hd _].
    change (hydraulicDiameter (calculateMixing (N := number) hev_channel))
      with (Body.hydraulicDiameter (body (N := number) hev_channel)).
    rewrite Hd. simpl. lra.
  - lra.
Defined.

(** *** Targets outside the clamp *)

(** X9. A target CoV below 0.0001, or NaN, is never met, whatever the
    other inputs: the clamp of line 153 keeps [mixerCoV] at or above it.  A
    target of 1 or more always is, and the design is then compliant unless
    the chemical is lime. *)
Theorem targets_outside_the_clamp (inputs : MixingInputs number) :
  let r := calculateMixing inputs in
  (xlt (targetCoV inputs) (XFin (Q2R 0.0001)) = true
   \/ is_nan (targetCoV inputs) = true -> isCompliant r = false)
  /\ (xle (XFin (Q2R 1.0)) (targetCoV inputs) = true ->
      includes (chemicalType inputs) "Lime" = false -> isCompliant r = true).
Proof.
  intros r. unfold r, calculateMixing. cbn [isCompliant]. exact_ops.
  rewrite eq_mixerCoV.
  destruct (clamp_range (Body.mixerCoV_raw (body inputs))) as (c & -> & Hc).
  rewrite lo_value, hi_value.
  destruct (targetCoV inputs) as [ | s | t]; cbn [xlt xle is_nan]; split.
  - intros _. reflexivity.
  - discriminate.
  - intros [Hs | Hs]; [| discriminate]. rewrite Hs. reflexivity.
  - intros Hs Hl. apply negb_true_iff in Hs. subst s. rewrite Hl. reflexivity.
  - intros [Ht | Ht]; [| discriminate]. apply Rltb_iff in Ht.
    rewrite Rleb_false by lra. reflexivity.
  - intros Ht Hl. apply Rleb_iff in Ht. rewrite Rleb_true by lra.
    rewrite Hl. reflexivity.
Qed.

(** A target of 1.0, with ferric chloride. *)
Lemma targets_outside_the_clamp_witness :
  isCompliant (calculateMixing (N := number) weir_negative_length) = true.
Proof.
  apply (proj2 (targets_outside_the_clamp weir_negative_length)).
  - apply Rleb_true. lra.
  - reflexivity.
Defined.

(** *** The blending distance *)

(** X10. Line 170, for a positive target, a positive hydraulic diameter
    and a finite mixer length: the distance needed for blending is never
    less than the length of the mixer, and is more exactly when the target
    is not met. *)
Theorem blending_distance_at_least_mixer (inputs : MixingInputs number) :
  let b := body inputs in
  positive (targetCoV inputs) -> positive (Body.hydraulicDiameter b) ->
  finite (Body.Lm b) ->
  xle (Body.Lm b) (Body.mixingDistanceNeeded b) = true
  /\ (xlt (Body.Lm b) (Body.mixingDistanceNeeded b)
      = negb (xle (Body.mixerCoV b) (targetCoV inputs))).
Proof.
  intros b Ht Hd HL. unfold b in *.
  pose proof (positive_decayRate inputs) as Hdecay.
  rewrite eq_mixingDistanceNeeded. exact_ops.
  rewrite positive_or_else by assumption.
  rewrite eq_mixerCoV.
  destruct (clamp_range (Body.mixerCoV_raw (body inputs))) as (c & -> & Hc).
  destruct (targetCoV inputs) as [ | | t]; try contradiction.
  destruct (Body.hydraulicDiameter (body inputs)) as [ | | d];
    try contradiction.
  destruct (Body.Lm (body inputs)) as [ | | l]; try contradiction.
  destruct (Body.decayRate (body inputs)) as [ | | k]; try contradiction.
  cbn [positive] in *. cbn [xle].
  destruct (Rleb c t) eqn:Hct; cbn [negb xle xlt].
  - split; [apply Rleb_true | apply Rltb_false]; lra.
  - assert (Htc : t < c).
    { destruct (Rle_dec c t) as [H | H]; [| lra].
      rewrite Rleb_true in Hct by assumption. discriminate. }
    rewrite xdiv_real by lra. cbn [xlog xlog_scaled].
    assert (Hq : 1 < c / t).
    { apply Rmult_lt_reg_r with t; [assumption |].
      unfold Rdiv. rewrite Rmult_assoc, Rinv_l by lra. lra. }
    rewrite Rltb_false, Reqb_false by lra.
    rewrite xdiv_real by lra. cbn [xmul xadd xle xlt].
    assert (Hln : 0 < ln (c / t)) by (rewrite <- ln_1; apply ln_increasing; lra).
    assert (Hpos : 0 < 1 * ln (c / t) / k * d).
    { apply Rmult_lt_0_compat; [| assumption].
      apply Rdiv_lt_0_compat; lra. }
    split; [apply Rleb_true | apply Rltb_true]; lra.
Qed.

Lemma blending_distance_at_least_mixer_witness :
  let b := body (N := number) defaults_no_injection in
  xle (Body.Lm b) (Body.mixingDistanceNeeded b) = true
  /\ (xlt (Body.Lm b) (Body.mixingDistanceNeeded b)
      = negb (xle (Body.mixerCoV b)
                (targetCoV (defaults_no_injection (N := number))))).
Proof.
  destruct defaults_no_injection_well_formed as (Hc & Hw & Hwf).
  apply blending_distance_at_least_mixer.
  - apply positive_lit. reflexivity.
  - apply (positive_geometry Hwf).
  - apply positive_finite, (positive_Lm Hwf).
Defined.

(** *** The time to dissolve *)

Lemma at_least_max (c : R) (y : xreal) : at_least c (xmax (XFin c) y).
Proof.
  destruct y as [ | s | v]; unfold xmax; simpl; try exact I.
  - destruct s; simpl; [lra | reflexivity].
  - destruct (Rltb c v) eqn:E; simpl; [| lra].
    apply Rltb_iff in E. lra.
Qed.

Lemma at_least_div (m c : R) (x : xreal) :
  0 < c -> at_least m x -> at_least (m / c) (xdiv x (XFin c)).
Proof.
  intros Hc. destruct x as [ | s | a]; simpl; try tauto.
  - intros ->. rewrite Rltb_false by lra. reflexivity.
  - intros Ha. rewrite Reqb_false by lra. simpl.
    apply Rmult_le_compat_r; [| assumption].
    left. apply Rinv_0_lt_compat, Hc.
Qed.

Lemma at_least_sqrt (m : R) (x : xreal) :
  0 <= m -> at_least m x -> at_least (sqrt m) (xsqrt x).
Proof.
  intros Hm. destruct x as [ | s | a]; simpl; try tauto.
  - intros ->. reflexivity.
  - intros Ha. rewrite Rltb_false by lra. simpl. apply sqrt_le_1_alt, Ha.
Qed.

Lemma at_least_mul (m1 m2 : R) (x y : xreal) :
  0 < m1 -> 0 < m2 -> at_least m1 x -> at_least m2 y ->
  at_least (m1 * m2) (xmul x y).
Proof.
  intros H1 H2.
  destruct x as [ | sx | a], y as [ | sy | c]; simpl; try tauto.
  - intros -> ->. reflexivity.
  - intros -> Hc. unfold inf_scaled.
    rewrite Reqb_false by lra. rewrite Rltb_false by lra. reflexivity.
  - intros Ha ->. unfold inf_scaled.
    rewrite Reqb_false by lra. rewrite Rltb_false by lra. reflexivity.
  - intros Ha Hc. apply Rmult_le_compat; lra.
Qed.

(** The rate constant is NaN or at least 0.003: the product of 0.3, a
    square root of at least 0.1 and a saturation factor of at least 0.1. *)
Lemma rateK_at_least (inputs : MixingInputs number) :
  at_least (3 / 1000) (Body.rateK (body inputs)).
Proof.
  rewrite eq_rateK. exact_ops.
  replace (3 / 1000) with (Q2R 0.3 * sqrt (Q2R 1 / Q2R 100) * Q2R 0.1).
  - assert (Hs : 0 < sqrt (Q2R 1 / Q2R 100)).
    { apply sqrt_lt_R0. unfold Q2R. simpl. lra. }
    apply at_least_mul; [| unfold Q2R; simpl; lra | | apply at_least_max].
    + apply Rmult_lt_0_compat; [unfold Q2R; simpl; lra | exact Hs].
    + apply at_least_mul; [unfold Q2R; simpl; lra | exact Hs | simpl; lra |].
      apply at_least_sqrt; [unfold Q2R; simpl; lra |].
      apply at_least_div; [unfold Q2R; simpl; lra | apply at_least_max].
  - replace (Q2R 1 / Q2R 100) with ((1 / 10) * (1 / 10))
      by (unfold Q2R; simpl; lra).
    rewrite sqrt_square by lra. unfold Q2R. simpl. lra.
Qed.

(** X11. For every input the time to 95% dissolution is a real number
    between 0 and [ln 20 / 0.001] (about 2996 s), never NaN or an infinity:
    a rate constant that is NaN is replaced by 0.001 (line 165), and one
    that is not is at least 0.003, which bounds the time by
    [ln 20 / 0.003] (about 999 s). *)
Theorem time_to_dissolve_is_bounded (inputs : MixingInputs number) :
  exists t,
    timeTo95Dissolution (calculateMixing inputs) = XFin t
    /\ 0 <= t <= ln 20 * 1000
    /\ (is_nan (Body.rateK (body inputs)) = false -> t <= ln 20 * 1000 / 3).
Proof.
  change (timeTo95Dissolution (calculateMixing inputs))
    with (Body.timeTo95 (body inputs)).
  rewrite eq_timeTo95. exact_ops.
  rewrite xdiv_real by (unfold Q2R; simpl; lra).
  replace (Q2R 1 / Q2R 0.05) with 20 by (unfold Q2R; simpl; lra).
  cbn [xlog xlog_scaled]. rewrite Rltb_false, Reqb_false by lra.
  rewrite Rmult_1_l.
  assert (Hln : 0 < ln 20) by (rewrite <- ln_1; apply ln_increasing; lra).
  pose proof (rateK_at_least inputs) as Hk.
  unfold or_else. cbn [truthy number to_boolean].
  destruct (Body.rateK (body inputs)) as [ | s | k]; cbn [at_least] in Hk.
  - exists (ln 20 / Q2R 1e-3). cbn [to_boolean].
    rewrite xdiv_real by (unfold Q2R; simpl; lra).
    split; [reflexivity |]. unfold Q2R. simpl.
    split; [| discriminate]. split; lra.
  - exists 0. cbn [to_boolean xdiv]. split; [reflexivity |].
    split; [| intros _]; lra.
  - cbn [to_boolean]. rewrite Reqb_false by lra. cbn [negb].
    exists (ln 20 / k). rewrite xdiv_real by lra. split; [reflexivity |].
    assert (Hinv : 0 < / k <= / (3 / 1000)).
    { split; [apply Rinv_0_lt_compat; lra |].
      apply Rinv_le_contravar; lra. }
    replace (/ (3 / 1000)) with (1000 / 3) in Hinv by field.
    unfold Rdiv. split; [| intros _]; nra.
Qed.

(** *** The solubility of lime *)

(** X12. Line 163 reads the temperature only, and from 0 degrees C up a
    warmer water has a lower saturation limit. *)
Theorem lime_limit_falls_with_temperature (i1 i2 : MixingInputs number)
    (T1 T2 : R) :
  waterTemperature i1 = XFin T1 -> waterTemperature i2 = XFin T2 ->
  0 <= T1 < T2 ->
  xlt (limeSaturationLimit (calculateMixing i2))
      (limeSaturationLimit (calculateMixing i1)) = true.
Proof.
  intros H1 H2 [HT1 HT12].
  change (limeSaturationLimit (calculateMixing i2))
    with (Body.limeSaturationLimit (body i2)).
  change (limeSaturationLimit (calculateMixing i1))
    with (Body.limeSaturationLimit (body i1)).
  rewrite !eq_limeSaturationLimit, H1, H2. exact_ops.
  rewrite !xpow_square by lra.
  cbn [xmul xsub xadd xneg xlt]. apply Rltb_true.
  unfold Q2R. simpl. nra.
Qed.

(** The form's initial state, at 15 and at 25 degrees C. *)
Lemma lime_limit_falls_with_temperature_witness :
  xlt (limeSaturationLimit
         (calculateMixing
            (App.assign (App.F_waterTemperature (N := number) (XFin 25))
               app_defaults)))
      (limeSaturationLimit (calculateMixing (N := number) app_defaults))
  = true.
Proof.
  apply (@lime_limit_falls_with_temperature app_defaults
           (App.assign (App.F_waterTemperature (N := number) (XFin 25))
              app_defaults) (Q2R 15) 25);
    [reflexivity | reflexivity | unfold Q2R; simpl; lra].
Defined.

(** *** Lime *)

Lemma xmax_reals (a c : R) :
  exists m, xmax (XFin a) (XFin c) = XFin m /\ a <= m /\ c <= m.
Proof.
  unfold xmax. cbn [is_nan orb xlt].
  destruct (Rlt_dec a c) as [H | H].
  - rewrite (Rltb_true H). exists c. repeat split; lra.
  - rewrite Rltb_false by lra. exists a. repeat split; lra.
Qed.

(** X19. With lime the required distance reaches the point of 95% dissolution
    (line 172), so the fraction dissolved there is at least 95, and the test
    [dissolvedAtTarget > 90] of [isCompliant] never fails: the design is
    compliant exactly when the target CoV is met. *)
Theorem lime_design_reaches_95 (inputs : MixingInputs number) :
  let b := body inputs in
  let r := calculateMixing inputs in
  includes (chemicalType inputs) "Lime" = true ->
  positive (velocity r) -> finite (Body.rateK b) ->
  finite (Body.mixingDistanceNeeded b) ->
  xle (XFin 95) (dissolvedAtTarget r) = true
  /\ isCompliant r = xle (mixerCoV r) (targetCoV inputs).
Proof.
  intros b r Hlime Hv Hk Hm. unfold r, b in *.
  unfold calculateMixing in *. cbn [velocity dissolvedAtTarget isCompliant mixerCoV] in *.
  rewrite Hlime. cbn [negb orb].
  rewrite eq_dissolvedAtTarget, eq_mixingTimeNeeded, eq_finalDistanceNeeded,
    Hlime, eq_distanceTo95, eq_timeTo95.
  pose proof (rateK_at_least inputs) as Hk3.
  destruct (Body.rateK (body inputs)) as [ | | k]; try contradiction.
  destruct (Body.velocity (body inputs)) as [ | | v]; try contradiction.
  destruct (Body.mixingDistanceNeeded (body inputs)) as [ | | m];
    try contradiction.
  cbn [at_least positive] in *.
  rewrite !positive_or_else by (simpl; lra). exact_ops.
  rewrite xdiv_real by (unfold Q2R; simpl; lra).
  replace (Q2R 1 / Q2R 0.05) with 20 by (unfold Q2R; simpl; lra).
  cbn [xlog xlog_scaled]. rewrite Rltb_false, Reqb_false by lra.
  rewrite Rmult_1_l, xdiv_real by lra. cbn [xmul].
  destruct (xmax_reals m (ln 20 / k * v)) as (M & -> & _ & HM).
  rewrite xdiv_real by lra. cbn [xneg xmul xexp xsub xadd].
  assert (Hln : 0 < ln 20) by (rewrite <- ln_1; apply ln_increasing; lra).
  assert (Ht : ln 20 / k <= M / v).
  { apply Rmult_le_reg_r with v; [assumption |].
    unfold Rdiv at 2. rewrite Rmult_assoc, Rinv_l by lra. lra. }
  assert (He : 0 < exp (- k * (M / v)) <= / 20).
  { split; [apply exp_pos |].
    replace (/ 20) with (exp (- ln 20))
      by (rewrite exp_Ropp, exp_ln by lra; reflexivity).
    assert (Hle : - k * (M / v) <= - ln 20).
    { assert (k * (ln 20 / k) = ln 20) by (field; lra). nra. }
    destruct Hle as [Hlt | ->];
      [left; apply exp_increasing, Hlt | right; reflexivity]. }
  assert (H1 : Q2R 1 = 1) by (unfold Q2R; simpl; lra).
  assert (H100 : Q2R 100 = 100) by (unfold Q2R; simpl; lra).
  assert (H90 : Q2R 90 = 90) by (unfold Q2R; simpl; lra).
  rewrite H1, H100, H90.
  set (d := (1 + - exp (- k * (M / v))) * 100) in *.
  assert (Hd : 95 <= d < 100) by (unfold d; lra).
  unfold xmin. cbn [is_nan orb xlt xle].
  rewrite (Rltb_true (a := d) (b := 100)) by lra.
  rewrite (Rltb_true (a := 90) (b := d)) by lra.
  rewrite andb_true_r. split; [apply Rleb_true; lra | reflexivity].
Qed.

(** Nothing injected, with lime: an input the hypotheses hold of. *)
Lemma lime_no_injection_well_formed :
  well_formed (lime_no_injection (N := number)).
Proof. exact (proj2 (proj2 defaults_no_injection_well_formed)). Qed.

Lemma lime_design_reaches_95_witness :
  let r := calculateMixing (N := number) lime_no_injection in
  xle (XFin 95) (dissolvedAtTarget r) = true
  /\ isCompliant r = xle (mixerCoV r) (targetCoV (lime_no_injection (N := number))).
Proof.
  pose proof lime_no_injection_well_formed as Hwf.
  apply lime_design_reaches_95.
  - reflexivity.
  - apply (positive_hydraulics Hwf).
  - apply positive_finite, (positive_kinetics Hwf).
  - apply positive_finite, (positive_distance Hwf).
Defined.

(** *** The injected stream *)

(** X20. Lines 18-27 blend the chemical with its dilution water: for flows that
    are not negative, one of them positive, the density of the injected
    stream lies between those of the chemical and of water (1000), and its
    viscosity between those of the chemical and of water (0.001). *)
Theorem injected_stream_between (inputs : MixingInputs number)
    (c w rho mu : R) :
  chemicalFlow inputs = XFin c -> dilutionWaterFlow inputs = XFin w ->
  chemicalDensity inputs = XFin rho -> chemicalViscosity inputs = XFin mu ->
  0 <= c -> 0 <= w -> 0 < c + w -> 0 < mu ->
  let r := calculateMixing inputs in
  exists d v,
    injectedDensity r = XFin d /\ Rmin rho 1000 <= d <= Rmax rho 1000
    /\ injectedViscosity r = XFin v
    /\ Rmin mu (1 / 1000) <= v <= Rmax mu (1 / 1000).
Proof.
  intros Hc Hw Hrho Hmu Hc0 Hw0 Hcw Hmu0 r. unfold r, calculateMixing.
  cbn [injectedDensity injectedViscosity].
  rewrite eq_injectedViscosity, eq_injectedDensity.
  destruct (fractions_exact inputs Hc Hw Hcw) as (-> & -> & _).
  rewrite Hrho, Hmu.
  rewrite !positive_or_else by (simpl; try (unfold Q2R; simpl); lra).
  exact_ops.
  assert (Hm : Q2R 0.001 = 1 / 1000) by (unfold Q2R; simpl; lra).
  assert (Hd : Q2R 1000 = 1000) by (unfold Q2R; simpl; lra).
  rewrite Hm, Hd. cbn [xlog xlog_scaled].
  rewrite !Rltb_false, !Reqb_false by lra. cbn [xmul xadd xexp].
  set (a := c / (c + w)).
  assert (Ha : 0 <= a <= 1).
  { unfold a. split.
    - apply Rmult_le_pos; [assumption |]. left. apply Rinv_0_lt_compat, Hcw.
    - apply Rmult_le_reg_r with (c + w); [assumption |].
      unfold Rdiv. rewrite Rmult_assoc, Rinv_l by lra. lra. }
  replace (w / (c + w)) with (1 - a) by (unfold a; field; lra).
  do 2 eexists. split; [reflexivity |]. split; [| split; [reflexivity |]].
  - unfold Rmin, Rmax. destruct (Rle_dec rho 1000); split; nra.
  - rewrite !Rmult_1_l.
    set (e := a * ln mu + (1 - a) * ln (1 / 1000)).
    assert (Hexp : forall x y, x <= y -> exp x <= exp y).
    { intros x y [H | ->]; [left; apply exp_increasing, H | right; reflexivity]. }
    assert (Emu : exp (ln mu) = mu) by (apply exp_ln; assumption).
    assert (E0 : exp (ln (1 / 1000)) = 1 / 1000) by (apply exp_ln; lra).
    unfold Rmin, Rmax. destruct (Rle_dec mu (1 / 1000)) as [Hle | Hgt].
    + assert (Hl : ln mu <= ln (1 / 1000)).
      { destruct Hle as [Hlt | Heq];
          [left; apply ln_increasing; lra | right; rewrite Heq; reflexivity]. }
      split; [rewrite <- Emu | rewrite <- E0]; apply Hexp; unfold e; nra.
    + assert (Hl : ln (1 / 1000) < ln mu) by (apply ln_increasing; lra).
      split; [rewrite <- E0 | rewrite <- Emu]; apply Hexp; unfold e; nra.
Qed.

(** The form's initial state: ferric chloride in 20 parts of water. *)
Lemma injected_stream_between_witness :
  let r := calculateMixing (N := number) app_defaults in
  exists d v,
    injectedDensity r = XFin d
    /\ Rmin (Q2R 1450) 1000 <= d <= Rmax (Q2R 1450) 1000
    /\ injectedViscosity r = XFin v
    /\ Rmin (Q2R 0.015) (1 / 1000) <= v <= Rmax (Q2R 0.015) (1 / 1000).
Proof.
  apply (@injected_stream_between app_defaults (Q2R 10) (Q2R 200));
    try reflexivity; unfold Q2R; simpl; lra.
Defined.

(** *** Halving *)

(** Decides the comparisons of real numbers in the goal, by cases. *)
Ltac real_cases :=
  repeat match goal with
         | |- context [Reqb ?a ?b] =>
             let H := fresh "E" in
             destruct (Req_dec_T a b) as [H | H];
             [rewrite (Reqb_true H) | rewrite (Reqb_false H)]
         | |- context [Rltb ?a ?b] =>
             let H := fresh "L" in
             destruct (Rlt_dec a b) as [H | H];
             [rewrite (Rltb_true H)
             | rewrite (Rltb_false (Rnot_lt_le _ _ H))]
         end.

Ltac half_cases :=
  unfold half, inf_scaled; cbn [xmul xdiv]; unfold inf_scaled; real_cases;
  cbn [xmul xdiv]; unfold inf_scaled; real_cases;
  try reflexivity; try (exfalso; lra);
  try (f_equal; first [field; assumption | field | lra]).

Lemma half_mul_l (x y : xreal) : xmul (half x) y = half (xmul x y).
Proof.
  destruct x as [ | [ | ] | a], y as [ | [ | ] | c]; half_cases.
Qed.

Lemma half_mul_r (x y : xreal) : xmul x (half y) = half (xmul x y).
Proof.
  destruct x as [ | [ | ] | a], y as [ | [ | ] | c]; half_cases.
Qed.

Lemma half_div (x y : xreal) : xdiv (half x) y = half (xdiv x y).
Proof.
  destruct x as [ | [ | ] | a], y as [ | [ | ] | c]; half_cases.
Qed.

Lemma xdiv_one (x : xreal) : xdiv x (XFin (Q2R 1)) = x.
Proof.
  assert (H1 : Q2R 1 = 1) by (unfold Q2R; simpl; lra). rewrite H1.
  destruct x as [ | s | a]; cbn [xdiv]; try reflexivity.
  - rewrite Rltb_false by lra. rewrite xorb_false_r. reflexivity.
  - rewrite Reqb_false by lra. f_equal. field.
Qed.

(** X13. With two injection points in place of one, every other input
    fixed, the momentum ratio and the suggested orifice diameter are
    halved, for every input; the total injected flow is the same. *)
Theorem twin_injection_halves_momentum (inputs : MixingInputs number) :
  let s := calculateMixing (set_injectionType SINGLE inputs) in
  let t := calculateMixing (set_injectionType TWIN inputs) in
  momentumRatio t = xdiv (momentumRatio s) (XFin 2)
  /\ suggestedOrificeDiameter t = xdiv (suggestedOrificeDiameter s) (XFin 2)
  /\ totalInjectionFlow t = totalInjectionFlow s.
Proof.
  intros s t. unfold s, t.
  destruct (momentum_by_injection inputs SINGLE) as (-> & -> & ->).
  destruct (momentum_by_injection inputs TWIN) as (-> & -> & ->).
  exact_ops. rewrite !xdiv_one, Q2R_two.
  fold (half (Body.totalInjectionFlowM3s (body inputs))).
  repeat first [rewrite half_div | rewrite half_mul_l | rewrite half_mul_r].
  repeat split.
Qed.

(** *** The headloss of a static mixer *)

(** X22. With a static mixer (Kenics KM, HEV, SMV or STM), a finite
    velocity and a finite hydraulic diameter, the headloss is proportional
    to the number of elements: at [n] elements it is [n] times the headloss
    of one. *)
Theorem headloss_proportional_to_elements (inputs : MixingInputs number)
    (n : R) :
  match mixerModel inputs with
  | KENICS_KM | HEV | SMV | STM => True
  | _ => False
  end ->
  finite (velocity (calculateMixing inputs)) ->
  finite (hydraulicDiameter (calculateMixing inputs)) ->
  headlossMeters (calculateMixing (set_numElements (N := number) (XFin n) inputs))
  = xmul (XFin n)
      (headlossMeters
         (calculateMixing (set_numElements (N := number) (XFin 1) inputs))).
Proof.
  intros Hm Hv Hd. rewrite !headloss_by_elements.
  change (velocity (calculateMixing inputs))
    with (Body.velocity (body inputs)) in Hv.
  change (hydraulicDiameter (calculateMixing inputs))
    with (Body.hydraulicDiameter (body inputs)) in Hd.
  destruct (Body.velocity (body inputs)) as [ | | v]; try contradiction.
  destruct (Body.hydraulicDiameter (body inputs)) as [ | | d];
    try contradiction.
  assert (Hpow : exists v2, xpow (XFin v) (XFin (Q2R 2)) = XFin v2).
  { destruct two_is_even_integer as [Hi Ho]. cbn [xpow].
    rewrite Reqb_false by (rewrite Q2R_two; lra).
    destruct (Reqb v 0); [rewrite Rltb_false by (rewrite Q2R_two; lra); eauto |].
    destruct (Rltb 0 v); [eauto |]. rewrite Hi, Ho. eauto. }
  destruct Hpow as (v2 & Hv2).
  unfold correlation.
  destruct (mixerModel inputs); try contradiction;
    destruct (conduitType inputs), (pitchRatio inputs);
    cbn [Switch.FD Switch.Lm]; exact_ops; rewrite Hv2; cbn [xmul];
    unfold xdiv; real_cases; unfold inf_scaled; real_cases;
    cbn [xmul]; unfold inf_scaled; real_cases;
    try reflexivity; try (exfalso; nra);
    try (f_equal; unfold Rdiv; ring).
Qed.

(** The form's initial pipe with STM elements is well-formed. *)
Lemma stm_pipe_well_formed : well_formed (stm_pipe (N := number)).
Proof.
  unfold well_formed.
  cbn [stm_pipe set_mixerModel app_defaults mixerModel numElements flowRate
       dimension depth availableLength viscosity density chemicalDose
       chemicalDensity chemicalViscosity targetCoV targetMixingTime
       waterTemperature].
  exact_ops.
  repeat split; try (apply positive_lit; reflexivity).
  exists (Q2R 15). repeat split; unfold Q2R; simpl; lra.
Qed.

(** Four STM elements in the form's initial pipe. *)
Lemma headloss_proportional_to_elements_witness :
  headlossMeters
    (calculateMixing (set_numElements (N := number) (XFin 4) stm_pipe))
  = xmul (XFin 4)
      (headlossMeters
         (calculateMixing (set_numElements (N := number) (XFin 1) stm_pipe))).
Proof.
  pose proof stm_pipe_well_formed as Hwf.
  apply headloss_proportional_to_elements.
  - exact I.
  - apply positive_finite, (positive_hydraulics Hwf).
  - apply positive_finite, (positive_geometry Hwf).
Defined.

(** *** The cross-section *)

(** X14. With positive dimensions, the hydraulic diameter of each of the
    three cross-sections is positive, and four times its area over its
    wetted perimeter: the diameter lines 36-38 give a circular pipe is that
    quotient too. *)
Theorem hydraulic_diameter_is_4A_over_P (inputs : MixingInputs number) :
  positive (dimension inputs) ->
  match depth inputs with Some d => positive d | None => True end ->
  let r := calculateMixing inputs in
  positive (hydraulicDiameter r)
  /\ hydraulicDiameter r
     = xdiv (xmul (XFin 4) (wettedArea r)) (Body.perimeter (body inputs)).
Proof.
  intros Hdim Hdep r. unfold r.
  destruct (result_geometry inputs) as (-> & -> & ->).
  set (dp := match depth inputs with
             | Some d => d
             | None => @lit number 0.5
             end).
  assert (Hd : positive dp).
  { unfold dp. destruct (depth inputs); [assumption |].
    apply positive_lit. reflexivity. }
  clearbody dp.
  assert (H4 : Q2R 4 = 4) by (unfold Q2R; simpl; lra).
  destruct (dimension inputs) as [ | | w]; try contradiction.
  destruct dp as [ | | h]; try contradiction.
  cbn [positive] in Hdim, Hd.
  unfold geometry.
  destruct (conduitType inputs); [destruct (conduitShape inputs) |];
    cbn [Geometry.area Geometry.perimeter Geometry.hydraulicDiameter].
  - exact_ops. split; [exact Hdim |].
    rewrite xdiv_real by (rewrite Q2R_two; lra).
    rewrite xpow_square by (rewrite Q2R_two; lra).
    cbn [xmul]. pose proof PI_RGT_0.
    rewrite xdiv_real by nra. f_equal. rewrite Q2R_two. field. lra.
  - rewrite positive_or_else by exact Hd. exact_ops. rewrite H4.
    split; [| reflexivity].
    cbn [xmul xadd]. rewrite xdiv_real by (rewrite Q2R_two; nra).
    cbn [positive]. rewrite Q2R_two.
    apply Rdiv_lt_0_compat; nra.
  - exact_ops. rewrite H4. split; [| reflexivity].
    cbn [xmul xadd]. rewrite xdiv_real by (rewrite Q2R_two; nra).
    cbn [positive]. rewrite Q2R_two.
    apply Rdiv_lt_0_compat; nra.
Qed.

Lemma hydraulic_diameter_is_4A_over_P_witness :
  let r := calculateMixing (N := number) app_defaults in
  positive (hydraulicDiameter r)
  /\ hydraulicDiameter r
     = xdiv (xmul (XFin 4) (wettedArea r))
         (Body.perimeter (body (N := number) app_defaults)).
Proof.
  apply hydraulic_diameter_is_4A_over_P; apply positive_lit; reflexivity.
Defined.

End ExactMore.

(** ** The form, in exact arithmetic *)

Module FormExact.
Import Exact ExactFacts ExactOrder ExactMore App.

Local Open Scope R_scope.

(** X15. [calculateLimeProps]: a slurry of 0% has the density and the
    viscosity of water (1000 and 0.001), and both grow with the
    concentration. *)
Theorem lime_slurry_thickens (c1 c2 : R) :
  0 <= c1 < c2 ->
  let p0 := calculateLimeProps (N := number) (XFin 0) in
  let p1 := calculateLimeProps (N := number) (XFin c1) in
  let p2 := calculateLimeProps (N := number) (XFin c2) in
  p0 = (XFin 1000, XFin (1 / 1000))
  /\ xle (fst p0) (fst p1) = true /\ xle (snd p0) (snd p1) = true
  /\ xlt (fst p1) (fst p2) = true /\ xlt (snd p1) (snd p2) = true.
Proof.
  intros [H1 H12] p0 p1 p2. unfold p0, p1, p2, calculateLimeProps.
  exact_ops. cbn [xmul xadd xexp fst snd xle xlt].
  assert (Hq : Q2R 0.18 = 18 / 100) by (unfold Q2R; simpl; lra).
  assert (Hm : Q2R 0.001 = 1 / 1000) by (unfold Q2R; simpl; lra).
  assert (Hd : Q2R 1000 = 1000) by (unfold Q2R; simpl; lra).
  assert (H7 : Q2R 7 = 7) by (unfold Q2R; simpl; lra).
  rewrite Hq, Hm, Hd, H7.
  replace (18 / 100 * 0) with 0 by ring. rewrite exp_0.
  assert (E1 : 1 <= exp (18 / 100 * c1)).
  { rewrite <- exp_0. destruct H1 as [H1 | <-].
    - left. apply exp_increasing. lra.
    - right. f_equal. ring. }
  assert (E2 : exp (18 / 100 * c1) < exp (18 / 100 * c2))
    by (apply exp_increasing; lra).
  repeat split.
  - f_equal; f_equal; lra.
  - apply Rleb_true. lra.
  - apply Rleb_true. lra.
  - apply Rltb_true. lra.
  - apply Rltb_true. lra.
Qed.

Lemma lime_slurry_thickens_witness :
  let p0 := calculateLimeProps (N := number) (XFin 0) in
  let p1 := calculateLimeProps (N := number) (XFin 5) in
  let p2 := calculateLimeProps (N := number) (XFin 10) in
  p0 = (XFin 1000, XFin (1 / 1000))
  /\ xle (fst p0) (fst p1) = true /\ xle (snd p0) (snd p1) = true
  /\ xlt (fst p1) (fst p2) = true /\ xlt (snd p1) (snd p2) = true.
Proof. apply lime_slurry_thickens. lra. Defined.

(** On a cleared concentration field the two handlers differ: typing 0
    with lime selected gives the density of water, selecting lime again
    gives that of a 10% slurry. *)
Remark lime_handlers_differ_at_zero :
  let s := dispatch (N := number) initialState (SelectPreset "lime") in
  let typed :=
    handleInputChange s (F_slurryConcentration (N := number) (XFin 0)) in
  chemicalDensity (inputs typed) = XFin 1000
  /\ chemicalDensity (inputs (handlePresetChange typed "lime")) = XFin 1070.
Proof.
  cbn [dispatch handlePresetChange handleInputChange List.find CHEMICAL_PRESETS
       Preset.id Preset.name String.eqb Ascii.eqb Bool.eqb negb
       calculateLimeProps setInputs setSelectedPresetId inputs assign
       slurryConcentration selectedPresetId results chemicalDensity
       initialState app_defaults].
  rewrite zero_or_else. exact_ops. cbn [xmul xadd].
  split; f_equal; unfold Q2R; simpl; lra.
Qed.

(** *** The chart *)

Lemma chart_clamp_real (v : R) :
  chart_clamp (XFin v)
  = XFin (if Rltb (1 / 1000) v then (if Rltb v 1 then v else 1)
          else 1 / 1000).
Proof.
  unfold chart_clamp.
  replace (Q2R 1.0) with 1 by (unfold Q2R; simpl; lra).
  replace (Q2R 0.001) with (1 / 1000) by (unfold Q2R; simpl; lra).
  unfold xmax, xmin. cbn [is_nan orb xlt].
  destruct (Rltb (1 / 1000) v) eqn:E1; cbn [is_nan orb xlt].
  - destruct (Rltb v 1); reflexivity.
  - rewrite Rltb_true by lra. reflexivity.
Qed.

Lemma chart_clamp_keeps_order (a c : R) :
  c <= a -> xle (chart_clamp (XFin c)) (chart_clamp (XFin a)) = true.
Proof.
  intros Hca. rewrite !chart_clamp_real. cbn [xle]. apply Rleb_true.
  destruct (Rltb (1 / 1000) a) eqn:A1; destruct (Rltb a 1) eqn:B1;
    destruct (Rltb (1 / 1000) c) eqn:A2; destruct (Rltb c 1) eqn:B2;
    repeat match goal with
           | H : Rltb _ _ = true |- _ => apply Rltb_iff in H
           | H : Rltb ?u ?v = false |- _ =>
               assert (v <= u)
                 by (destruct (Rle_dec v u); [assumption |];
                     rewrite Rltb_true in H by lra; discriminate);
               clear H
           end; lra.
Qed.

Lemma falls_chart_clamp (x y : xreal) :
  falls x y ->
  chart_clamp x = chart_clamp y \/ xle (chart_clamp y) (chart_clamp x) = true.
Proof.
  intros [-> | (a & c & -> & -> & Hc & Hac)]; [left; reflexivity |].
  right. apply chart_clamp_keeps_order. lra.
Qed.

(** The decay along the conduit, at two distances. *)
Lemma natural_curve_falls (coVi hd : xreal) (k x1 x2 : R) :
  nan_or_nonnegative coVi -> 0 < k -> nan_or_positive hd -> is_nan hd = false ->
  x1 <= x2 ->
  falls (natural_curve coVi (XFin k) hd (XFin x1))
        (natural_curve coVi (XFin k) hd (XFin x2)).
Proof.
  intros Hc Hk Hd Hn Hx. unfold natural_curve.
  apply falls_mul_l; [assumption |].
  destruct hd as [ | s | d]; [discriminate | |]; cbn [nan_or_positive] in Hd;
    cbn [xneg xdiv xmul xexp].
  - apply falls_refl.
  - rewrite Reqb_false by lra. cbn [xmul xexp].
    right. do 2 eexists. repeat split; [apply exp_pos |].
    assert (Hinv : 0 < / d) by (apply Rinv_0_lt_compat; assumption).
    assert (Hq : x1 / d <= x2 / d)
      by (unfold Rdiv; apply Rmult_le_compat_r; lra).
    assert (H : - k * (x2 / d) <= - k * (x1 / d)) by nra.
    destruct H as [H | ->]; [left; apply exp_increasing, H | right; reflexivity].
Qed.

Lemma exp_at_most_one (x : R) : x <= 0 -> 0 < exp x <= 1.
Proof. intros H. split; [apply exp_pos | apply exp_le_one, H]. Qed.

(** The ramp of line 167 over the length of the mixer. *)
Lemma ramp_real (c x l : R) :
  l <> 0 ->
  xsub (XFin 1) (xmul (xsub (XFin 1) (XFin c)) (xdiv (XFin x) (XFin l)))
  = XFin (1 - (1 - c) * (x / l)).
Proof.
  intros Hl. rewrite xdiv_real by assumption.
  cbn [xsub xneg xadd xmul]. reflexivity.
Qed.

(** The decay of line 169 behind the mixer: a real number, at most [c],
    that does not rise. *)
Lemma decay_real (hd : xreal) (c k y : R) :
  0 < c -> 0 < k -> nan_or_positive hd -> is_nan hd = false -> 0 <= y ->
  exists v,
    xmul (XFin c) (xexp (xmul (XFin (- k)) (xdiv (XFin y) hd))) = XFin v
    /\ 0 < v <= c
    /\ forall y', y <= y' ->
       exists v',
         xmul (XFin c) (xexp (xmul (XFin (- k)) (xdiv (XFin y') hd)))
         = XFin v' /\ v' <= v.
Proof.
  intros Hc Hk Hd Hn Hy.
  destruct hd as [ | sd | d]; [discriminate | |];
    cbn [nan_or_positive] in Hd; cbn [xneg xdiv xmul xexp].
  - eexists. split; [reflexivity |].
    replace (- k * 0) with 0 by ring. rewrite exp_0.
    split; [lra |]. intros y' _. eexists. split; [reflexivity | lra].
  - rewrite Reqb_false by lra. cbn [xmul xexp].
    eexists. split; [reflexivity |].
    assert (Hq0 : 0 <= y / d) by (unfold Rdiv; apply Rmult_le_pos;
      [assumption | left; apply Rinv_0_lt_compat; assumption]).
    assert (He : 0 < exp (- k * (y / d)) <= 1)
      by (apply exp_at_most_one; nra).
    split; [nra |].
    intros y' Hy'. eexists. split; [reflexivity |].
    assert (Hq : y / d <= y' / d).
    { unfold Rdiv. apply Rmult_le_compat_r; [| assumption].
      left. apply Rinv_0_lt_compat. assumption. }
    assert (Hle : - k * (y' / d) <= - k * (y / d)) by nra.
    assert (exp (- k * (y' / d)) <= exp (- k * (y / d))).
    { destruct Hle as [Hlt | ->];
        [left; apply exp_increasing, Hlt | right; reflexivity]. }
    nra.
Qed.

(** The curve behind a mixer is a real number that does not rise. *)
Lemma mixer_curve_falls (hd len : xreal) (c k x1 x2 : R) :
  0 < c <= 1 -> 0 < k -> nan_or_positive hd -> is_nan hd = false ->
  nan_or_positive len -> is_nan len = false -> 0 <= x1 <= x2 ->
  exists v1 v2,
    mixer_curve (XFin c) (XFin k) hd len (XFin x1) = XFin v1
    /\ mixer_curve (XFin c) (XFin k) hd len (XFin x2) = XFin v2
    /\ v2 <= v1.
Proof.
  intros Hc Hk Hd Hdn Hl Hln [Hx1 Hx12].
  assert (H1 : Q2R 1.0 = 1) by (unfold Q2R; simpl; lra).
  unfold mixer_curve. rewrite H1.
  destruct len as [ | sl | l]; [discriminate | |]; cbn [nan_or_positive] in Hl.
  - subst sl. cbn [xlt negb xdiv xsub xneg xadd xmul].
    do 2 eexists. repeat split. lra.
  - cbn [xlt].
    assert (Hinv : 0 < / l) by (apply Rinv_0_lt_compat; assumption).
    destruct (Rlt_dec x1 l) as [Hx1l | Hx1l].
    + rewrite (Rltb_true Hx1l), ramp_real by lra.
      destruct (Rlt_dec x2 l) as [Hx2l | Hx2l].
      * rewrite (Rltb_true Hx2l), ramp_real by lra.
        do 2 eexists. repeat split.
        assert (Hq : x1 / l <= x2 / l)
          by (unfold Rdiv; apply Rmult_le_compat_r; lra).
        nra.
      * rewrite Rltb_false by lra. cbn [xsub xneg xadd].
        destruct (@decay_real hd c k (x2 + - l)) as (v & -> & Hv & _);
          try assumption; try lra.
        do 2 eexists. repeat split.
        assert (0 <= x1 / l < 1).
        { unfold Rdiv. split; [apply Rmult_le_pos; lra |].
          apply Rmult_lt_reg_r with l; [assumption |].
          rewrite Rmult_assoc, Rinv_l by lra. lra. }
        nra.
    + rewrite Rltb_false by lra. rewrite (Rltb_false (a := x2) (b := l)) by lra.
      cbn [xsub xneg xadd].
      destruct (@decay_real hd c k (x1 + - l)) as (v & -> & Hv & Hnext);
        try assumption; try lra.
      destruct (Hnext (x2 + - l)) as (v' & -> & Hv'); [lra |].
      do 2 eexists. repeat split. exact Hv'.
Qed.

Lemma finite_or_else (x : xreal) (q : Q) :
  finite x -> finite (or_else (N := number) x (XFin (Q2R q))).
Proof.
  intros Hx. unfold or_else. cbn [truthy number].
  destruct (to_boolean x); [assumption | exact I].
Qed.

(** [x || 1] for an [x] that is not negative: a positive number, or the
    positive infinity. *)
Lemma or_else_positive (x : xreal) (q : Q) :
  xlt x (XFin 0) = false -> (0 < Qnum q)%Z ->
  let y := or_else (N := number) x (XFin (Q2R q)) in
  nan_or_positive y /\ is_nan y = false.
Proof.
  intros Hx Hq y. unfold y, or_else. cbn [truthy number].
  apply Q2R_positive in Hq.
  destruct x as [ | sx | a]; cbn [to_boolean xlt] in *.
  - split; [exact Hq | reflexivity].
  - subst sx. split; reflexivity.
  - destruct (Req_dec_T a 0) as [-> | Ha].
    + rewrite Reqb_true by reflexivity. split; [exact Hq | reflexivity].
    + rewrite (Reqb_false Ha). cbn [negb nan_or_positive]. split; [| reflexivity].
      destruct (Rlt_dec a 0) as [Hlt | Hge]; [| lra].
      rewrite (Rltb_true Hlt) in Hx. discriminate.
Qed.

(** The mixer length of line 165: ten times a positive headloss, or 1. *)
Lemma mixerLen_positive (h : xreal) :
  let len :=
    if xlt (XFin (Q2R 0)) (or_else (N := number) h (XFin (Q2R 0)))
    then xmul h (XFin (Q2R 10))
    else XFin (Q2R 1) in
  nan_or_positive len /\ is_nan len = false.
Proof.
  assert (H0 : Q2R 0 = 0) by (unfold Q2R; simpl; lra).
  assert (H10 : Q2R 10 = 10) by (unfold Q2R; simpl; lra).
  assert (H1 : Q2R 1 = 1) by (unfold Q2R; simpl; lra).
  rewrite H0, H10, H1. unfold or_else. cbn [truthy number].
  destruct h as [ | sh | a]; cbn [to_boolean xlt].
  - rewrite Rltb_false by lra. split; [simpl; lra | reflexivity].
  - destruct sh; cbn [negb xmul].
    + split; [simpl; lra | reflexivity].
    + unfold inf_scaled. rewrite Reqb_false, Rltb_false by lra.
      split; reflexivity.
  - destruct (Req_dec_T a 0) as [-> | Ha].
    + rewrite Reqb_true by reflexivity. cbn [negb xlt].
      rewrite Rltb_false by lra. split; [simpl; lra | reflexivity].
    + rewrite (Reqb_false Ha). cbn [negb xlt].
      destruct (Rlt_dec 0 a) as [Hlt | Hge].
      * rewrite (Rltb_true Hlt). cbn [xmul].
        split; [simpl; lra | reflexivity].
      * rewrite Rltb_false by lra. split; [simpl; lra | reflexivity].
Qed.

Lemma xdiv_not_negative (x : xreal) (q : Q) :
  nan_or_nonnegative x -> (0 < Qnum q)%Z ->
  nan_or_nonnegative (xdiv x (XFin (Q2R q))).
Proof.
  intros Hx Hq. apply Q2R_positive in Hq.
  destruct x as [ | s | a]; cbn [xdiv nan_or_nonnegative] in *.
  - exact I.
  - subst s. rewrite Rltb_false by lra. reflexivity.
  - rewrite Reqb_false by lra. cbn [nan_or_nonnegative].
    apply Rmult_le_pos; [assumption |].
    left. apply Rinv_0_lt_compat. assumption.
Qed.

(** Line 184 over the two curves. *)
Lemma chart_cov (s : AppState number) (r : CalculationResults number)
    (i : Z) :
  results s = Some r ->
  let maxDist :=
    xmul
      (xmax
         (xmax (or_else (N := number) (mixingDistanceNeeded r) (XFin (Q2R 0)))
            (availableLength (inputs s)))
         (XFin (Q2R 5)))
      (XFin (Q2R 1.5)) in
  let dist := xmul (xdiv (XFin (Q2R (inject_Z i))) (XFin (Q2R 20))) maxDist in
  let decayRate := Body.decayRate (body (inputs s)) in
  let hd := or_else (N := number) (hydraulicDiameter r) (XFin (Q2R 1)) in
  ChartPoint.cov (chartPoint s i)
  = chart_clamp
      match mixerModel (inputs s) with
      | NONE =>
          natural_curve
            (xdiv
               (xsqrt
                  (xdiv
                     (xmul (xdiv (flowRate (inputs s)) (XFin (Q2R 3600)))
                        (XFin (Q2R 3600000)))
                     (or_else (N := number)
                        (xadd (chemicalFlow (inputs s))
                           (dilutionWaterFlow (inputs s)))
                        (XFin (Q2R 1)))))
               match injectionType (inputs s) with
               | TWIN => XFin (Q2R 2)
               | SINGLE => XFin (Q2R 1)
               end)
            decayRate hd dist
      | _ =>
          mixer_curve
            (or_else (N := number) (mixerCoV r) (XFin (Q2R 1.0)))
            decayRate hd
            (if xlt (XFin (Q2R 0))
                  (or_else (N := number) (headlossMeters r) (XFin (Q2R 0)))
             then xmul (headlossMeters r) (XFin (Q2R 10))
             else XFin (Q2R 1))
            dist
      end.
Proof.
  intros Hr. unfold chartPoint. rewrite Hr.
  destruct (mixerModel (inputs s)); reflexivity.
Qed.

(** X16. Along the conduit the plotted CoV never rises: of two points of
    the chart the later has the CoV of the earlier (both are NaN, at most)
    or a smaller one.  The result plotted is one of the engine's, for any
    input; its hydraulic diameter is not negative and its required
    distance finite, as the form's length is. *)
Theorem chart_cov_never_rises (s : AppState number)
    (i0 : MixingInputs number) (i j : Z) :
  results s = Some (calculateMixing i0) ->
  finite (availableLength (inputs s)) ->
  finite (mixingDistanceNeeded (calculateMixing i0)) ->
  xlt (hydraulicDiameter (calculateMixing i0)) (XFin 0) = false ->
  (0 <= i <= j)%Z ->
  ChartPoint.cov (chartPoint s i) = ChartPoint.cov (chartPoint s j)
  \/ xle (ChartPoint.cov (chartPoint s j)) (ChartPoint.cov (chartPoint s i))
     = true.
Proof.
  intros Hr HL Hm Hh [Hi Hij].
  rewrite !(chart_cov _ _ Hr).
  set (r := calculateMixing i0) in *.
  (* the distances *)
  pose proof (@finite_or_else _ 0%Q Hm) as Hm'.
  destruct (or_else (N := number) (mixingDistanceNeeded r) (XFin (Q2R 0)))
    as [ | | m]; try contradiction.
  destruct (availableLength (inputs s)) as [ | | L]; try contradiction.
  destruct (xmax_reals m L) as (m1 & -> & _ & _).
  destruct (xmax_reals m1 (Q2R 5)) as (m2 & -> & _ & H5).
  assert (HD : 0 < m2 * Q2R 1.5) by (unfold Q2R in *; simpl in *; nra).
  cbn [xmul]. set (D := m2 * Q2R 1.5) in *.
  rewrite !xdiv_real by (unfold Q2R; simpl; lra). cbn [xmul].
  assert (Hx : 0 <= Q2R (inject_Z i) / Q2R 20 * D
               <= Q2R (inject_Z j) / Q2R 20 * D).
  { assert (Hi' : 0 <= IZR i <= IZR j) by (split; apply IZR_le; lia).
    unfold Q2R. simpl. split; nra. }
  set (x1 := Q2R (inject_Z i) / Q2R 20 * D) in *.
  set (x2 := Q2R (inject_Z j) / Q2R 20 * D) in *.
  (* the decay rate and the diameter *)
  pose proof (positive_decayRate (inputs s)) as Hk.
  destruct (Body.decayRate (body (inputs s))) as [ | | k]; try contradiction.
  cbn [positive] in Hk.
  destruct (@or_else_positive (hydraulicDiameter r) 1%Q Hh eq_refl) as [Hd Hdn].
  set (hd := or_else (N := number) (hydraulicDiameter r) (XFin (Q2R 1))) in *.
  assert (Hnatural : forall coVi, nan_or_nonnegative coVi ->
            chart_clamp (natural_curve coVi (XFin k) hd (XFin x1))
            = chart_clamp (natural_curve coVi (XFin k) hd (XFin x2))
            \/ xle (chart_clamp (natural_curve coVi (XFin k) hd (XFin x2)))
                 (chart_clamp (natural_curve coVi (XFin k) hd (XFin x1)))
               = true).
  { intros coVi Hc. apply falls_chart_clamp.
    apply natural_curve_falls; try assumption. apply Hx. }
  assert (Hmixer :
    let c := or_else (N := number) (mixerCoV r) (XFin (Q2R 1.0)) in
    let len :=
      if xlt (XFin (Q2R 0))
           (or_else (N := number) (headlossMeters r) (XFin (Q2R 0)))
      then xmul (headlossMeters r) (XFin (Q2R 10))
      else XFin (Q2R 1) in
    chart_clamp (mixer_curve c (XFin k) hd len (XFin x1))
    = chart_clamp (mixer_curve c (XFin k) hd len (XFin x2))
    \/ xle (chart_clamp (mixer_curve c (XFin k) hd len (XFin x2)))
         (chart_clamp (mixer_curve c (XFin k) hd len (XFin x1))) = true).
  { intros c len.
    destruct (mixerLen_positive (headlossMeters r)) as [Hl Hln].
    fold len in Hl, Hln.
    assert (Hc : exists c0, c = XFin c0 /\ 0 < c0 <= 1).
    { unfold c, r.
      change (mixerCoV (calculateMixing i0)) with (Body.mixerCoV (body i0)).
      rewrite eq_mixerCoV.
      destruct (clamp_range (Body.mixerCoV_raw (body i0))) as (c0 & -> & Hc0).
      exists c0. split; [| lra].
      apply positive_or_else. simpl. lra. }
    destruct Hc as (c0 & -> & Hc0).
    destruct (@mixer_curve_falls hd len c0 k x1 x2) as (v1 & v2 & -> & -> & Hv);
      try assumption.
    right. apply chart_clamp_keeps_order. exact Hv. }
  destruct (mixerModel (inputs s)); try exact Hmixer.
  apply Hnatural.
  destruct (injectionType (inputs s));
    (apply xdiv_not_negative; [apply xsqrt_not_negative | reflexivity]).
Qed.

(** The curve behind a mixer whose CoV is below 1 starts at 1 and is below
    1 at every later distance. *)
Lemma mixer_curve_drops (hd : xreal) (c k l x : R) :
  0 < c < 1 -> 0 < k -> nan_or_positive hd -> is_nan hd = false ->
  0 < l -> 0 < x ->
  mixer_curve (XFin c) (XFin k) hd (XFin l) (XFin 0) = XFin 1
  /\ exists v,
       mixer_curve (XFin c) (XFin k) hd (XFin l) (XFin x) = XFin v /\ v < 1.
Proof.
  intros Hc Hk Hd Hdn Hl Hx.
  assert (H1 : Q2R 1.0 = 1) by (unfold Q2R; simpl; lra).
  unfold mixer_curve. rewrite H1. cbn [xlt].
  assert (Hinv : 0 < / l) by (apply Rinv_0_lt_compat; assumption).
  split.
  - rewrite (Rltb_true Hl), ramp_real by lra. f_equal. unfold Rdiv. ring.
  - destruct (Rlt_dec x l) as [Hxl | Hxl].
    + rewrite (Rltb_true Hxl), ramp_real by lra.
      eexists. split; [reflexivity |].
      assert (0 < x / l) by (unfold Rdiv; apply Rmult_lt_0_compat; lra).
      nra.
    + rewrite Rltb_false by lra. cbn [xsub xneg xadd].
      destruct (@decay_real hd c k (x + - l)) as (v & -> & Hv & _);
        try assumption; try lra.
      exists v. split; [reflexivity | lra].
Qed.

(** The mixer length of line 165 for a finite headloss: a positive real
    number. *)
Lemma mixerLen_real (h : xreal) :
  finite h ->
  exists l,
    (if xlt (XFin (Q2R 0)) (or_else (N := number) h (XFin (Q2R 0)))
     then xmul h (XFin (Q2R 10))
     else XFin (Q2R 1)) = XFin l /\ 0 < l.
Proof.
  intros Hh. destruct (mixerLen_positive h) as [Hl Hn].
  cbv zeta in Hl, Hn.
  destruct h as [ | | a]; try contradiction.
  destruct (xlt _ _).
  - cbn [xmul] in *. eexists. split; [reflexivity | exact Hl].
  - eexists. split; [reflexivity | exact Hl].
Qed.

(** The clamp of line 184 on a number below 1. *)
Lemma chart_clamp_below_one (v : R) :
  v < 1 -> xlt (chart_clamp (XFin v)) (chart_clamp (XFin 1)) = true.
Proof.
  intros Hv. rewrite !chart_clamp_real. cbn [xlt].
  rewrite (Rltb_true (a := 1 / 1000) (b := 1)) by lra.
  rewrite (Rltb_false (a := 1) (b := 1)) by lra.
  rewrite (Rltb_true Hv). apply Rltb_true.
  destruct (Rltb (1 / 1000) v); lra.
Qed.

(** Behind a mixer whose CoV is below 1 the chart falls: its last point is
    strictly below its first. *)
Lemma chart_cov_drops (s : AppState number) (i0 : MixingInputs number) :
  results s = Some (calculateMixing i0) ->
  mixerModel (inputs s) <> NONE ->
  finite (availableLength (inputs s)) ->
  finite (mixingDistanceNeeded (calculateMixing i0)) ->
  finite (headlossMeters (calculateMixing i0)) ->
  xlt (hydraulicDiameter (calculateMixing i0)) (XFin 0) = false ->
  xlt (mixerCoV (calculateMixing i0)) (XFin (Q2R 1.0)) = true ->
  xlt (ChartPoint.cov (chartPoint s 20)) (ChartPoint.cov (chartPoint s 0))
  = true.
Proof.
  intros Hr Hmodel HL Hm Hloss Hh Hcov.
  rewrite !(chart_cov _ _ Hr).
  set (r := calculateMixing i0) in *.
  (* the distances *)
  pose proof (@finite_or_else _ 0%Q Hm) as Hm'.
  destruct (or_else (N := number) (mixingDistanceNeeded r) (XFin (Q2R 0)))
    as [ | | m]; try contradiction.
  destruct (availableLength (inputs s)) as [ | | L]; try contradiction.
  destruct (xmax_reals m L) as (m1 & -> & _ & _).
  destruct (xmax_reals m1 (Q2R 5)) as (m2 & -> & _ & H5).
  assert (HD : 0 < m2 * Q2R 1.5) by (unfold Q2R in *; simpl in *; nra).
  cbn [xmul]. set (D := m2 * Q2R 1.5) in *.
  rewrite !xdiv_real by (unfold Q2R; simpl; lra). cbn [xmul].
  replace (Q2R (inject_Z 0) / Q2R 20 * D) with 0
    by (unfold Q2R; simpl; lra).
  replace (Q2R (inject_Z 20) / Q2R 20 * D) with D
    by (unfold Q2R; simpl; lra).
  (* the decay rate, the diameter, the mixer length and the mixer's CoV *)
  pose proof (positive_decayRate (inputs s)) as Hk.
  destruct (Body.decayRate (body (inputs s))) as [ | | k]; try contradiction.
  cbn [positive] in Hk.
  destruct (@or_else_positive (hydraulicDiameter r) 1%Q Hh eq_refl) as [Hd Hdn].
  set (hd := or_else (N := number) (hydraulicDiameter r) (XFin (Q2R 1))) in *.
  destruct (mixerLen_real (headlossMeters r) Hloss) as (l & -> & Hl).
  assert (Hc : exists c0, or_else (N := number) (mixerCoV r) (XFin (Q2R 1.0))
                          = XFin c0 /\ 0 < c0 < 1).
  { unfold r in *.
    change (mixerCoV (calculateMixing i0)) with (Body.mixerCoV (body i0)) in *.
    rewrite eq_mixerCoV in *.
    destruct (clamp_range (Body.mixerCoV_raw (body i0))) as (c0 & E & Hc0).
    rewrite E in *. rewrite hi_value in Hcov. cbn [xlt] in Hcov.
    apply Rltb_iff in Hcov.
    exists c0. split; [| lra].
    apply positive_or_else. simpl. lra. }
  destruct Hc as (c0 & -> & Hc0).
  destruct (@mixer_curve_drops hd c0 k l D Hc0 Hk Hd Hdn Hl HD)
    as (E0 & v & ED & Hv).
  destruct (mixerModel (inputs s)); try congruence;
    rewrite E0, ED; apply chart_clamp_below_one, Hv.
Qed.

(** The inputs of [smv_state] are well-formed. *)
Lemma smv_state_well_formed : well_formed (inputs (smv_state (N := number))).
Proof.
  unfold well_formed.
  change (inputs (smv_state (N := number)))
    with (set_mixerModel (N := number) SMV app_defaults).
  cbn [set_mixerModel app_defaults mixerModel numElements flowRate
       dimension depth availableLength viscosity density chemicalDose
       chemicalDensity chemicalViscosity targetCoV targetMixingTime
       waterTemperature].
  exact_ops.
  repeat split; try (apply positive_lit; reflexivity).
  exists (Q2R 15). repeat split; unfold Q2R; simpl; lra.
Qed.

(** Four SMV elements in the form's initial pipe give a CoV below 0.3. *)
Lemma smv_state_below_ceiling :
  xlt (mixerCoV (calculateMixing (inputs (smv_state (N := number)))))
    (XFin (Q2R 1.0)) = true.
Proof.
  change (mixerCoV (calculateMixing (inputs (smv_state (N := number)))))
    with (Body.mixerCoV (body (inputs (smv_state (N := number))))).
  rewrite eq_mixerCoV.
  destruct (eq_switch (inputs (smv_state (N := number)))) as (-> & _).
  change (mixerModel (inputs (smv_state (N := number)))) with SMV.
  change (numElements (inputs (smv_state (N := number))))
    with (XFin (Q2R 4)).
  change (Body.Re (body (inputs (smv_state (N := number)))))
    with (Body.Re (body (N := number) app_defaults)).
  change (Body.alpha (body (inputs (smv_state (N := number)))))
    with (Body.alpha (body (N := number) app_defaults)).
  destruct initial_pipe_hydraulics as (re & al & -> & -> & Hb & _).
  cbn [correlation Switch.mixerCoV]. exact_ops.
  rewrite !xpow_positive by (try (unfold Q2R; simpl); lra).
  cbn [xmul]. apply clamp_below_ceiling.
  assert (E0 : Q2R 0.3 = 3 / 10) by (unfold Q2R; simpl; lra).
  assert (E4 : Q2R 4 = 4) by (unfold Q2R; simpl; lra).
  rewrite E0, E4.
  assert (P1 : 0 < Rpower re (Q2R (-0.02)) <= 1).
  { split; [apply exp_pos |].
    apply Rpower_at_most_one; [| unfold Q2R; simpl]; lra. }
  assert (P2 : 0 < Rpower al (Q2R (-0.01)) <= 1).
  { split; [apply exp_pos |].
    apply Rpower_at_most_one; [| unfold Q2R; simpl]; lra. }
  assert (P3 : 0 < Rpower 4 (Q2R (-1.6)) <= 1).
  { split; [apply exp_pos |].
    apply Rpower_at_most_one; [| unfold Q2R; simpl]; lra. }
  set (a := Rpower re _) in *. set (c := Rpower al _) in *.
  set (d := Rpower 4 _) in *.
  assert (H1 : a * c <= 1 * 1) by (apply Rmult_le_compat; lra).
  assert (H2 : a * c * d <= 1 * 1 * 1).
  { apply Rmult_le_compat; try lra. apply Rmult_le_pos; lra. }
  lra.
Qed.

(** The first and the last point of the chart with four SMV elements in
    the form's initial pipe: the plotted CoV falls from 1 to below 0.3. *)
Lemma chart_cov_never_rises_witness :
  let s := smv_state (N := number) in
  (ChartPoint.cov (chartPoint s 0) = ChartPoint.cov (chartPoint s 20)
   \/ xle (ChartPoint.cov (chartPoint s 20)) (ChartPoint.cov (chartPoint s 0))
      = true)
  /\ xlt (ChartPoint.cov (chartPoint s 20)) (ChartPoint.cov (chartPoint s 0))
     = true.
Proof.
  pose proof smv_state_well_formed as Hwf.
  assert (Hd : xlt (hydraulicDiameter
                      (calculateMixing (inputs (smv_state (N := number)))))
                 (XFin 0) = false).
  { change (Rltb (Q2R 0.8) 0 = false). apply Rltb_false.
    unfold Q2R. simpl. lra. }
  split.
  - apply (@chart_cov_never_rises smv_state (inputs smv_state) 0 20).
    + reflexivity.
    + exact I.
    + apply positive_finite, (positive_distance Hwf).
    + exact Hd.
    + lia.
  - apply (@chart_cov_drops smv_state (inputs smv_state)).
    + reflexivity.
    + discriminate.
    + exact I.
    + apply positive_finite, (positive_distance Hwf).
    + apply positive_finite, (positive_headloss Hwf).
    + exact Hd.
    + exact smv_state_below_ceiling.
Defined.

End FormExact.

(** ** The engine and the form, in binary64 *)

Module B64More.
Import B64 B64Facts App.

Local Open Scope string_scope.

(** X17. HEV in a pipe is the exception: its correlation changes at
    [LD = 3] (line 101), and there the longer conduit can have the larger
    [mixerCoV].  In the form's initial pipe (0.8 m) with four HEV elements,
    2 m give about 0.0540 and 4 m about 0.0552. *)
Theorem hev_pipe_longer_can_be_worse :
  let short := calculateMixing (N := number refMath) (hev_pipe 2) in
  let long := calculateMixing (N := number refMath) (hev_pipe 4) in
  SFltb (mixerCoV short) (mixerCoV long) = true
  /\ SFltb (of_Q 0.0539) (mixerCoV short) = true
  /\ SFltb (mixerCoV short) (of_Q 0.0541) = true
  /\ SFltb (of_Q 0.0551) (mixerCoV long) = true
  /\ SFltb (mixerCoV long) (of_Q 0.0553) = true.
Proof. vm_compute. repeat split. Qed.

(** The clamp of line 184 has no test for NaN: it returns NaN for NaN, and
    a number between 0.001 and 1 otherwise. *)
Lemma chart_clamp_bounds (v : spec_float) :
  let c := min (of_Q 1.0) (max (of_Q 0.001) v) in
  if is_nan v then c = NaN
  else SFleb (of_Q 0.001) c = true /\ SFleb c (of_Q 1) = true.
Proof.
  intros c. unfold c. change (of_Q 1.0) with (of_Q 1).
  destruct (is_nan v) eqn:Hv.
  - destruct v; try discriminate. reflexivity.
  - destruct (max_cases (of_Q 0.001) v) as [[-> Hlt] | [-> _]];
      try reflexivity; try assumption.
    + destruct (min_cases (of_Q 1) v) as [-> | [-> Hlt']];
        try reflexivity; try assumption.
      * split; vm_compute; reflexivity.
      * split; [apply SFltb_leb, Hlt | apply SFltb_leb, Hlt'].
    + split; vm_compute; reflexivity.
Qed.

(** The clamp of line 186. *)
Lemma chart_dissolution_bound (v : spec_float) :
  let d := min (of_Q 100) v in
  is_nan d = true \/ SFleb d (of_Q 100) = true.
Proof.
  intros d. unfold d. destruct (is_nan v) eqn:Hv.
  - left. destruct v; try discriminate. reflexivity.
  - right. destruct (min_cases (of_Q 100) v) as [-> | [-> Hlt]];
      try reflexivity; try assumption.
    apply SFltb_leb, Hlt.
Qed.

Lemma chartPoint_plotted (M : MathLib) (s : AppState (number M)) (i : Z) :
  plotted s (chartPoint s i).
Proof.
  unfold plotted, chartPoint.
  cbn [ChartPoint.cov ChartPoint.dissolution ChartPoint.target].
  cbn [Math_min Math_max lit le isNaN number].
  repeat split.
  - match goal with
    | |- context [max (of_Q 0.001) ?v] =>
        pose proof (chart_clamp_bounds v) as H; cbv zeta in H;
        destruct (is_nan v); [left; rewrite H; reflexivity | right; exact H]
    end.
  - apply chart_dissolution_bound.
  - unfold isLime. intros ->. destruct (results s); vm_compute; reflexivity.
Qed.

(** X18. The chart has 21 points.  The CoV of each is NaN or between 0.001
    and 1 (line 184 has no test for NaN, as line 153 of the engine has);
    its dissolved fraction is NaN or at most 100, and 0 unless lime is
    selected; its target is the form's. *)
Theorem chart_is_within_its_axes (M : MathLib) (s : AppState (number M)) :
  List.length (chartData s) = 21%nat
  /\ Forall (plotted s) (chartData s).
Proof.
  split; [reflexivity |].
  unfold chartData. apply Forall_forall. intros p Hp.
  apply in_map_iff in Hp. destruct Hp as (i & <- & _).
  apply chartPoint_plotted.
Qed.

End B64More.
